(** * The log-analysis engine of [fetch_github_actions_logs.py]

    A shallow embedding of [analyze_log_errors] (lines 330-561 of
    [src/fetch_github_actions_logs.py]) and the properties of its step tracker,
    failure extractor, pattern matcher and summary renderer.

    Text.  A Python [str] is modelled by [string]: a sequence of 8-bit
    characters, read as the code points U+0000..U+00FF.  The character tables
    below (white space, digits, word characters, lower-casing) are those of
    Python 3 on that range.  The bullet that the report prints in front of list
    items lies outside the range and is written as the bytes of the literal.
    The properties are about logs in that range.

    Exceptions.  Operations that raise in Python (indexing a list, popping an
    empty list) return in the [res] monad, so that "never raises" is a theorem
    about the embedding and not a property of its type. *)

From Stdlib Require Import Strings.String Strings.Ascii Lists.List Arith.Arith
  Bool.Bool micromega.Lia Numbers.DecimalString.
Import ListNotations.
Open Scope string_scope.
Open Scope list_scope.
Open Scope nat_scope.

(** ** Python string operations *)

Module Py.

Definition nl : ascii := "010"%char.
Definition dquote : ascii := "034"%char.

(** [str.isspace] on one character, also the class [\s] of [re]. *)
Definition is_space (c : ascii) : bool :=
  let n := nat_of_ascii c in
  ((9 <=? n) && (n <=? 13)) || ((28 <=? n) && (n <=? 32))
  || (n =? 133) || (n =? 160).

(** The class [\d] of [re]: decimal digits. *)
Definition is_digit (c : ascii) : bool :=
  let n := nat_of_ascii c in (48 <=? n) && (n <=? 57).

(** The class [\w] of [re]: [str.isalnum] or the underscore. *)
Definition is_word (c : ascii) : bool :=
  let n := nat_of_ascii c in
  is_digit c
  || ((65 <=? n) && (n <=? 90)) || ((97 <=? n) && (n <=? 122)) || (n =? 95)
  || (n =? 170) || (n =? 181) || (n =? 186)
  || (n =? 178) || (n =? 179) || (n =? 185)
  || ((188 <=? n) && (n <=? 190))
  || ((192 <=? n) && (n <=? 214)) || ((216 <=? n) && (n <=? 246))
  || (248 <=? n).

(** [str.lower] on one character. *)
Definition lower_char (c : ascii) : ascii :=
  let n := nat_of_ascii c in
  if ((65 <=? n) && (n <=? 90))
     || ((192 <=? n) && (n <=? 222) && negb (n =? 215))
  then ascii_of_nat (n + 32) else c.

Fixpoint lower (s : string) : string :=
  match s with
  | EmptyString => EmptyString
  | String c s' => String (lower_char c) (lower s')
  end.

(** [s.startswith(p)] *)
Fixpoint startswith (p s : string) : bool :=
  match p, s with
  | EmptyString, _ => true
  | String a p', String b s' => Ascii.eqb a b && startswith p' s'
  | String _ _, EmptyString => false
  end.

(** [p in s] *)
Fixpoint contains (p s : string) : bool :=
  startswith p s
  || match s with
     | EmptyString => false
     | String _ s' => contains p s'
     end.

(** [s[:n]] *)
Fixpoint take (n : nat) (s : string) : string :=
  match n, s with
  | S k, String c s' => String c (take k s')
  | _, _ => EmptyString
  end.

Fixpoint lstrip (s : string) : string :=
  match s with
  | String c s' => if is_space c then lstrip s' else s
  | EmptyString => EmptyString
  end.

Fixpoint rstrip (s : string) : string :=
  match s with
  | EmptyString => EmptyString
  | String c s' =>
      match rstrip s' with
      | EmptyString => if is_space c then EmptyString else String c EmptyString
      | r => String c r
      end
  end.

(** [s.strip()] *)
Definition strip (s : string) : string := rstrip (lstrip s).

(** [s.replace(old, new)] for a non-empty [old]: occurrences are replaced from
    the left and do not overlap; [skip] counts the characters of an occurrence
    still to be dropped. *)
Fixpoint replace_from (old new : string) (skip : nat) (s : string) : string :=
  match s with
  | EmptyString => EmptyString
  | String c s' =>
      match skip with
      | S k => replace_from old new k s'
      | O =>
          if startswith old s
          then new ++ replace_from old new (String.length old - 1) s'
          else String c (replace_from old new 0 s')
      end
  end.

Definition replace (old new s : string) : string := replace_from old new 0 s.

(** [s.split(sep)] for a separator of one character. *)
Fixpoint split (sep : ascii) (s : string) : list string :=
  match s with
  | EmptyString => [EmptyString]
  | String c s' =>
      if Ascii.eqb c sep then EmptyString :: split sep s'
      else match split sep s' with
           | cur :: rest => String c cur :: rest
           | [] => [String c EmptyString]
           end
  end.

(** [sep.join(l)] *)
Definition join (sep : string) (l : list string) : string := String.concat sep l.

(** [c * n] for a character [c] *)
Fixpoint repeat_char (c : ascii) (n : nat) : string :=
  match n with
  | O => EmptyString
  | S k => String c (repeat_char c k)
  end.

(** [str(n)] for a natural number *)
Definition str_of_nat (n : nat) : string := NilEmpty.string_of_uint (Nat.to_uint n).

(** Truth value of a string: empty is false. *)
Definition nonempty (s : string) : bool :=
  match s with EmptyString => false | String _ _ => true end.

(** Truth value of a list: empty is false. *)
Definition nonempty_list {A} (l : list A) : bool :=
  match l with [] => false | _ :: _ => true end.

(** [x in l] for a list of strings *)
Definition mem (x : string) (l : list string) : bool := existsb (String.eqb x) l.

(** [l[-n:]] *)
Definition last_n {A} (n : nat) (l : list A) : list A := skipn (length l - n) l.

(** [range(a, b)] *)
Definition range (a b : nat) : list nat := seq a (b - a).

End Py.

(** ** Regular expressions of the [re] module, as far as the program uses them *)

Module Re.

Inductive cclass : Type :=
| Chr (c : ascii)      (* a literal character *)
| Dot                  (* [.]: any character but the newline *)
| Digit                (* [\d] *)
| Word                 (* [\w] *)
| Space.               (* [\s] *)

Inductive regex : Type :=
| Void                          (* matches nothing *)
| Eps                           (* matches the empty string *)
| Sym (k : cclass)
| Cat (r1 r2 : regex)
| Alt (r1 r2 : regex)           (* [r1|r2] *)
| Star (r : regex).             (* [r*] *)

Definition Plus (r : regex) : regex := Cat r (Star r).

Fixpoint Lit (s : string) : regex :=
  match s with
  | EmptyString => Eps
  | String c s' => Cat (Sym (Chr c)) (Lit s')
  end.

(** Does the character [c] of the text match the class [k]?  With the flag
    [re.IGNORECASE] ([ic]) a literal matches when both lower to the same
    character.  This is the whole of the flag on U+0000..U+00FF, the range of
    [string]; above it [re] also lets the letter i match U+0131 and the
    letter s match U+017F, texts that this development does not reach. *)
Definition sym_match (ic : bool) (k : cclass) (c : ascii) : bool :=
  match k with
  | Chr a => if ic then Ascii.eqb (Py.lower_char a) (Py.lower_char c) else Ascii.eqb a c
  | Dot => negb (Ascii.eqb c Py.nl)
  | Digit => Py.is_digit c
  | Word => Py.is_word c
  | Space => Py.is_space c
  end.

Fixpoint nullable (r : regex) : bool :=
  match r with
  | Void => false
  | Eps => true
  | Sym _ => false
  | Cat r1 r2 => nullable r1 && nullable r2
  | Alt r1 r2 => nullable r1 || nullable r2
  | Star _ => true
  end.

Definition cat (r1 r2 : regex) : regex :=
  match r1, r2 with
  | Void, _ => Void
  | _, Void => Void
  | Eps, _ => r2
  | _, _ => Cat r1 r2
  end.

Definition alt (r1 r2 : regex) : regex :=
  match r1, r2 with
  | Void, _ => r2
  | _, Void => r1
  | _, _ => Alt r1 r2
  end.

(** Brzozowski derivative: what remains to be matched after reading [c]. *)
Fixpoint deriv (ic : bool) (c : ascii) (r : regex) : regex :=
  match r with
  | Void => Void
  | Eps => Void
  | Sym k => if sym_match ic k c then Eps else Void
  | Cat r1 r2 =>
      if nullable r1
      then alt (cat (deriv ic c r1) r2) (deriv ic c r2)
      else cat (deriv ic c r1) r2
  | Alt r1 r2 => alt (deriv ic c r1) (deriv ic c r2)
  | Star r1 => cat (deriv ic c r1) (Star r1)
  end.

(** [re.match(r, s)] is not [None]: some prefix of [s] matches [r]. *)
Fixpoint matches (ic : bool) (r : regex) (s : string) : bool :=
  nullable r
  || match s with
     | EmptyString => false
     | String c s' => matches ic (deriv ic c r) s'
     end.

(** [re.search(r, s)] is not [None]: the match may start anywhere. *)
Fixpoint search (ic : bool) (r : regex) (s : string) : bool :=
  matches ic r s
  || match s with
     | EmptyString => false
     | String _ s' => search ic r s'
     end.

(** The longest prefix of [s] made of characters of class [k]. *)
Fixpoint span (k : cclass) (s : string) : string :=
  match s with
  | EmptyString => EmptyString
  | String c s' => if sym_match false k c then String c (span k s') else EmptyString
  end.

Fixpoint drop (n : nat) (s : string) : string :=
  match n, s with
  | S k, String _ s' => drop k s'
  | _, _ => s
  end.

(** [re.search(lit (k+), s)] with its group 1: the leftmost place where the
    literal [lit] is followed by at least one character of class [k]; the
    group is greedy and takes all the characters of the class that follow.
    [None] when there is no match. *)
Fixpoint search_group (lit : string) (k : cclass) (s : string) : option string :=
  let here :=
    if Py.startswith lit s
    then match span k (drop (String.length lit) s) with
         | EmptyString => None
         | g => Some g
         end
    else None in
  match here with
  | Some g => Some g
  | None =>
      match s with
      | EmptyString => None
      | String _ s' => search_group lit k s'
      end
  end.

End Re.

(** ** Exceptions *)

Inductive exn : Type := IndexError.

Inductive res (A : Type) : Type :=
| Ok (a : A)
| Raise (e : exn).
Arguments Ok {A} a.
Arguments Raise {A} e.

Definition bind {A B} (m : res A) (k : A -> res B) : res B :=
  match m with
  | Ok a => k a
  | Raise e => Raise e
  end.

Notation "x <- m ;; k" := (bind m (fun x => k))
  (at level 61, m at next level, right associativity).

(** [l[i]] *)
Definition index {A} (l : list A) (i : nat) : res A :=
  match nth_error l i with
  | Some x => Ok x
  | None => Raise IndexError
  end.

(** [l[-1]] *)
Definition index_last {A} (l : list A) : res A :=
  match l with
  | [] => Raise IndexError
  | _ :: _ => index l (length l - 1)
  end.

(** [l.pop()]: the list without its last element. *)
Definition pop {A} (l : list A) : res (list A) :=
  match l with
  | [] => Raise IndexError
  | _ :: _ => Ok (removelast l)
  end.

(** ** The data of one analysis *)

(** An entry of [failed_steps]: the dictionary [{'name': .., 'errors': [..]}]. *)
Record failed_step : Type := FailedStep {
  name : string;
  errors : list string
}.

(** The local variables of [analyze_log_errors] that live across lines.
    [step_stack] is a Python list used as a stack: its top is its last
    element.  [current_step] is [None] or a string. *)
Record state : Type := State {
  current_step : option string;
  step_stack : list string;
  failed_steps : list failed_step;
  error_messages : list string;
  in_error_section : bool;
  error_context : list string;
  exit_codes : list (string * option string)
}.

Definition init : state := State None [] [] [] false [] [].

Definition set_current_step (v : option string) (st : state) : state :=
  State v (step_stack st) (failed_steps st) (error_messages st)
        (in_error_section st) (error_context st) (exit_codes st).
Definition set_step_stack (v : list string) (st : state) : state :=
  State (current_step st) v (failed_steps st) (error_messages st)
        (in_error_section st) (error_context st) (exit_codes st).
Definition set_failed_steps (v : list failed_step) (st : state) : state :=
  State (current_step st) (step_stack st) v (error_messages st)
        (in_error_section st) (error_context st) (exit_codes st).
Definition set_error_messages (v : list string) (st : state) : state :=
  State (current_step st) (step_stack st) (failed_steps st) v
        (in_error_section st) (error_context st) (exit_codes st).
Definition set_in_error_section (v : bool) (st : state) : state :=
  State (current_step st) (step_stack st) (failed_steps st) (error_messages st)
        v (error_context st) (exit_codes st).
Definition set_error_context (v : list string) (st : state) : state :=
  State (current_step st) (step_stack st) (failed_steps st) (error_messages st)
        (in_error_section st) v (exit_codes st).
Definition set_exit_codes (v : list (string * option string)) (st : state) : state :=
  State (current_step st) (step_stack st) (failed_steps st) (error_messages st)
        (in_error_section st) (error_context st) v.

(** The test [if current_step:] with the name it lets through: [None] and the
    empty string are both false. *)
Definition active (cs : option string) : option string :=
  match cs with
  | Some (String _ _ as n) => Some n
  | _ => None
  end.

(** The loop
<<
    step_found = False
    for step in failed_steps:
        if step['name'] == step_name:
            step_found = True
            (body, which may change the step)
            break
>>
    It returns the list after the body and [step_found]. *)
Fixpoint for_step (step_name : string) (body : failed_step -> failed_step)
    (steps : list failed_step) : list failed_step * bool :=
  match steps with
  | [] => ([], false)
  | step :: rest =>
      if String.eqb (name step) step_name then (body step :: rest, true)
      else let (rest', found) := for_step step_name body rest in
           (step :: rest', found)
  end.

Definition append_error (e : string) (step : failed_step) : failed_step :=
  FailedStep (name step) (errors step ++ [e]).

Definition same_step (step : failed_step) : failed_step := step.

(** ** Step tracker (lines 355-376) *)

Definition track_group (line : string) (st : state) : state :=
  if Py.contains "##[group]" line then
    match Re.search_group "##[group]" Re.Dot line with
    | Some g =>
        let step_name := Py.strip g in
        set_current_step (Some step_name)
          (set_step_stack (step_stack st ++ [step_name]) st)
    | None => st
    end
  else st.

Definition track_endgroup (line : string) (st : state) : res state :=
  if Py.contains "##[endgroup]" line then
    if Py.nonempty_list (step_stack st) then
      stack <- pop (step_stack st) ;;
      cur <- (if Py.nonempty_list stack
              then top <- index_last stack ;; Ok (Some top)
              else Ok None) ;;
      Ok (set_current_step cur (set_step_stack stack st))
    else Ok st
  else Ok st.

Definition command_step (cmd : string) : string := "Command: " ++ Py.take 50 cmd.

Definition track_command (line : string) (st : state) : state :=
  if Py.contains "##[command]" line then
    match Re.search_group "##[command]" Re.Dot line with
    | Some g =>
        let cmd := Py.strip g in
        match active (current_step st) with
        | None => set_current_step (Some (command_step cmd)) st
        | Some _ => st
        end
    | None => st
    end
  else st.

(** ** Failure extractor (lines 378-487) *)

(** Error markers and the context lines after them (lines 379-404). *)
Definition detect_error (line : string) (st : state) : state :=
  if Py.contains "##[error]" line then
    let st := set_in_error_section true st in
    let error_text := Py.strip (Py.replace "##[error]" EmptyString line) in
    if Py.nonempty error_text then
      let st := set_error_messages (error_messages st ++ [error_text]) st in
      let st :=
        match active (current_step st) with
        | Some step_name =>
            let (steps, step_found) :=
              for_step step_name (append_error error_text) (failed_steps st) in
            if negb step_found
            then set_failed_steps (steps ++ [FailedStep step_name [error_text]]) st
            else set_failed_steps steps st
        | None => st
        end in
      set_error_context [error_text] st
    else st
  else if in_error_section st then
    if Py.nonempty (Py.strip line)
       && negb (Py.startswith "##" line || Py.startswith "2025-" line) then
      let st := set_error_context (error_context st ++ [Py.strip line]) st in
      if 8 <? length (error_context st) then set_in_error_section false st else st
    else if Py.contains "##[group]" line || Py.contains "##[endgroup]" line then
      set_in_error_section false st
    else st
  else st.

Definition exit_message (code : string) : string := "Process exited with code " ++ code.

(** Exit codes (lines 407-421). *)
Definition detect_exit (line : string) (st : state) : state :=
  if Py.contains "Process completed with exit code" line then
    match Re.search_group "exit code " Re.Digit line with
    | Some code =>
        let st := set_exit_codes (exit_codes st ++ [(code, current_step st)]) st in
        if negb (String.eqb code "0") then
          match active (current_step st) with
          | Some step_name =>
              let (steps, step_found) :=
                for_step step_name same_step (failed_steps st) in
              if negb step_found
              then set_failed_steps (steps ++ [FailedStep step_name [exit_message code]]) st
              else set_failed_steps steps st
          | None => st
          end
        else st
    | None => st
    end
  else st.

(** The literal text File followed by a space and a double quote. *)
Definition file_quote : string := "File " ++ String Py.dquote EmptyString.

(** [^\s*\w+Error:], [^\s*\w+Exception:], [^\s*\w+Warning:] under [re.match],
    which anchors at the start as [^] does. *)
Definition re_word_then (suffix : string) : Re.regex :=
  Re.Cat (Re.Star (Re.Sym Re.Space)) (Re.Cat (Re.Plus (Re.Sym Re.Word)) (Re.Lit suffix)).

(** [Error:|Exception:|Warning:] *)
Definition re_exception : Re.regex :=
  Re.Alt (Re.Lit "Error:") (Re.Alt (Re.Lit "Exception:") (Re.Lit "Warning:")).

(** The test of lines 443-446. *)
Definition is_exception_line (next_line : string) : bool :=
  Re.matches false (re_word_then "Error:") next_line
  || Re.matches false (re_word_then "Exception:") next_line
  || Re.matches false (re_word_then "Warning:") next_line
  || Re.search false re_exception next_line.

(** The loop of lines 449-453 over [k]: lines after the exception message. *)
Fixpoint tb_context (lines : list string) (ks : list nat) (tb_lines : list string)
    : res (list string) :=
  match ks with
  | [] => Ok tb_lines
  | k :: ks' =>
      line_k <- index lines k ;;
      if Py.nonempty (Py.strip line_k)
         && negb (Py.startswith "##" (Py.strip line_k))
      then tb_context lines ks' (tb_lines ++ [line_k])
      else Ok tb_lines
  end.

(** The loop of lines 438-460 over [j]. *)
Fixpoint tb_scan (lines : list string) (js : list nat) (tb_lines : list string)
    (exception_found : bool) : res (list string) :=
  match js with
  | [] => Ok tb_lines
  | j :: js' =>
      next_line <- index lines j ;;
      let tb_lines := tb_lines ++ [next_line] in
      if is_exception_line next_line then
        tb_context lines (Py.range (j + 1) (Nat.min (j + 5) (length lines))) tb_lines
      else if Py.contains "##[" next_line
              && negb (Py.contains "Traceback" next_line)
              && negb (Py.contains file_quote next_line) then
        if negb exception_found
           && negb (existsb (Py.contains file_quote) (Py.last_n 3 tb_lines))
        then Ok tb_lines
        else tb_scan lines js' tb_lines exception_found
      else tb_scan lines js' tb_lines exception_found
  end.

(** Lines 436-460: the lines captured for a traceback that starts at line [i]. *)
Definition capture_traceback (lines : list string) (i : nat) (line : string)
    : res (list string) :=
  tb_scan lines (Py.range (i + 1) (Nat.min (i + 40) (length lines))) [line] false.

Definition is_traceback_line (line : string) : bool :=
  Py.contains "Traceback" line || Py.contains "traceback" (Py.lower line).

Definition nl_str : string := String Py.nl EmptyString.

(** The body of the loop of lines 467-473. *)
Definition add_traceback (tb_text : string) (step : failed_step) : failed_step :=
  let tb_preview := Py.take 1000 tb_text in
  if negb (Py.mem tb_preview (errors step)) then append_error tb_preview step else step.

(** Tracebacks (lines 424-473). *)
Definition detect_traceback (lines : list string) (i : nat) (line : string)
    (st : state) : res state :=
  if is_traceback_line line then
    let st :=
      match active (current_step st) with
      | Some step_name =>
          let (steps, step_found) := for_step step_name same_step (failed_steps st) in
          if negb step_found
          then set_failed_steps (steps ++ [FailedStep step_name []]) st
          else set_failed_steps steps st
      | None => st
      end in
    tb_lines <- capture_traceback lines i line ;;
    if Py.nonempty_list tb_lines then
      let tb_text := Py.join nl_str (firstn 30 tb_lines) in
      let st := set_error_messages (error_messages st ++ [tb_text]) st in
      match active (current_step st) with
      | Some step_name =>
          Ok (set_failed_steps
                (fst (for_step step_name (add_traceback tb_text) (failed_steps st))) st)
      | None => Ok st
      end
    else Ok st
  else Ok st.

(** [(FAILED|ERROR|FAIL)] *)
Definition re_failed : Re.regex :=
  Re.Alt (Re.Lit "FAILED") (Re.Alt (Re.Lit "ERROR") (Re.Lit "FAIL")).

Definition is_test_failure (line : string) : bool :=
  Re.search false re_failed line
  && (Py.contains "test" (Py.lower line) || Py.contains "pytest" (Py.lower line)).

(** The body of the loop of lines 480-485. *)
Definition add_test_failure (line : string) (step : failed_step) : failed_step :=
  if negb (Py.mem (Py.strip line) (errors step))
  then append_error (Py.take 200 (Py.strip line)) step
  else step.

(** Test failures (lines 476-487). *)
Definition detect_test (line : string) (st : state) : state :=
  if is_test_failure line then
    match active (current_step st) with
    | Some step_name =>
        let (steps, step_found) :=
          for_step step_name (add_test_failure line) (failed_steps st) in
        if negb step_found
        then set_failed_steps
               (steps ++ [FailedStep step_name [Py.take 200 (Py.strip line)]]) st
        else set_failed_steps steps st
    | None => st
    end
  else st.

(** The body of the loop over the lines (lines 354-487). *)
Definition process_line (lines : list string) (i : nat) (line : string)
    (st : state) : res state :=
  let st := track_group line st in
  st <- track_endgroup line st ;;
  let st := track_command line st in
  let st := detect_error line st in
  let st := detect_exit line st in
  st <- detect_traceback lines i line st ;;
  Ok (detect_test line st).

(** [for i, line in enumerate(lines)], from index [i] on. *)
Fixpoint process_from (lines : list string) (i : nat) (todo : list string)
    (st : state) : res state :=
  match todo with
  | [] => Ok st
  | line :: rest =>
      st' <- process_line lines i line st ;;
      process_from lines (S i) rest st'
  end.

(** The state after the loop, for a whole log. *)
Definition scan (logs : string) : res state :=
  let lines := Py.split Py.nl logs in
  process_from lines 0 lines init.

(** ** Pattern matcher (lines 514-532) *)

Definition any_text : Re.regex := Re.Star (Re.Sym Re.Dot).

(** The dictionary [failure_patterns], in the order of its items. *)
Definition failure_patterns : list (Re.regex * string) :=
  [ (Re.Alt (Re.Lit "ImportError") (Re.Lit "cannot import"),
     "Import error detected");
    (Re.Alt (Re.Lit "AttributeError") (Re.Lit "has no attribute"),
     "Attribute error detected");
    (Re.Alt (Re.Lit "TypeError") (Re.Lit "unsupported operand"),
     "Type error detected");
    (Re.Alt (Re.Lit "ValueError") (Re.Lit "invalid value"),
     "Value error detected");
    (Re.Alt (Re.Lit "ConnectionError")
       (Re.Alt (Re.Lit "Connection refused") (Re.Lit "Connection timeout")),
     "Connection error detected");
    (Re.Alt (Re.Lit "TimeoutError") (Re.Lit "timed out"),
     "Timeout error detected");
    (Re.Alt (Re.Lit "AssertionError")
       (Re.Cat (Re.Lit "assert") (Re.Cat any_text (Re.Lit "failed"))),
     "Test assertion failed");
    (Re.Alt (Re.Lit "HTTPError") (Re.Cat (Re.Lit "HTTP ") (Re.Plus (Re.Sym Re.Digit))),
     "HTTP error detected");
    (Re.Alt (Re.Lit "Database error")
       (Re.Alt (Re.Cat (Re.Lit "database") (Re.Cat any_text (Re.Lit "error")))
               (Re.Cat (Re.Lit "psql") (Re.Cat any_text (Re.Lit "error")))),
     "Database error detected");
    (Re.Alt (Re.Cat (Re.Lit "Test") (Re.Cat any_text (Re.Lit "failed")))
            (Re.Cat (Re.Lit "pytest") (Re.Cat any_text (Re.Lit "FAILED"))),
     "Test failure detected") ].

(** The loop of lines 530-532 over a table. *)
Fixpoint match_patterns (table : list (Re.regex * string)) (logs_lower : string)
    : list string :=
  match table with
  | [] => []
  | (pattern, description) :: rest =>
      if Re.search true pattern logs_lower
      then description :: match_patterns rest logs_lower
      else match_patterns rest logs_lower
  end.

Definition detected_patterns (logs : string) : list string :=
  match_patterns failure_patterns (Py.lower logs).

(** ** Summary renderer (lines 339-344 and 489-561) *)

Definition banner : string := Py.repeat_char "="%char 80.
Definition rule : string := Py.repeat_char "-"%char 80.
Definition title : string := "ERROR SUMMARY - Issues Found in This Workflow Run".
Definition fallback : string := "No explicit errors detected in log format.".
Definition full_log_follows : string := "Full log follows below:".

Definition header : list string := [banner; title; banner; EmptyString].
Definition trailer : list string := [banner; full_log_follows; banner; EmptyString].

(** Line 498 *)
Definition error_preview (first_error : string) : string :=
  Py.take 250 (Py.strip (Py.replace nl_str " " first_error)).

(** Lines 508-510 *)
Definition error_clean (error : string) : string :=
  let clean := Py.take 300 (Py.strip (Py.replace nl_str " " error)) in
  if 300 <? String.length error then clean ++ "..." else clean.

(** Lines 494-501: the lines of one failed step. *)
Definition step_lines (step : failed_step) : res (list string) :=
  let out := [("  • " ++ name step)%string] in
  if Py.nonempty_list (errors step) then
    first_error <- index (errors step) 0 ;;
    let out := out ++ [("    Error: " ++ error_preview first_error)%string] in
    if 1 <? length (errors step)
    then Ok (out ++ [("    (" ++ Py.str_of_nat (length (errors step))
                       ++ " more error(s) - see full log)")%string])
    else Ok out
  else Ok out.

Fixpoint all_step_lines (steps : list failed_step) : res (list string) :=
  match steps with
  | [] => Ok []
  | step :: rest =>
      l <- step_lines step ;;
      ls <- all_step_lines rest ;;
      Ok (l ++ ls)
  end.

(** Lines 490-502 *)
Definition failed_steps_section (steps : list failed_step) : res (list string) :=
  if Py.nonempty_list steps then
    body <- all_step_lines steps ;;
    Ok (["FAILED STEPS:"; rule] ++ body ++ [EmptyString])
  else Ok [].

(** [for i, error in enumerate(.., i)] of lines 507-511 *)
Fixpoint key_error_lines (i : nat) (errs : list string) : list string :=
  match errs with
  | [] => []
  | error :: rest =>
      ("  " ++ Py.str_of_nat i ++ ". " ++ error_clean error)%string
        :: key_error_lines (S i) rest
  end.

(** Lines 504-512 *)
Definition key_errors_section (msgs : list string) : list string :=
  if Py.nonempty_list msgs
  then ["KEY ERROR MESSAGES:"; rule] ++ key_error_lines 1 (firstn 5 msgs) ++ [EmptyString]
  else [].

(** Lines 534-539 *)
Definition patterns_section (detected : list string) : list string :=
  if Py.nonempty_list detected
  then ["DETECTED ISSUE TYPES:"; rule]
         ++ map (fun pattern => ("  • " ++ pattern)%string) detected ++ [EmptyString]
  else [].

Definition exit_code_line (ec : string * option string) : string :=
  let (code, step) := ec in
  let step_name := match active step with Some n => n | None => "Unknown step" end in
  ("  • Exit code " ++ code ++ " in: " ++ step_name)%string.

(** Lines 541-549 *)
Definition exit_codes_section (codes : list (string * option string)) : list string :=
  if Py.nonempty_list codes then
    let non_zero := filter (fun ec => negb (String.eqb (fst ec) "0")) codes in
    if Py.nonempty_list non_zero
    then ["NON-ZERO EXIT CODES:"; rule]
           ++ map exit_code_line (firstn 5 non_zero) ++ [EmptyString]
    else []
  else [].

(** Lines 551-554 *)
Definition fallback_section (st : state) : list string :=
  if negb (Py.nonempty_list (failed_steps st))
     && negb (Py.nonempty_list (error_messages st))
     && negb (Py.nonempty_list (exit_codes st))
  then [fallback; "Check the full log below for details."; EmptyString]
  else [].

(** [summary_lines] when the function returns. *)
Definition render (st : state) (detected : list string) : res (list string) :=
  steps <- failed_steps_section (failed_steps st) ;;
  Ok (header ++ steps ++ key_errors_section (error_messages st)
        ++ patterns_section detected ++ exit_codes_section (exit_codes st)
        ++ fallback_section st ++ trailer).

Definition summary_lines (logs : string) : res (list string) :=
  st <- scan logs ;;
  render st (detected_patterns logs).

Definition analyze_log_errors (logs : string) : res string :=
  summary_lines <- summary_lines logs ;;
  Ok (Py.join nl_str summary_lines).

(** A log given by its lines. *)
Definition log_of (lines : list string) : string := Py.join nl_str lines.

(** * Vocabulary of the statements *)

(** Logs, lines and states of the examples, and the predicates in which the
    properties are stated. *)

(** The first line of a Python traceback. *)
Definition traceback_line : string := "Traceback (most recent call last):".

(** The line the runner prints when a process fails with code 1. *)
Definition exit_line : string := "Process completed with exit code 1".

(** A failed step that carries the message [Process exited with code 1]. *)
Definition has_exit_failure (st : state) : Prop :=
  exists step, In step (failed_steps st) /\ In (exit_message "1") (errors step).

(** A command marker outside every group, then a group-close marker. *)
Definition command_log : list string := ["##[command]make"; "##[endgroup]"].

(** The list [failed_steps] after the loop. *)
Definition failed_steps_of (logs : string) : res (list failed_step) :=
  st <- scan logs ;; Ok (failed_steps st).

(** The same error marker twice in one group. *)
Definition duplicate_error_log : list string :=
  ["##[group]Build"; "##[error]Compile failed"; "##[error]Compile failed"; "##[endgroup]"].

(** A test-failure line of more than 200 characters. *)
Definition long_test_line : string := ("FAILED test_" ++ Py.repeat_char "x"%char 200)%string.

(** The lines of the example: a header, a frame and the exception message. *)
Definition tb_frame : string :=
  ("  File " ++ String Py.dquote ("a.py" ++ String Py.dquote ", line 1"))%string.
Definition tb_exception : string := "ValueError: bad".
Definition tb_block : list string := [traceback_line; tb_frame; tb_exception].

(** The test of line 450: a non-empty line that is not a marker. *)
Definition is_context_line (l : string) : bool :=
  Py.nonempty (Py.strip l) && negb (Py.startswith "##" (Py.strip l)).

(** The longest prefix of context lines. *)
Fixpoint context_prefix (ls : list string) : list string :=
  match ls with
  | l :: ls' => if is_context_line l then l :: context_prefix ls' else []
  | [] => []
  end.

(** [l1] is [l2] with some elements left out, in the same order. *)
Inductive subseq {A : Type} : list A -> list A -> Prop :=
| subseq_nil : subseq [] []
| subseq_skip x l1 l2 : subseq l1 l2 -> subseq l1 (x :: l2)
| subseq_keep x l1 l2 : subseq l1 l2 -> subseq (x :: l1) (x :: l2).

(** A line of the summary other than the fallback line. *)
Definition other_line (l : string) : Prop := String.eqb l fallback = false.

(** The four marker families: group-open, group-close, command and error. *)
Definition has_marker (line : string) : bool :=
  Py.contains "##[group]" line || Py.contains "##[endgroup]" line
  || Py.contains "##[command]" line || Py.contains "##[error]" line.

(** The signals of the failure extractor that are not markers. *)
Definition has_failure_signal (line : string) : bool :=
  Py.contains "Process completed with exit code" line
  || is_traceback_line line || is_test_failure line.

(** No recognized marker and no failure signal on any line of the log. *)
Definition plain_log (logs : string) : bool :=
  forallb (fun line => negb (has_marker line) && negb (has_failure_signal line))
          (Py.split Py.nl logs).

(** The three lists that decide the fallback. *)
Definition findings (st : state)
    : list failed_step * list string * list (string * option string) :=
  (failed_steps st, error_messages st, exit_codes st).

(** Lines 552-554. *)
Definition fallback_lines : list string :=
  [fallback; "Check the full log below for details."; EmptyString].

(** The lines of the summary that do not depend on the log. *)
Definition fixed_lines : list string :=
  header ++ trailer ++ fallback_lines
  ++ ["FAILED STEPS:"; "KEY ERROR MESSAGES:"; "DETECTED ISSUE TYPES:";
      "NON-ZERO EXIT CODES:"; rule].

(** Line 501. *)
Definition count_line (n : nat) : string :=
  ("    (" ++ Py.str_of_nat n ++ " more error(s) - see full log)")%string.

(** The lines a summary can hold, given the state after the loop and the
    detected patterns. *)
Inductive summary_line (st : state) (detected : list string) : string -> Prop :=
| line_fixed l :
    In l fixed_lines -> summary_line st detected l
| line_step step :
    In step (failed_steps st) ->
    summary_line st detected ("  • " ++ name step)
| line_error step first_error rest :
    In step (failed_steps st) -> errors step = first_error :: rest ->
    summary_line st detected ("    Error: " ++ error_preview first_error)
| line_count step :
    In step (failed_steps st) ->
    summary_line st detected (count_line (length (errors step)))
| line_key_error i error :
    1 <= i <= 5 -> In error (error_messages st) ->
    summary_line st detected ("  " ++ Py.str_of_nat i ++ ". " ++ error_clean error)
| line_pattern description :
    In description detected ->
    summary_line st detected ("  • " ++ description)
| line_exit_code ec :
    In ec (exit_codes st) ->
    summary_line st detected (exit_code_line ec).

(** Every error text held by [new] is held by [old] or has at most [n]
    characters. *)
Definition bounded_growth (n : nat) (old new : list failed_step) : Prop :=
  forall step e,
    In step new -> In e (errors step) ->
    (exists step0, In step0 old /\ In e (errors step0)) \/ String.length e <= n.

(** The line that shows the first error of a failed step. *)
Definition is_error_line (l : string) : bool := Py.startswith "    Error: " l.

(** A line of the section of key error messages. *)
Definition is_key_error_line (l : string) : bool :=
  existsb (fun prefix => Py.startswith prefix l)
          ["  1. "; "  2. "; "  3. "; "  4. "; "  5. "].

(** Inside the group [Build], before and after a traceback line. *)
Definition build_state : state := State (Some "Build") ["Build"] [] [] false [] [].

Definition build_state_after : state :=
  State (Some "Build") ["Build"] [FailedStep "Build" [traceback_line]]
        [traceback_line] false [] [].

From Stdlib Require Numbers.DecimalNat.

(** * Vocabulary of the further properties *)

(** Every character of [s] satisfies [p]. *)
Fixpoint all_chars (p : ascii -> bool) (s : string) : bool :=
  match s with
  | EmptyString => true
  | String c s' => p c && all_chars p s'
  end.

Definition not_newline (c : ascii) : bool := negb (Ascii.eqb c Py.nl).

(** A text without a newline. *)
Definition one_line (s : string) : bool := all_chars not_newline s.

(** What the extractor can do to [failed_steps] while [cur] is the current
    step: nothing, append an error to the step named [cur], or add a step
    named [cur] when there is none. *)
Inductive touched (cur : string) : list failed_step -> list failed_step -> Prop :=
| touched_same steps : touched cur steps steps
| touched_append e steps :
    touched cur steps (fst (for_step cur (append_error e) steps))
| touched_new errs steps :
    cur <> EmptyString ->
    existsb (fun step => String.eqb (name step) cur) steps = false ->
    touched cur steps (steps ++ [FailedStep cur errs])
| touched_trans a b c : touched cur a b -> touched cur b c -> touched cur a c.

(** [new] holds the steps of [old], in their order and under their names,
    each with its errors and possibly more, followed by possibly more steps. *)
Inductive grows : list failed_step -> list failed_step -> Prop :=
| grows_nil new : grows [] new
| grows_cons step step' old new :
    name step' = name step ->
    (exists more, errors step' = errors step ++ more) ->
    grows old new ->
    grows (step :: old) (step' :: new).

(** [l1] is the beginning of [l2]. *)
Definition begins {A} (l1 l2 : list A) : Prop := exists more, l2 = l1 ++ more.

(** The state without what the error-context collection keeps. *)
Definition forget_context (st : state) : state :=
  set_in_error_section false (set_error_context [] st).

(** The current step against the step stack: with an empty stack the current
    step is absent or a command's; otherwise it is the name on top of the
    stack, or a command's when that name is empty. *)
Definition attributed (st : state) : Prop :=
  match step_stack st with
  | [] =>
      current_step st = None
      \/ exists cmd, current_step st = Some (command_step cmd)
  | _ :: _ =>
      current_step st = Some (last (step_stack st) EmptyString)
      \/ (last (step_stack st) EmptyString = EmptyString
          /\ exists cmd, current_step st = Some (command_step cmd))
  end.

(** Number of lines that carry a group-open marker. *)
Definition group_lines (lines : list string) : nat :=
  length (filter (Py.contains "##[group]") lines).

(** A non-empty text of decimal digits. *)
Definition numeric (s : string) : bool := Py.nonempty s && all_chars Py.is_digit s.

(** What the scan keeps of the log's text, apart from the error texts: the
    current step, the stack, the names of the failed steps and the exit-code
    records, which are all free of newlines. *)
Definition kept_on_one_line (st : state) : Prop :=
  (forall n, current_step st = Some n -> one_line n = true)
  /\ Forall (fun n => one_line n = true) (step_stack st)
  /\ Forall (fun step => one_line (name step) = true) (failed_steps st)
  /\ Forall (fun ec => numeric (fst ec) = true
                       /\ forall n, snd ec = Some n -> one_line n = true)
            (exit_codes st).

(** * The loader of the [.env] file (lines 18-49) *)

Module Env.

(** [os.environ] on a POSIX system, as the pairs of a dictionary from names to
    values; the first pair of a name is the one the dictionary holds. *)
Definition environ : Type := list (string * string).

(** [os.environ.get(key)] *)
Fixpoint get (key : string) (env : environ) : option string :=
  match env with
  | [] => None
  | (k, v) :: rest => if String.eqb k key then Some v else get key rest
  end.

(** [key in os.environ] *)
Definition has (key : string) (env : environ) : bool :=
  match get key env with Some _ => true | None => false end.

(** The loader returns or raises [ValueError]. *)
Inductive outcome : Type :=
| Loaded (env : environ)
| ValueError.

Definition not_nul (c : ascii) : bool := negb (Ascii.eqb c Ascii.zero).
Definition not_equals (c : ascii) : bool := negb (Ascii.eqb c "="%char).

(** [os.environ[key] = value]: [putenv] refuses a name or a value with a NUL
    character, an empty name and a name with an equals sign. *)
Definition setitem (key value : string) (env : environ) : outcome :=
  if all_chars not_nul key && all_chars not_nul value
     && Py.nonempty key && all_chars not_equals key
  then Loaded ((key, value) :: env)
  else ValueError.

(** [s.endswith(p)] *)
Fixpoint endswith (p s : string) : bool :=
  String.eqb p s
  || match s with
     | EmptyString => false
     | String _ s' => endswith p s'
     end.

(** [s[:-1]] *)
Fixpoint drop_last (s : string) : string :=
  match s with
  | EmptyString => EmptyString
  | String c s' =>
      match s' with
      | EmptyString => EmptyString
      | String _ _ => String c (drop_last s')
      end
  end.

(** [s[1:-1]] *)
Definition inner (s : string) : string := drop_last (Re.drop 1 s).

(** [s.split(sep, 1)] for a separator of one character. *)
Fixpoint split1 (sep : ascii) (s : string) : list string :=
  match s with
  | EmptyString => [EmptyString]
  | String c s' =>
      if Ascii.eqb c sep then [EmptyString; s']
      else match split1 sep s' with
           | cur :: rest => String c cur :: rest
           | [] => [String c EmptyString]
           end
  end.

Definition double_quote : string := String Py.dquote EmptyString.

(** Lines 42-45: the value without the quotes around it. *)
Definition unquote (value : string) : string :=
  if Py.startswith double_quote value && endswith double_quote value then inner value
  else if Py.startswith "'" value && endswith "'" value then inner value
  else value.

(** The body of the loop over the lines of the file (lines 30-49).  The
    unpacking [key, value = ...] raises [ValueError] unless there are two
    parts. *)
Definition load_line (raw : string) (env : environ) : outcome :=
  let line := Py.strip raw in
  if negb (Py.nonempty line) || Py.startswith "#" line then Loaded env
  else if Py.contains "=" line then
    match split1 "="%char line with
    | [key; value] =>
        let key := Py.strip key in
        let value := Py.strip value in
        let value := unquote value in
        if Py.nonempty key && negb (has key env)
        then setitem key value env
        else Loaded env
    | _ => ValueError
    end
  else Loaded env.

(** [for line in f] *)
Fixpoint load_lines (lines : list string) (env : environ) : outcome :=
  match lines with
  | [] => Loaded env
  | raw :: rest =>
      match load_line raw env with
      | Loaded env' => load_lines rest env'
      | ValueError => ValueError
      end
  end.

(** [load_env_file]: [None] stands for a path that does not exist, [Some lines]
    for the lines the file yields. *)
Definition load_env_file (file : option (list string)) (env : environ) : outcome :=
  match file with
  | None => Loaded env
  | Some lines => load_lines lines env
  end.

(** The name and the value a line assigns, when it assigns one: the line is
    not blank, not a comment, has an equals sign and a name before it. *)
Definition assignment (raw : string) : option (string * string) :=
  let line := Py.strip raw in
  if negb (Py.nonempty line) || Py.startswith "#" line then None
  else match split1 "="%char line with
       | [key; value] =>
           if Py.nonempty (Py.strip key)
           then Some (Py.strip key, unquote (Py.strip value))
           else None
       | _ => None
       end.

(** The value of the first line that assigns [key]. *)
Fixpoint first_value (key : string) (lines : list string) : option string :=
  match lines with
  | [] => None
  | raw :: rest =>
      match assignment raw with
      | Some (k, v) => if String.eqb k key then Some v else first_value key rest
      | None => first_value key rest
      end
  end.

(** The line [NAME="value"]. *)
Definition quoted_line (key value : string) : string :=
  (key ++ "=" ++ double_quote ++ value ++ double_quote)%string.

(** The line [NAME='value']. *)
Definition single_quoted_line (key value : string) : string :=
  (key ++ "='" ++ value ++ "'")%string.

(** A name as the loader stores it: not empty, without equals sign, without
    white space around it, not the start of a comment. *)
Definition plain_name (key : string) : Prop :=
  Py.nonempty key = true
  /\ all_chars not_equals key = true
  /\ Py.strip key = key
  /\ Py.startswith "#" key = false.

End Env.

(** * Saving a log (lines 563-622) *)

Module Save.

Definition backslash : ascii := "092"%char.

(** Line 596: [job_name.replace(' ', '_').replace('/', '_').replace('\\', '_')] *)
Definition safe_name (job_name : string) : string :=
  Py.replace (String backslash EmptyString) "_"
    (Py.replace "/" "_" (Py.replace " " "_" job_name)).

(** Line 597: the name of the file inside the log directory; job ids are the
    natural numbers of the API. *)
Definition log_file_name (job_id : nat) (job_name : string) : string :=
  ("job_" ++ Py.str_of_nat job_id ++ "_" ++ safe_name job_name ++ ".txt")%string.

(** Lines 593-602: what is written to the file, the summary and then the
    log. *)
Definition file_text (logs : string) : res string :=
  error_summary <- analyze_log_errors logs ;;
  Ok (error_summary ++ logs)%string.

(** Lines 611-612: the lines of the preview, before they are printed. *)
Definition preview_lines (logs : string) : list string :=
  filter (fun line => Py.nonempty (Py.strip line))
         (Py.last_n 50 (Py.split Py.nl logs)).

(** A character that separates the directories of a path. *)
Definition not_path_separator (c : ascii) : bool :=
  negb (Ascii.eqb c "/"%char || Ascii.eqb c backslash).

(** A character that [safe_name] replaces. *)
Definition is_separator (c : ascii) : bool :=
  Ascii.eqb c " "%char || Ascii.eqb c "/"%char || Ascii.eqb c backslash.

Definition sanitize (c : ascii) : ascii := if is_separator c then "_"%char else c.

Fixpoint map_chars (f : ascii -> ascii) (s : string) : string :=
  match s with
  | EmptyString => EmptyString
  | String c s' => String (f c) (map_chars f s')
  end.

End Save.

(** * Request headers (lines 80-89) *)

Module Http.

(** Line 84, on the address with its query string. *)
Definition is_github_url (url : string) : bool :=
  Py.contains "api.github.com" url || Py.contains "github.com" url.

(** Lines 87-89: the headers in the order of the calls to [add_header]. *)
Definition auth_headers (token : string) : list (string * string) :=
  [("Authorization", ("Bearer " ++ token)%string);
   ("Accept", "application/vnd.github.v3+json");
   ("User-Agent", "Python-GitHub-Actions-Log-Fetcher")].

(** Lines 80-89: the headers of the request that [make_request] builds, or
    [None] when it builds none.  Line 80 calls the constructor
    [urllib.request.Request(url)], which raises for an address it does not
    accept (a [ValueError] for an address without a scheme, such as a path
    alone); that exception leaves [make_request] before any header is added.
    The constructor belongs to the library: [accepts url] tells whether it
    returns a request for [url], and what follows holds for whatever it
    accepts. *)
Definition request_headers (accepts : string -> bool) (token url : string)
    (is_redirect : bool) : option (list (string * string)) :=
  if accepts url then
    Some (if negb is_redirect || is_github_url url then auth_headers token else [])
  else None.

End Http.

(** * The runs to process (lines 656-689) *)

Module Main.

(** The fields of a workflow run that the script reads; [conclusion] is [None]
    for the JSON [null] of a run that has not finished. *)
Record run : Type := Run {
  id : nat;
  workflow : string;
  conclusion : option string;
  status : string;
  head_branch : string;
  head_sha : string;
  html_url : string
}.

(** [run['conclusion'] == 'failure'] *)
Definition is_failure (r : run) : bool :=
  match conclusion r with
  | Some c => String.eqb c "failure"
  | None => false
  end.

(** Lines 656-665 *)
Definition failed_runs (runs : list run) : list run := filter is_failure runs.

(** The runs chosen by lines 668-689.  [run_id] and [all_failed] are the
    options of the command line; [fetched] is what [get_workflow_run] gives for
    [run_id], [None] when it raises; the result [None] is [sys.exit(1)]. *)
Definition runs_to_process (run_id : option string) (all_failed : bool)
    (runs : list run) (fetched : option run) : option (list run) :=
  match active run_id with
  | Some wanted =>
      match filter (fun r => String.eqb (Py.str_of_nat (id r)) wanted) runs with
      | [] =>
          match fetched with
          | Some run_details => Some [run_details]
          | None => None
          end
      | found => Some found
      end
  | None =>
      if all_failed then Some (failed_runs runs)
      else match failed_runs runs with
           | [] => Some []
           | first :: _ =>
               let latest_commit := head_sha first in
               Some (filter (fun r => String.eqb (head_sha r) latest_commit)
                            (failed_runs runs))
           end
  end.

End Main.

(** * The texts a regular expression matches *)

(** [lang ic r s]: the whole of [s] matches [r], with [re.IGNORECASE] when
    [ic] holds. *)
Inductive lang (ic : bool) : Re.regex -> string -> Prop :=
| lang_eps : lang ic Re.Eps EmptyString
| lang_sym k c :
    Re.sym_match ic k c = true -> lang ic (Re.Sym k) (String c EmptyString)
| lang_cat r1 r2 s1 s2 :
    lang ic r1 s1 -> lang ic r2 s2 -> lang ic (Re.Cat r1 r2) (s1 ++ s2)
| lang_alt_l r1 r2 s : lang ic r1 s -> lang ic (Re.Alt r1 r2) s
| lang_alt_r r1 r2 s : lang ic r2 s -> lang ic (Re.Alt r1 r2) s
| lang_star_nil r : lang ic (Re.Star r) EmptyString
| lang_star_cons r s1 s2 :
    lang ic r s1 -> lang ic (Re.Star r) s2 -> lang ic (Re.Star r) (s1 ++ s2).

(** [p] occurs in [text] when case is ignored. *)
Definition mentions (p text : string) : bool :=
  Py.contains (Py.lower p) (Py.lower text).

(** The entries of [failure_patterns] that are alternatives of plain texts,
    each with its texts as the source writes them. *)
Definition literal_alternatives : list (list string * string) :=
  [ (["ImportError"; "cannot import"], "Import error detected");
    (["AttributeError"; "has no attribute"], "Attribute error detected");
    (["TypeError"; "unsupported operand"], "Type error detected");
    (["ValueError"; "invalid value"], "Value error detected");
    (["ConnectionError"; "Connection refused"; "Connection timeout"],
     "Connection error detected");
    (["TimeoutError"; "timed out"], "Timeout error detected") ].

(** The top of a stack kept as a list whose last element is the top. *)
Definition top_of (stack : list string) : option string :=
  match stack with
  | [] => None
  | _ :: _ => Some (last stack EmptyString)
  end.

(** A group with one line that closes it. *)
Definition group_log : list string := ["##[group]Build"; "##[endgroup]"].

(** * Properties *)

(** ** The embedding on small logs *)

Example split_keeps_last_empty_line :
  Py.split Py.nl (log_of ["a"; "b"; EmptyString]) = ["a"; "b"; EmptyString].
Proof. reflexivity. Qed.

Example strip_and_replace :
  Py.strip (Py.replace "##[error]" EmptyString "  ##[error] boom  ") = "boom".
Proof. reflexivity. Qed.

Example group_name_is_rest_of_line :
  Re.search_group "##[group]" Re.Dot "2025-01-01 ##[group]Run tests " = Some "Run tests ".
Proof. reflexivity. Qed.

Example group_marker_alone_does_not_match :
  Re.search_group "##[group]" Re.Dot "##[group]" = None.
Proof. reflexivity. Qed.

Example exit_code_digits :
  Re.search_group "exit code " Re.Digit "Process completed with exit code 127." = Some "127".
Proof. reflexivity. Qed.

Example exception_line_examples :
  is_exception_line "  KeyError: 'x'" = true
  /\ is_exception_line "DeprecationWarning: old" = true
  /\ is_exception_line "    raise ValueError(msg)" = false.
Proof. repeat split. Qed.

Example build_group_with_one_error :
  failed_steps_of (log_of ["##[group]Build"; "##[error]Compile failed"; "##[endgroup]"])
  = Ok [FailedStep "Build" ["Compile failed"]].
Proof. vm_compute. reflexivity. Qed.

Example exit_code_zero_creates_nothing :
  scan (log_of ["##[group]Build"; "Process completed with exit code 0"])
  = Ok (State (Some "Build") ["Build"] [] [] false [] [("0", Some "Build")]).
Proof. vm_compute. reflexivity. Qed.

Example exit_code_inside_group :
  failed_steps_of (log_of ["##[group]Build"; "Process completed with exit code 2"])
  = Ok [FailedStep "Build" ["Process exited with code 2"]].
Proof. vm_compute. reflexivity. Qed.

(** ** Frame lemmas: what each phase leaves alone *)

Section Frames.

Variables (line : string) (st : state).

Lemma track_group_failed_steps : failed_steps (track_group line st) = failed_steps st.
Proof.
  unfold track_group.
  destruct (Py.contains _ line); [|reflexivity].
  destruct (Re.search_group _ _ line); reflexivity.
Qed.

Lemma track_command_failed_steps : failed_steps (track_command line st) = failed_steps st.
Proof.
  unfold track_command.
  destruct (Py.contains _ line); [|reflexivity].
  destruct (Re.search_group _ _ line); [|reflexivity].
  destruct (active _); reflexivity.
Qed.

Lemma track_command_stack : step_stack (track_command line st) = step_stack st.
Proof.
  unfold track_command.
  destruct (Py.contains _ line); [|reflexivity].
  destruct (Re.search_group _ _ line); [|reflexivity].
  destruct (active _); reflexivity.
Qed.

Lemma detect_error_tracker :
  current_step (detect_error line st) = current_step st
  /\ step_stack (detect_error line st) = step_stack st
  /\ exit_codes (detect_error line st) = exit_codes st.
Proof.
  unfold detect_error.
  destruct (Py.contains _ line).
  - destruct (Py.nonempty _); [|auto].
    cbn [set_in_error_section set_error_messages current_step failed_steps].
    destruct (active _); [|auto].
    destruct (for_step _ _ _) as [steps found]; destruct found; auto.
  - destruct (in_error_section st); [|auto].
    destruct (_ && _).
    + cbn [set_error_context error_context]. destruct (_ <? _); auto.
    + destruct (_ || _); auto.
Qed.

Lemma detect_exit_tracker :
  current_step (detect_exit line st) = current_step st
  /\ step_stack (detect_exit line st) = step_stack st
  /\ error_messages (detect_exit line st) = error_messages st.
Proof.
  unfold detect_exit.
  destruct (Py.contains _ line); [|auto].
  destruct (Re.search_group _ _ line); [|auto].
  destruct (negb _); [|auto].
  cbn [set_exit_codes current_step failed_steps].
  destruct (active _); [|auto].
  destruct (for_step _ _ _) as [steps found]; destruct found; auto.
Qed.

Lemma detect_test_tracker :
  current_step (detect_test line st) = current_step st
  /\ step_stack (detect_test line st) = step_stack st
  /\ error_messages (detect_test line st) = error_messages st
  /\ exit_codes (detect_test line st) = exit_codes st.
Proof.
  unfold detect_test.
  destruct (is_test_failure line); [|auto].
  destruct (active _); [|auto].
  destruct (for_step _ _ _) as [steps found]; destruct found; auto.
Qed.

(** Without a current step no phase touches [failed_steps]: every creation and
    every update sits under [if current_step:]. *)

Hypothesis no_step : active (current_step st) = None.

Lemma detect_error_no_step : failed_steps (detect_error line st) = failed_steps st.
Proof.
  unfold detect_error.
  destruct (Py.contains _ line).
  - destruct (Py.nonempty _); [|reflexivity].
    cbn [set_in_error_section set_error_messages current_step failed_steps].
    rewrite no_step. reflexivity.
  - destruct (in_error_section st); [|reflexivity].
    destruct (_ && _).
    + cbn [set_error_context error_context]. destruct (_ <? _); reflexivity.
    + destruct (_ || _); reflexivity.
Qed.

Lemma detect_exit_no_step : failed_steps (detect_exit line st) = failed_steps st.
Proof.
  unfold detect_exit.
  destruct (Py.contains _ line); [|reflexivity].
  destruct (Re.search_group _ _ line); [|reflexivity].
  destruct (negb _); [|reflexivity].
  cbn [set_exit_codes current_step failed_steps].
  rewrite no_step. reflexivity.
Qed.

Lemma detect_test_no_step : detect_test line st = st.
Proof.
  unfold detect_test.
  destruct (is_test_failure line); [|reflexivity].
  rewrite no_step. reflexivity.
Qed.

End Frames.

(** ** No list access is out of range *)

Lemma index_in_range {A} (l : list A) (i : nat) :
  i < length l -> exists x, index l i = Ok x.
Proof.
  intros H. unfold index.
  destruct (nth_error l i) eqn:E; [eauto|].
  apply nth_error_None in E. lia.
Qed.

Lemma range_bounded (a b n : nat) : Forall (fun k => k < n) (Py.range a (Nat.min b n)).
Proof.
  unfold Py.range. apply Forall_forall. intros k Hk.
  apply in_seq in Hk. lia.
Qed.

Lemma tb_context_total (lines : list string) (ks : list nat) :
  Forall (fun k => k < length lines) ks ->
  forall tb_lines, exists out, tb_context lines ks tb_lines = Ok out.
Proof.
  induction 1 as [|k ks Hk _ IH]; intros tb_lines; cbn [tb_context]; [eauto|].
  destruct (index_in_range lines k Hk) as [line_k ->]. cbn [bind].
  destruct (_ && _); eauto.
Qed.

Lemma tb_scan_total (lines : list string) (js : list nat) :
  Forall (fun j => j < length lines) js ->
  forall tb_lines found, exists out, tb_scan lines js tb_lines found = Ok out.
Proof.
  induction 1 as [|j js Hj _ IH]; intros tb_lines found; cbn [tb_scan]; [eauto|].
  destruct (index_in_range lines j Hj) as [next_line ->]. cbn [bind].
  destruct (is_exception_line next_line).
  - apply tb_context_total, range_bounded.
  - destruct (_ && _); [destruct (_ && _)|]; eauto.
Qed.

Lemma capture_traceback_total (lines : list string) (i : nat) (line : string) :
  exists tb_lines, capture_traceback lines i line = Ok tb_lines.
Proof. apply tb_scan_total, range_bounded. Qed.

Lemma track_endgroup_total (line : string) (st : state) :
  exists st', track_endgroup line st = Ok st'.
Proof.
  unfold track_endgroup.
  destruct (Py.contains _ line); [|eauto].
  destruct (step_stack st) as [|top stack] eqn:E; cbn [Py.nonempty_list]; [eauto|].
  cbn [pop bind].
  destruct (removelast (top :: stack)) as [|top' stack'] eqn:E';
    cbn [Py.nonempty_list bind]; [eauto|].
  unfold index_last.
  destruct (index_in_range (top' :: stack') (length (top' :: stack') - 1)) as [x ->];
    [cbn [length]; lia|].
  cbn [bind]. eauto.
Qed.

Lemma detect_traceback_total (lines : list string) (i : nat) (line : string) (st : state) :
  exists st', detect_traceback lines i line st = Ok st'.
Proof.
  unfold detect_traceback.
  destruct (is_traceback_line line); [|eauto].
  destruct (capture_traceback_total lines i line) as [tb_lines ->]. cbn [bind].
  destruct (Py.nonempty_list tb_lines); [|eauto].
  destruct (active _); eauto.
Qed.

Lemma process_line_total (lines : list string) (i : nat) (line : string) (st : state) :
  exists st', process_line lines i line st = Ok st'.
Proof.
  unfold process_line.
  destruct (track_endgroup_total line (track_group line st)) as [st1 ->]. cbn [bind].
  destruct (detect_traceback_total lines i line
              (detect_exit line (detect_error line (track_command line st1))))
    as [st2 ->].
  cbn [bind]. eauto.
Qed.

Lemma process_from_total (lines todo : list string) :
  forall i st, exists st', process_from lines i todo st = Ok st'.
Proof.
  induction todo as [|line rest IH]; intros i st; cbn [process_from]; [eauto|].
  destruct (process_line_total lines i line st) as [st1 ->]. cbn [bind].
  apply IH.
Qed.

Lemma scan_total (logs : string) : exists st, scan logs = Ok st.
Proof. apply process_from_total. Qed.

Lemma step_lines_total (step : failed_step) : exists out, step_lines step = Ok out.
Proof.
  unfold step_lines.
  destruct (errors step) as [|e es]; cbn [Py.nonempty_list index nth_error bind]; [eauto|].
  destruct (_ <? _); eauto.
Qed.

Lemma all_step_lines_total (steps : list failed_step) :
  exists out, all_step_lines steps = Ok out.
Proof.
  induction steps as [|step rest [ls IH]]; cbn [all_step_lines]; [eauto|].
  destruct (step_lines_total step) as [l ->]. rewrite IH. cbn [bind]. eauto.
Qed.

Lemma failed_steps_section_total (steps : list failed_step) :
  exists out, failed_steps_section steps = Ok out.
Proof.
  unfold failed_steps_section.
  destruct (Py.nonempty_list steps); [|eauto].
  destruct (all_step_lines_total steps) as [body ->]. cbn [bind]. eauto.
Qed.

Lemma summary_lines_total (logs : string) :
  exists st mid,
    scan logs = Ok st
    /\ failed_steps_section (failed_steps st) = Ok mid
    /\ summary_lines logs
       = Ok (header ++ mid ++ key_errors_section (error_messages st)
               ++ patterns_section (detected_patterns logs)
               ++ exit_codes_section (exit_codes st)
               ++ fallback_section st ++ trailer).
Proof.
  destruct (scan_total logs) as [st Hst].
  destruct (failed_steps_section_total (failed_steps st)) as [mid Hmid].
  exists st, mid. repeat split; try assumption.
  unfold summary_lines, render. rewrite Hst. cbn [bind]. rewrite Hmid. reflexivity.
Qed.

(** C5. For every input string [analyze_log_errors] raises no exception and
    returns a summary string: the pop of the step stack, the look-ahead of the
    traceback capture and the first error of a step are all within range. *)
Theorem analyze_log_errors_never_raises (logs : string) :
  exists summary, analyze_log_errors logs = Ok summary.
Proof.
  destruct (summary_lines_total logs) as (st & mid & _ & _ & H).
  unfold analyze_log_errors. rewrite H. cbn [bind]. eauto.
Qed.

(** ** Strings and joins *)

Lemma append_assoc (a b c : string) : ((a ++ b) ++ c)%string = (a ++ b ++ c)%string.
Proof. induction a as [|x a IH]; cbn; [reflexivity|now rewrite IH]. Qed.

Lemma append_length (a b : string) :
  String.length (a ++ b) = String.length a + String.length b.
Proof. induction a as [|x a IH]; cbn; [reflexivity|now rewrite IH]. Qed.

Lemma take_length (n : nat) (s : string) : String.length (Py.take n s) <= n.
Proof.
  revert s. induction n as [|n IH]; intros [|c s]; cbn; try lia.
  specialize (IH s). lia.
Qed.

Lemma join_cons (sep x y : string) (l : list string) :
  Py.join sep (x :: y :: l) = (x ++ sep ++ Py.join sep (y :: l))%string.
Proof. reflexivity. Qed.

Lemma join_cons_ne (sep x : string) (l : list string) :
  l <> [] -> Py.join sep (x :: l) = (x ++ sep ++ Py.join sep l)%string.
Proof. destruct l; [congruence|reflexivity]. Qed.

Lemma join_app (sep : string) (l1 l2 : list string) :
  l1 <> [] -> l2 <> [] ->
  Py.join sep (l1 ++ l2) = (Py.join sep l1 ++ sep ++ Py.join sep l2)%string.
Proof.
  intros H1 H2. induction l1 as [|x l1 IH]; [congruence|].
  destruct l1 as [|y l1].
  - destruct l2 as [|z l2]; [congruence|]. reflexivity.
  - change ((x :: y :: l1) ++ l2) with (x :: y :: (l1 ++ l2)).
    rewrite !join_cons.
    change (y :: l1 ++ l2) with ((y :: l1) ++ l2).
    rewrite IH by discriminate.
    rewrite !append_assoc. reflexivity.
Qed.

(** C9. For every input the summary begins with the banner of 80 [=] and the
    line [ERROR SUMMARY - Issues Found in This Workflow Run], and ends with
    the line [Full log follows below:], the banner and an empty line: the
    lines of the summary are [header ++ middle ++ trailer] whatever was
    found. *)
Theorem summary_header_and_trailer_unconditional (logs : string) :
  String.length banner = 80
  /\ exists middle body,
       summary_lines logs = Ok (header ++ middle ++ trailer)
       /\ analyze_log_errors logs
          = Ok (banner ++ nl_str ++ title ++ nl_str
                ++ body ++ nl_str
                ++ full_log_follows ++ nl_str ++ banner ++ nl_str)%string.
Proof.
  split; [reflexivity|].
  destruct (summary_lines_total logs) as (st & mid & _ & _ & H).
  set (middle := mid ++ key_errors_section (error_messages st)
                   ++ patterns_section (detected_patterns logs)
                   ++ exit_codes_section (exit_codes st)
                   ++ fallback_section st).
  assert (Hl : summary_lines logs = Ok (header ++ middle ++ trailer)).
  { rewrite H. unfold middle. now rewrite <- !app_assoc. }
  exists middle, (Py.join nl_str ([banner; EmptyString] ++ middle ++ [banner])).
  split; [exact Hl|].
  unfold analyze_log_errors. rewrite Hl. cbn [bind]. f_equal.
  change (header ++ middle ++ trailer)
    with (banner :: title :: ([banner; EmptyString] ++ middle ++ trailer)).
  rewrite 2!join_cons_ne by discriminate.
  do 4 f_equal.
  replace ([banner; EmptyString] ++ middle ++ trailer)
    with (([banner; EmptyString] ++ middle ++ [banner])
            ++ [full_log_follows; banner; EmptyString]).
  - rewrite join_app; [reflexivity|discriminate|discriminate].
  - rewrite <- !app_assoc. reflexivity.
Qed.

(** ** The traceback capture only ever adds lines *)

Lemma tb_context_extends (lines : list string) (ks : list nat) :
  forall tb_lines out,
    tb_context lines ks tb_lines = Ok out -> exists more, out = tb_lines ++ more.
Proof.
  induction ks as [|k ks IH]; intros tb_lines out; cbn [tb_context].
  - intros [= <-]. exists []. now rewrite app_nil_r.
  - destruct (index lines k) as [line_k|]; cbn [bind]; [|discriminate].
    destruct (_ && _).
    + intros H. apply IH in H as [more ->].
      exists (line_k :: more). now rewrite <- app_assoc.
    + intros [= <-]. exists []. now rewrite app_nil_r.
Qed.

Lemma tb_scan_extends (lines : list string) (js : list nat) :
  forall tb_lines found out,
    tb_scan lines js tb_lines found = Ok out -> exists more, out = tb_lines ++ more.
Proof.
  induction js as [|j js IH]; intros tb_lines found out; cbn [tb_scan].
  - intros [= <-]. exists []. now rewrite app_nil_r.
  - destruct (index lines j) as [next_line|]; cbn [bind]; [|discriminate].
    assert (Hnext : forall o, (exists more, o = (tb_lines ++ [next_line]) ++ more) ->
                              exists more, o = tb_lines ++ more).
    { intros o [more ->]. exists (next_line :: more). now rewrite <- app_assoc. }
    destruct (is_exception_line next_line).
    + intros H. apply Hnext. eapply tb_context_extends, H.
    + destruct (_ && _); [destruct (_ && _)|].
      * intros [= <-]. apply Hnext. exists []. now rewrite app_nil_r.
      * intros H. apply Hnext. eapply IH, H.
      * intros H. apply Hnext. eapply IH, H.
Qed.

Lemma capture_traceback_starts_with_line (lines : list string) (i : nat)
    (line : string) (tb_lines : list string) :
  capture_traceback lines i line = Ok tb_lines -> exists more, tb_lines = line :: more.
Proof.
  intros H. apply tb_scan_extends in H as [more ->]. now exists more.
Qed.

Lemma detect_traceback_tracker (lines : list string) (i : nat) (line : string)
    (st st' : state) :
  detect_traceback lines i line st = Ok st' ->
  current_step st' = current_step st
  /\ step_stack st' = step_stack st
  /\ exit_codes st' = exit_codes st.
Proof.
  unfold detect_traceback.
  destruct (is_traceback_line line); [|intros [= <-]; auto].
  destruct (capture_traceback lines i line) as [tb_lines|]; cbn [bind]; [|discriminate].
  assert (H0 : forall s : state,
            s = st \/ (exists v, s = set_failed_steps v st) ->
            current_step s = current_step st /\ step_stack s = step_stack st
            /\ exit_codes s = exit_codes st).
  { intros s [->|[v ->]]; auto. }
  set (st1 := match active (current_step st) with Some _ => _ | None => _ end).
  assert (H1 : current_step st1 = current_step st /\ step_stack st1 = step_stack st
               /\ exit_codes st1 = exit_codes st).
  { apply H0. unfold st1. destruct (active _); [|auto].
    destruct (for_step _ _ _) as [steps found]; destruct found;
      right; eexists; reflexivity. }
  destruct (Py.nonempty_list tb_lines); [|intros [= <-]; exact H1].
  cbn [set_error_messages current_step failed_steps].
  destruct (active (current_step st1)); intros [= <-]; cbn; exact H1.
Qed.

(** ** Lines without a marker are skipped by the phase of that marker *)

Lemma track_group_skip (line : string) (st : state) :
  Py.contains "##[group]" line = false -> track_group line st = st.
Proof. unfold track_group. now intros ->. Qed.

Lemma track_endgroup_skip (line : string) (st : state) :
  Py.contains "##[endgroup]" line = false -> track_endgroup line st = Ok st.
Proof. unfold track_endgroup. now intros ->. Qed.

Lemma track_command_skip (line : string) (st : state) :
  Py.contains "##[command]" line = false -> track_command line st = st.
Proof. unfold track_command. now intros ->. Qed.

Lemma detect_exit_skip (line : string) (st : state) :
  Py.contains "Process completed with exit code" line = false -> detect_exit line st = st.
Proof. unfold detect_exit. now intros ->. Qed.

Lemma detect_traceback_skip (lines : list string) (i : nat) (line : string) (st : state) :
  is_traceback_line line = false -> detect_traceback lines i line st = Ok st.
Proof. unfold detect_traceback. now intros ->. Qed.

Lemma detect_test_skip (line : string) (st : state) :
  is_test_failure line = false -> detect_test line st = st.
Proof. unfold detect_test. now intros ->. Qed.

(** C10. When a traceback line is met while the current step is absent, the
    captured block (the first 30 captured lines, joined) is appended to the
    error messages and the list of failed steps is left as it was: traceback
    detection creates no failed step without a current step. *)
Theorem traceback_without_step_keeps_failed_steps (lines : list string) (i : nat)
    (line : string) (st : state) :
  is_traceback_line line = true ->
  active (current_step st) = None ->
  exists tb_lines st',
    capture_traceback lines i line = Ok tb_lines
    /\ detect_traceback lines i line st = Ok st'
    /\ error_messages st' = error_messages st ++ [Py.join nl_str (firstn 30 tb_lines)]
    /\ failed_steps st' = failed_steps st.
Proof.
  intros Htb Hnone.
  destruct (capture_traceback_total lines i line) as [tb_lines Hcap].
  destruct (capture_traceback_starts_with_line _ _ _ _ Hcap) as [more ->].
  exists (line :: more). unfold detect_traceback.
  rewrite Htb, Hnone, Hcap. cbn [bind Py.nonempty_list].
  cbn [set_error_messages current_step]. rewrite Hnone.
  eexists. repeat split.
Qed.

Lemma traceback_without_step_witness :
  is_traceback_line traceback_line = true
  /\ active (current_step init) = None
  /\ exists tb_lines st',
       capture_traceback [traceback_line; "ValueError: bad"] 0 traceback_line = Ok tb_lines
       /\ detect_traceback [traceback_line; "ValueError: bad"] 0 traceback_line init = Ok st'
       /\ error_messages st'
          = error_messages init ++ [Py.join nl_str (firstn 30 tb_lines)]
       /\ failed_steps st' = failed_steps init.
Proof.
  split; [reflexivity|]. split; [reflexivity|].
  apply (traceback_without_step_keeps_failed_steps
           [traceback_line; "ValueError: bad"] 0 traceback_line init);
    reflexivity.
Defined.

(** ** Exit codes *)

(** C2, as stated, fails: on the log made of the exit-code line alone the record
    [("1", None)] is produced but no failed step exists afterwards. *)
Lemma exit_code_without_step_counterexample :
  exists st,
    scan exit_line = Ok st
    /\ exit_codes st = [("1", None)]
    /\ failed_steps st = []
    /\ ~ has_exit_failure st.
Proof.
  eexists. split; [vm_compute; reflexivity|].
  cbn. repeat split. intros (step & [] & _).
Qed.

(** The record without a step is reported under the name [Unknown step]. *)
Example exit_code_without_step_summary :
  exit_codes_section [("1", None)]
  = ["NON-ZERO EXIT CODES:"; rule; "  • Exit code 1 in: Unknown step"; EmptyString].
Proof. reflexivity. Qed.

(** C2, amended. On the line [Process completed with exit code 1], met while
    the current step is absent, the record [("1", None)] is appended to the
    exit codes and the list of failed steps is left as it was: the creation of a
    failed step sits under [if current_step:]. *)
Theorem exit_code_without_step_records_only (lines : list string) (i : nat) (st : state) :
  current_step st = None ->
  exists st',
    process_line lines i exit_line st = Ok st'
    /\ exit_codes st' = exit_codes st ++ [("1", None)]
    /\ failed_steps st' = failed_steps st.
Proof.
  intros Hcur. unfold process_line.
  rewrite track_group_skip, track_endgroup_skip by reflexivity. cbn [bind].
  rewrite track_command_skip by reflexivity.
  destruct (detect_error_tracker exit_line st) as (Ec & _ & Ex).
  assert (Ef := detect_error_no_step exit_line st).
  rewrite Hcur in Ef. specialize (Ef eq_refl).
  set (st1 := detect_error exit_line st) in *.
  rewrite detect_traceback_skip by reflexivity. cbn [bind].
  rewrite detect_test_skip by reflexivity.
  eexists. split; [reflexivity|].
  unfold detect_exit.
  change (Py.contains "Process completed with exit code" exit_line) with true.
  change (Re.search_group "exit code " Re.Digit exit_line) with (Some "1").
  cbn [String.eqb Ascii.eqb Bool.eqb negb set_exit_codes current_step
       failed_steps exit_codes].
  rewrite Ec, Hcur, Ex. cbn [active set_exit_codes failed_steps exit_codes].
  split; [reflexivity|exact Ef].
Qed.

Lemma exit_code_without_step_witness :
  current_step init = None
  /\ exists st',
       process_line [exit_line] 0 exit_line init = Ok st'
       /\ exit_codes st' = exit_codes init ++ [("1", None)]
       /\ failed_steps st' = failed_steps init.
Proof.
  split; [reflexivity|].
  apply (exit_code_without_step_records_only [exit_line] 0 init). reflexivity.
Defined.

(** ** Duplicates in a step's errors *)

(** C1. The claim asks that a step's errors hold no text twice.  The
    error-marker path (line 391) appends without the membership test that the
    traceback path (line 471) and the test-failure path (line 483) make: the
    same error marker met twice in one group is stored twice. *)
Theorem error_marker_path_stores_duplicates :
  failed_steps_of (log_of duplicate_error_log)
  = Ok [FailedStep "Build" ["Compile failed"; "Compile failed"]]
  /\ ~ NoDup ["Compile failed"; "Compile failed"].
Proof.
  split; [vm_compute; reflexivity|].
  intros H. inversion H as [|x l Hin _]; subst. apply Hin. now left.
Qed.

(** The test-failure path compares the stripped line with the stored entries
    but stores its first 200 characters, so a longer line is stored again. *)
Example test_failure_path_long_line :
  failed_steps_of (log_of ["##[group]Tests"; long_test_line; long_test_line])
  = Ok [FailedStep "Tests" [Py.take 200 long_test_line; Py.take 200 long_test_line]].
Proof. vm_compute. reflexivity. Qed.

(** ** Traceback capture *)

Lemma index_app_r {A} (pre rest : list A) (x : A) :
  index (pre ++ x :: rest) (length pre) = Ok x.
Proof.
  unfold index. rewrite nth_error_app2 by lia.
  now rewrite Nat.sub_diag.
Qed.

Lemma tb_context_takes_prefix (n : nat) :
  forall pre rest tb_lines,
    n <= length rest ->
    tb_context (pre ++ rest) (seq (length pre) n) tb_lines
    = Ok (tb_lines ++ context_prefix (firstn n rest)).
Proof.
  induction n as [|n IH]; intros pre rest tb_lines Hn.
  - cbn. now rewrite app_nil_r.
  - destruct rest as [|l rest]; [cbn in Hn; lia|].
    cbn [seq tb_context firstn context_prefix].
    rewrite index_app_r. cbn [bind]. fold (is_context_line l).
    destruct (is_context_line l).
    + replace (pre ++ l :: rest) with ((pre ++ [l]) ++ rest)
        by now rewrite <- app_assoc.
      replace (S (length pre)) with (length (pre ++ [l]))
        by (rewrite length_app; cbn; lia).
      rewrite IH by (cbn in Hn; lia).
      now rewrite <- app_assoc.
    + now rewrite app_nil_r.
Qed.

Lemma firstn_min_length {A} (n : nat) (l : list A) :
  firstn (Nat.min n (length l)) l = firstn n l.
Proof.
  destruct (Nat.le_ge_cases n (length l)) as [H|H].
  - now rewrite Nat.min_l.
  - rewrite Nat.min_r by exact H. now rewrite !firstn_all2 by lia.
Qed.

Lemma context_prefix_length (ls : list string) :
  length (context_prefix ls) <= length ls.
Proof.
  induction ls as [|l ls IH]; cbn; [lia|].
  destruct (is_context_line l); cbn; lia.
Qed.

(** ** Pattern matcher *)

Lemma subseq_In {A} (l1 l2 : list A) (x : A) : subseq l1 l2 -> In x l1 -> In x l2.
Proof.
  induction 1 as [|y l1 l2 _ IH|y l1 l2 _ IH]; cbn; intuition.
Qed.

Lemma subseq_NoDup {A} (l1 l2 : list A) : subseq l1 l2 -> NoDup l2 -> NoDup l1.
Proof.
  induction 1 as [|y l1 l2 Hs IH|y l1 l2 Hs IH]; intros Hnd.
  - constructor.
  - inversion Hnd; subst. auto.
  - inversion Hnd as [|? ? Hnotin Hnd']; subst. constructor; [|auto].
    intros Hin. apply Hnotin. eapply subseq_In; eassumption.
Qed.

Lemma match_patterns_subseq (table : list (Re.regex * string)) (text : string) :
  subseq (match_patterns table text) (map snd table).
Proof.
  induction table as [|[pattern description] rest IH]; cbn; [constructor|].
  destruct (Re.search true pattern text); now constructor.
Qed.

Lemma match_patterns_count (table : list (Re.regex * string)) (text : string) :
  NoDup (map snd table) ->
  Forall (fun entry =>
            count_occ string_dec (match_patterns table text) (snd entry)
            = if Re.search true (fst entry) text then 1 else 0) table.
Proof.
  induction table as [|[pattern description] rest IH]; intros Hnd; [constructor|].
  cbn [map snd] in Hnd. inversion Hnd as [|? ? Hnotin Hnd']; subst.
  assert (Hrest : count_occ string_dec (match_patterns rest text) description = 0).
  { apply count_occ_not_In. intros Hin. apply Hnotin.
    eapply subseq_In; [apply match_patterns_subseq|exact Hin]. }
  constructor.
  - cbn [match_patterns fst snd].
    destruct (Re.search true pattern text); [|exact Hrest].
    rewrite count_occ_cons_eq by reflexivity. now rewrite Hrest.
  - specialize (IH Hnd'). rewrite Forall_forall in IH |- *.
    intros [p d] Hin. cbn [match_patterns fst snd].
    assert (Hne : description <> d).
    { intros ->. apply Hnotin. apply in_map_iff. now exists (p, d). }
    destruct (Re.search true pattern text).
    + rewrite count_occ_cons_neq by exact Hne. exact (IH _ Hin).
    + exact (IH _ Hin).
Qed.

Lemma failure_descriptions_distinct : NoDup (map snd failure_patterns).
Proof.
  cbn [map snd failure_patterns].
  repeat (constructor;
          [cbn [In]; intros H;
           repeat (destruct H as [H|H]; [discriminate H|]); exact H|]).
  constructor.
Qed.

(** C8. The pattern matcher is a function of the log text alone, so two runs
    on the same text give the same list; the descriptions it reports follow
    the order of the table, none is reported twice, and a pattern's
    description is counted once when the pattern matches the lower-cased text
    and not at all otherwise, however often it matches. *)
Theorem pattern_matcher_ordered_once (logs : string) :
  (let first_run := detected_patterns logs in
   let second_run := detected_patterns logs in
   first_run = second_run)
  /\ subseq (detected_patterns logs) (map snd failure_patterns)
  /\ NoDup (detected_patterns logs)
  /\ Forall (fun entry =>
               count_occ string_dec (detected_patterns logs) (snd entry)
               = if Re.search true (fst entry) (Py.lower logs) then 1 else 0)
            failure_patterns.
Proof.
  split; [reflexivity|]. split; [apply match_patterns_subseq|]. split.
  - eapply subseq_NoDup; [apply match_patterns_subseq|].
    exact failure_descriptions_distinct.
  - apply match_patterns_count, failure_descriptions_distinct.
Qed.

Example detected_patterns_example :
  detected_patterns
    (log_of ["ValueError: bad"; "valueerror again"; "assert x failed"; "HTTP 404"])
  = ["Value error detected"; "Test assertion failed"; "HTTP error detected"].
Proof. vm_compute. reflexivity. Qed.

(** ** The fallback line *)

Lemma other_line_neq (l : string) : other_line l -> l <> fallback.
Proof. unfold other_line. intros H ->. now rewrite String.eqb_refl in H. Qed.

Lemma not_in_others (ls : list string) : Forall other_line ls -> ~ In fallback ls.
Proof.
  intros H Hin. rewrite Forall_forall in H.
  exact (other_line_neq _ (H _ Hin) eq_refl).
Qed.

Lemma step_lines_other (step : failed_step) (out : list string) :
  step_lines step = Ok out -> Forall other_line out.
Proof.
  unfold step_lines.
  destruct (errors step) as [|e es]; cbn [Py.nonempty_list index nth_error bind].
  - intros [= <-]. repeat constructor.
  - destruct (_ <? _); intros [= <-]; repeat constructor.
Qed.

Lemma all_step_lines_other (steps : list failed_step) :
  forall out, all_step_lines steps = Ok out -> Forall other_line out.
Proof.
  induction steps as [|step rest IH]; intros out; cbn [all_step_lines].
  - intros [= <-]. constructor.
  - destruct (step_lines step) as [l|] eqn:El; cbn [bind]; [|discriminate].
    destruct (all_step_lines rest) as [ls|]; cbn [bind]; [|discriminate].
    intros [= <-]. apply Forall_app. split; [eapply step_lines_other, El|now apply IH].
Qed.

Lemma failed_steps_section_other (steps : list failed_step) (out : list string) :
  failed_steps_section steps = Ok out -> Forall other_line out.
Proof.
  unfold failed_steps_section.
  destruct (Py.nonempty_list steps); [|intros [= <-]; constructor].
  destruct (all_step_lines steps) as [body|] eqn:E; cbn [bind]; [|discriminate].
  intros [= <-]. apply all_step_lines_other in E.
  repeat (constructor; [reflexivity|]).
  apply Forall_app. split; [exact E|repeat constructor].
Qed.

Lemma key_error_lines_other (errs : list string) :
  forall i, Forall other_line (key_error_lines i errs).
Proof.
  induction errs as [|e errs IH]; intros i; cbn [key_error_lines]; constructor;
    [reflexivity|apply IH].
Qed.

Lemma key_errors_section_other (msgs : list string) :
  Forall other_line (key_errors_section msgs).
Proof.
  unfold key_errors_section.
  destruct (Py.nonempty_list msgs); [|constructor].
  repeat (constructor; [reflexivity|]).
  apply Forall_app. split; [apply key_error_lines_other|repeat constructor].
Qed.

Lemma patterns_section_other (detected : list string) :
  Forall other_line (patterns_section detected).
Proof.
  unfold patterns_section.
  destruct (Py.nonempty_list detected); [|constructor].
  repeat (constructor; [reflexivity|]).
  apply Forall_app. split; [|repeat constructor].
  apply Forall_forall. intros l Hin. apply in_map_iff in Hin as (d & <- & _).
  reflexivity.
Qed.

Lemma exit_codes_section_other (codes : list (string * option string)) :
  Forall other_line (exit_codes_section codes).
Proof.
  unfold exit_codes_section.
  destruct (Py.nonempty_list codes); [|constructor].
  destruct (Py.nonempty_list _); [|constructor].
  repeat (constructor; [reflexivity|]).
  apply Forall_app. split; [|repeat constructor].
  apply Forall_forall. intros l Hin. apply in_map_iff in Hin as ([code step] & <- & _).
  reflexivity.
Qed.

Lemma fallback_section_spec (st : state) :
  In fallback (fallback_section st)
  <-> failed_steps st = [] /\ error_messages st = [] /\ exit_codes st = [].
Proof.
  unfold fallback_section.
  destruct (failed_steps st), (error_messages st), (exit_codes st);
    cbn; intuition congruence.
Qed.

(** ** Lines that carry no finding *)

Lemma detect_error_no_marker (line : string) (st : state) :
  Py.contains "##[error]" line = false ->
  failed_steps (detect_error line st) = failed_steps st
  /\ error_messages (detect_error line st) = error_messages st.
Proof.
  unfold detect_error. intros ->.
  destruct (in_error_section st); [|auto].
  destruct (_ && _).
  - cbn [set_error_context error_context]. destruct (_ <? _); auto.
  - destruct (_ || _); auto.
Qed.

Lemma track_endgroup_findings (line : string) (st st' : state) :
  track_endgroup line st = Ok st' -> findings st' = findings st.
Proof.
  unfold track_endgroup.
  destruct (Py.contains _ line); [|now intros [= <-]].
  destruct (Py.nonempty_list _); [|now intros [= <-]].
  destruct (pop _) as [stack|]; cbn [bind]; [|discriminate].
  destruct (Py.nonempty_list stack).
  - destruct (index_last stack); cbn [bind]; [|discriminate]. now intros [= <-].
  - cbn [bind]. now intros [= <-].
Qed.

Lemma track_group_findings (line : string) (st : state) :
  findings (track_group line st) = findings st.
Proof.
  unfold track_group. destruct (Py.contains _ line); [|reflexivity].
  destruct (Re.search_group _ _ line); reflexivity.
Qed.

Lemma track_command_findings (line : string) (st : state) :
  findings (track_command line st) = findings st.
Proof.
  unfold track_command. destruct (Py.contains _ line); [|reflexivity].
  destruct (Re.search_group _ _ line); [|reflexivity].
  destruct (active _); reflexivity.
Qed.

Lemma process_line_no_finding (lines : list string) (i : nat) (line : string)
    (st st' : state) :
  Py.contains "##[error]" line = false ->
  has_failure_signal line = false ->
  process_line lines i line st = Ok st' ->
  findings st' = findings st.
Proof.
  intros Herr Hsig. unfold has_failure_signal in Hsig.
  apply orb_false_iff in Hsig as [Hsig Htest].
  apply orb_false_iff in Hsig as [Hexit Htb].
  unfold process_line.
  destruct (track_endgroup line (track_group line st)) as [st1|] eqn:E1;
    cbn [bind]; [|discriminate].
  rewrite detect_exit_skip, detect_traceback_skip by assumption. cbn [bind].
  rewrite detect_test_skip by assumption. intros [= <-].
  apply track_endgroup_findings in E1. rewrite track_group_findings in E1.
  rewrite <- E1, <- (track_command_findings line st1).
  destruct (detect_error_no_marker line (track_command line st1) Herr) as [Ef Em].
  destruct (detect_error_tracker line (track_command line st1)) as (_ & _ & Ex).
  unfold findings. now rewrite Ef, Em, Ex.
Qed.

Lemma process_from_no_finding (lines todo : list string) :
  forallb (fun line => negb (has_marker line) && negb (has_failure_signal line)) todo
  = true ->
  forall i st st',
    process_from lines i todo st = Ok st' -> findings st' = findings st.
Proof.
  induction todo as [|line rest IH]; cbn [forallb process_from].
  - now intros _ i st st' [= <-].
  - intros H i st st'. apply andb_true_iff in H as [Hline Hrest].
    apply andb_true_iff in Hline as [Hm Hs].
    apply negb_true_iff in Hm, Hs. unfold has_marker in Hm.
    apply orb_false_iff in Hm as [_ Herr].
    destruct (process_line lines i line st) as [st1|] eqn:E1; cbn [bind]; [|discriminate].
    intros H. apply (IH Hrest) in H. rewrite H.
    eapply process_line_no_finding; eassumption.
Qed.

(** C3, as stated, fails.  On the log [ValueError] a failure pattern matches
    and nothing else is found: the section of detected issue types has content
    and the fallback line is printed all the same. *)
Lemma fallback_counterexample :
  exists ls,
    summary_lines "ValueError" = Ok ls
    /\ patterns_section (detected_patterns "ValueError")
       = ["DETECTED ISSUE TYPES:"; rule; "  • Value error detected"; EmptyString]
    /\ In "DETECTED ISSUE TYPES:" ls
    /\ In fallback ls.
Proof.
  eexists. split; [vm_compute; reflexivity|].
  split; [vm_compute; reflexivity|].
  split; [do 4 right; now left|do 8 right; now left].
Qed.

(** The test of line 551 is on the three lists of findings. *)
Lemma fallback_in_summary_iff (logs : string) (st : state) (ls : list string) :
  scan logs = Ok st -> summary_lines logs = Ok ls ->
  In fallback ls
  <-> failed_steps st = [] /\ error_messages st = [] /\ exit_codes st = [].
Proof.
  intros Hscan Hls.
  destruct (summary_lines_total logs) as (st0 & mid & Hscan0 & Hmid & Hls0).
  assert (st0 = st) by congruence. subst st0.
  assert (Heq : ls = header ++ mid ++ key_errors_section (error_messages st)
                       ++ patterns_section (detected_patterns logs)
                       ++ exit_codes_section (exit_codes st)
                       ++ fallback_section st ++ trailer) by congruence.
  subst ls. clear Hls Hls0 Hscan0.
  rewrite <- fallback_section_spec. split.
  - intros Hin.
    apply in_app_or in Hin as [Hin|Hin];
      [exfalso; revert Hin; apply not_in_others; repeat constructor|].
    apply in_app_or in Hin as [Hin|Hin];
      [exfalso; revert Hin; apply not_in_others;
       eapply failed_steps_section_other, Hmid|].
    apply in_app_or in Hin as [Hin|Hin];
      [exfalso; revert Hin; apply not_in_others, key_errors_section_other|].
    apply in_app_or in Hin as [Hin|Hin];
      [exfalso; revert Hin; apply not_in_others, patterns_section_other|].
    apply in_app_or in Hin as [Hin|Hin];
      [exfalso; revert Hin; apply not_in_others, exit_codes_section_other|].
    apply in_app_or in Hin as [Hin|Hin]; [exact Hin|].
    exfalso; revert Hin; apply not_in_others; repeat constructor.
  - intros Hin. do 5 (apply in_or_app; right). apply in_or_app. now left.
Qed.

(** Records of exit code 0 alone print no section and no fallback line. *)
Example exit_code_zero_summary :
  summary_lines "Process completed with exit code 0" = Ok (header ++ trailer).
Proof. vm_compute. reflexivity. Qed.

(** C3, amended. The fallback line is printed whenever the scan found no
    failed step, no error message and no exit-code record, whether or not the
    section of detected issue types has content; when it is printed, the
    sections of failed steps, key error messages and non-zero exit codes are
    empty.  For a log with no recognized marker, no failure signal and no
    matching failure pattern the summary is the header, the fallback lines and
    the trailer. *)
Theorem fallback_when_nothing_found (logs : string) :
  exists st ls,
    scan logs = Ok st
    /\ summary_lines logs = Ok ls
    /\ analyze_log_errors logs = Ok (Py.join nl_str ls)
    /\ (failed_steps st = [] -> error_messages st = [] -> exit_codes st = [] ->
        In fallback ls)
    /\ (In fallback ls ->
        failed_steps_section (failed_steps st) = Ok []
        /\ key_errors_section (error_messages st) = []
        /\ exit_codes_section (exit_codes st) = [])
    /\ (plain_log logs = true -> detected_patterns logs = [] ->
        ls = header ++ fallback_lines ++ trailer).
Proof.
  destruct (summary_lines_total logs) as (st & mid & Hscan & Hmid & Hls).
  exists st. eexists. split; [exact Hscan|]. split; [exact Hls|].
  split; [unfold analyze_log_errors; now rewrite Hls|].
  pose proof (fallback_in_summary_iff logs st _ Hscan Hls) as Hiff.
  split; [|split].
  - intros H1 H2 H3. apply Hiff. auto.
  - intros Hin. apply Hiff in Hin as (-> & -> & ->). repeat split.
  - intros Hplain Hdet.
    assert (Hf : findings st = findings init).
    { eapply process_from_no_finding; [exact Hplain|exact Hscan]. }
    injection Hf as Hfs Hms Hxs.
    unfold fallback_section. rewrite Hms, Hxs, Hdet.
    rewrite Hfs in Hmid |- *. cbn in Hmid. injection Hmid as <-.
    reflexivity.
Qed.

Lemma fallback_when_nothing_found_witness :
  plain_log "Run tests: all passed" = true
  /\ detected_patterns "Run tests: all passed" = []
  /\ summary_lines "Run tests: all passed" = Ok (header ++ fallback_lines ++ trailer).
Proof.
  split; [reflexivity|]. split; [reflexivity|].
  destruct (fallback_when_nothing_found "Run tests: all passed")
    as (st & ls & _ & Hls & _ & _ & _ & Hplain).
  rewrite Hls. f_equal. apply Hplain; reflexivity.
Defined.

(** ** The lines a summary is made of *)

Lemma In_firstn {A} (n : nat) (l : list A) (x : A) : In x (firstn n l) -> In x l.
Proof.
  intros H. rewrite <- (firstn_skipn n l). apply in_or_app. now left.
Qed.

Section Shape.

Variables (st : state) (detected : list string).

Let shape := summary_line st detected.

Lemma fixed_line_shape (l : string) : Py.mem l fixed_lines = true -> shape l.
Proof.
  intros H. apply line_fixed. unfold Py.mem in H.
  apply existsb_exists in H as (x & Hx & E). apply String.eqb_eq in E. now subst.
Qed.

Lemma fixed_shape (ls : list string) :
  forallb (fun l => Py.mem l fixed_lines) ls = true -> Forall shape ls.
Proof.
  intros H. rewrite forallb_forall in H. apply Forall_forall. intros l Hin.
  apply fixed_line_shape, H, Hin.
Qed.

Ltac fixed_head := apply Forall_cons; [apply fixed_line_shape; reflexivity|].

Lemma step_lines_shape (step : failed_step) (out : list string) :
  In step (failed_steps st) -> step_lines step = Ok out -> Forall shape out.
Proof.
  intros Hin. unfold step_lines.
  destruct (errors step) as [|e es] eqn:E; cbn [Py.nonempty_list index nth_error bind].
  - intros [= <-]. constructor; [|constructor]. now apply line_step.
  - assert (He : shape ("    Error: " ++ error_preview e))
      by (eapply line_error; eassumption).
    assert (Hc : shape (count_line (length (e :: es))))
      by (rewrite <- E; now apply line_count).
    destruct (_ <? _); intros [= <-];
      repeat (constructor; try assumption); now apply line_step.
Qed.

Lemma all_step_lines_shape (steps : list failed_step) :
  incl steps (failed_steps st) ->
  forall out, all_step_lines steps = Ok out -> Forall shape out.
Proof.
  induction steps as [|step rest IH]; intros Hincl out; cbn [all_step_lines].
  - intros [= <-]. constructor.
  - destruct (step_lines step) as [l|] eqn:El; cbn [bind]; [|discriminate].
    destruct (all_step_lines rest) as [ls|]; cbn [bind]; [|discriminate].
    intros [= <-]. apply Forall_app. split.
    + eapply step_lines_shape; [|exact El]. apply Hincl. now left.
    + apply IH; [|reflexivity]. intros x Hx. apply Hincl. now right.
Qed.

Lemma key_error_lines_shape (errs : list string) :
  incl errs (error_messages st) ->
  forall i, 1 <= i -> i + length errs <= 6 -> Forall shape (key_error_lines i errs).
Proof.
  induction errs as [|e errs IH]; intros Hincl i Hi Hlen; cbn [key_error_lines];
    constructor.
  - apply line_key_error; [cbn in Hlen; lia|]. apply Hincl. now left.
  - apply IH; [|lia|cbn in Hlen; lia]. intros x Hx. apply Hincl. now right.
Qed.

Lemma failed_steps_section_shape (out : list string) :
  failed_steps_section (failed_steps st) = Ok out -> Forall shape out.
Proof.
  unfold failed_steps_section.
  destruct (Py.nonempty_list _); [|intros [= <-]; constructor].
  destruct (all_step_lines _) as [body|] eqn:E; cbn [bind]; [|discriminate].
  intros [= <-]. cbn [app]. do 2 fixed_head.
  apply Forall_app. split; [|now apply fixed_shape].
  eapply all_step_lines_shape; [apply incl_refl|exact E].
Qed.

Lemma key_errors_section_shape :
  Forall shape (key_errors_section (error_messages st)).
Proof.
  unfold key_errors_section. destruct (Py.nonempty_list _); [|constructor].
  cbn [app]. do 2 fixed_head.
  apply Forall_app. split; [|now apply fixed_shape].
  apply key_error_lines_shape; [|lia|].
  - intros x Hx. eapply In_firstn, Hx.
  - rewrite length_firstn. lia.
Qed.

Lemma patterns_section_shape : Forall shape (patterns_section detected).
Proof.
  unfold patterns_section. destruct (Py.nonempty_list _); [|constructor].
  cbn [app]. do 2 fixed_head.
  apply Forall_app. split; [|now apply fixed_shape].
  apply Forall_forall. intros l Hin. apply in_map_iff in Hin as (d & <- & Hd).
  now apply line_pattern.
Qed.

Lemma exit_codes_section_shape : Forall shape (exit_codes_section (exit_codes st)).
Proof.
  unfold exit_codes_section. destruct (Py.nonempty_list _); [|constructor].
  destruct (Py.nonempty_list _); [|constructor].
  cbn [app]. do 2 fixed_head.
  apply Forall_app. split; [|now apply fixed_shape].
  apply Forall_forall. intros l Hin. apply in_map_iff in Hin as (ec & <- & Hec).
  apply line_exit_code. apply In_firstn in Hec. now apply filter_In in Hec.
Qed.

Lemma fallback_section_shape : Forall shape (fallback_section st).
Proof.
  unfold fallback_section. destruct (_ && _); [now apply fixed_shape|constructor].
Qed.

(** Every line of the summary is a fixed line or one of the generated lines. *)
Lemma render_shape (ls : list string) :
  render st detected = Ok ls -> Forall shape ls.
Proof.
  unfold render.
  destruct (failed_steps_section _) as [steps|] eqn:E; cbn [bind]; [|discriminate].
  intros [= <-]. do 4 fixed_head.
  apply Forall_app. split; [now apply failed_steps_section_shape|].
  apply Forall_app. split; [apply key_errors_section_shape|].
  apply Forall_app. split; [apply patterns_section_shape|].
  apply Forall_app. split; [apply exit_codes_section_shape|].
  apply Forall_app. split; [apply fallback_section_shape|now apply fixed_shape].
Qed.

End Shape.

(** ** Truncation *)

Lemma append_empty (s : string) : (s ++ EmptyString)%string = s.
Proof. induction s as [|c s IH]; cbn; [reflexivity|now rewrite IH]. Qed.

Lemma error_preview_length (first_error : string) :
  String.length (error_preview first_error) <= 250.
Proof. apply take_length. Qed.

Lemma error_clean_parts (error : string) :
  exists body,
    String.length body <= 300
    /\ error_clean error
       = (body ++ if (300 <? String.length error)%nat then "..." else EmptyString)%string.
Proof.
  unfold error_clean. eexists. split; [apply take_length|].
  destruct (_ <? _); [reflexivity|now rewrite append_empty].
Qed.

Lemma error_clean_length (error : string) : String.length (error_clean error) <= 303.
Proof.
  destruct (error_clean_parts error) as (body & Hb & ->).
  rewrite append_length. destruct (_ <? _); cbn; lia.
Qed.

Lemma bounded_growth_refl (n : nat) (steps : list failed_step) :
  bounded_growth n steps steps.
Proof. intros step e Hs He. left. eauto. Qed.

Lemma bounded_growth_trans (n : nat) (a b c : list failed_step) :
  bounded_growth n a b -> bounded_growth n b c -> bounded_growth n a c.
Proof.
  intros Hab Hbc step e Hs He.
  destruct (Hbc step e Hs He) as [(step0 & Hs0 & He0)|H]; [|now right].
  exact (Hab step0 e Hs0 He0).
Qed.

Lemma bounded_growth_new (n : nat) (old new : list failed_step) (s : failed_step) :
  bounded_growth n old new ->
  (forall e, In e (errors s) -> String.length e <= n) ->
  bounded_growth n old (new ++ [s]).
Proof.
  intros H Hs step e Hin He. apply in_app_or in Hin as [Hin|[<-|[]]].
  - exact (H step e Hin He).
  - right. now apply Hs.
Qed.

Lemma for_step_growth (n : nat) (step_name : string)
    (body : failed_step -> failed_step) (steps : list failed_step) :
  (forall s e, In e (errors (body s)) -> In e (errors s) \/ String.length e <= n) ->
  bounded_growth n steps (fst (for_step step_name body steps)).
Proof.
  intros Hbody. induction steps as [|s rest IH]; cbn [for_step].
  - intros step e [].
  - destruct (String.eqb (name s) step_name).
    + intros step e [<-|Hin] He.
      * destruct (Hbody s e He) as [H|H]; [left; exists s; split; [now left|exact H]|now right].
      * left. exists step. split; [now right|exact He].
    + destruct (for_step step_name body rest) as [rest' found]. cbn [fst] in *.
      intros step e [<-|Hin] He.
      * left. exists s. split; [now left|exact He].
      * destruct (IH step e Hin He) as [(step0 & Hs0 & He0)|H]; [|now right].
        left. exists step0. split; [now right|exact He0].
Qed.

Lemma same_step_growth (n : nat) (step_name : string) (steps : list failed_step) :
  bounded_growth n steps (fst (for_step step_name same_step steps)).
Proof. apply for_step_growth. intros s e H. now left. Qed.

Lemma detect_test_growth (line : string) (st : state) :
  bounded_growth 200 (failed_steps st) (failed_steps (detect_test line st)).
Proof.
  unfold detect_test.
  destruct (is_test_failure line); [|apply bounded_growth_refl].
  destruct (active _) as [step_name|]; [|apply bounded_growth_refl].
  assert (H : bounded_growth 200 (failed_steps st)
                (fst (for_step step_name (add_test_failure line) (failed_steps st)))).
  { apply for_step_growth. intros s e. unfold add_test_failure.
    destruct (negb _); [|now left]. cbn [append_error errors].
    intros Hin. apply in_app_or in Hin as [Hin|[<-|[]]]; [now left|right].
    apply take_length. }
  destruct (for_step _ _ _) as [steps found]. cbn [fst] in H.
  destruct found; cbn [negb set_failed_steps failed_steps]; [exact H|].
  apply bounded_growth_new; [exact H|].
  cbn [errors]. intros e [<-|[]]. apply take_length.
Qed.

Lemma detect_traceback_growth (lines : list string) (i : nat) (line : string)
    (st st' : state) :
  detect_traceback lines i line st = Ok st' ->
  bounded_growth 1000 (failed_steps st) (failed_steps st').
Proof.
  unfold detect_traceback.
  destruct (is_traceback_line line); [|intros [= <-]; apply bounded_growth_refl].
  set (st1 := match active (current_step st) with Some _ => _ | None => _ end).
  assert (H1 : bounded_growth 1000 (failed_steps st) (failed_steps st1)).
  { unfold st1. destruct (active _) as [step_name|]; [|apply bounded_growth_refl].
    pose proof (same_step_growth 1000 step_name (failed_steps st)) as H.
    destruct (for_step _ _ _) as [steps found]. cbn [fst] in H.
    destruct found; cbn [negb set_failed_steps failed_steps]; [exact H|].
    apply bounded_growth_new; [exact H|]. intros e []. }
  destruct (capture_traceback lines i line) as [tb_lines|]; cbn [bind]; [|discriminate].
  destruct (Py.nonempty_list tb_lines); [|intros [= <-]; exact H1].
  cbn [set_error_messages current_step failed_steps].
  destruct (active (current_step st1)) as [step_name|]; intros [= <-];
    cbn [set_failed_steps failed_steps]; [|exact H1].
  eapply bounded_growth_trans; [exact H1|].
  apply for_step_growth. intros s e. unfold add_traceback.
  cbn zeta. destruct (negb _); [|now left]. cbn [append_error errors].
  intros Hin. apply in_app_or in Hin as [Hin|[<-|[]]]; [now left|right].
  apply take_length.
Qed.

Lemma track_command_name (line : string) (st : state) :
  current_step (track_command line st) = current_step st
  \/ exists cmd,
       current_step (track_command line st) = Some ("Command: " ++ cmd)%string
       /\ String.length cmd <= 50.
Proof.
  unfold track_command.
  destruct (Py.contains _ line); [|now left].
  destruct (Re.search_group _ _ line) as [g|]; [|now left].
  destruct (active _); [now left|right].
  eexists. split; [reflexivity|apply take_length].
Qed.

Lemma summary_line_caps (st : state) (detected : list string) (l : string) :
  summary_line st detected l ->
  (is_error_line l = true -> String.length l <= 11 + 250)
  /\ (is_key_error_line l = true -> String.length l <= 5 + 300 + 3).
Proof.
  intros [l' Hin|step Hin|step e rest Hin He|step Hin|i error Hi Hin|d Hin|[code s] Hin].
  - assert (H : forallb (fun x => negb (is_error_line x) && negb (is_key_error_line x))
                        fixed_lines = true) by reflexivity.
    rewrite forallb_forall in H. specialize (H l' Hin).
    apply andb_true_iff in H as [H1 H2]. apply negb_true_iff in H1, H2.
    split; congruence.
  - split; intros H; cbn in H; discriminate H.
  - split; intros H; [|cbn in H; discriminate H].
    rewrite append_length. pose proof (error_preview_length e) as Hp.
    change (String.length "    Error: ") with 11. lia.
  - split; intros H; cbn in H; discriminate H.
  - generalize (error_clean_length error).
    generalize (error_clean error). intros c Hc.
    assert (Hcases : i = 1 \/ i = 2 \/ i = 3 \/ i = 4 \/ i = 5) by lia.
    destruct Hcases as [-> | [-> | [-> | [-> | ->]]]];
      (split; intros H; [cbn in H; discriminate H|cbn; lia]).
  - split; intros H; cbn in H; discriminate H.
  - split; intros H; cbn in H; discriminate H.
Qed.

(** C6, as stated, fails for the key error messages: an error text of 301
    characters is shown as its first 300 characters and three dots, 303
    characters in all. *)
Lemma key_error_preview_counterexample :
  exists ls,
    summary_lines ("##[error]" ++ Py.repeat_char "a"%char 301) = Ok ls
    /\ In ("  1. " ++ error_clean (Py.repeat_char "a"%char 301))%string ls
    /\ String.length (error_clean (Py.repeat_char "a"%char 301)) = 303.
Proof.
  eexists. split; [vm_compute; reflexivity|].
  split; [|vm_compute; reflexivity].
  do 6 right. left. vm_compute. reflexivity.
Qed.

(** C6, amended. For every log, the line that shows a failed step's first
    error carries at most 250 characters of it, and a line of the key error
    messages carries at most 300 characters of the message followed, when the
    message is longer than 300 characters, by three dots (303 in all).  A
    test-failure line is stored with at most 200 characters, a traceback is
    stored in a step with at most 1000, and the name of a command step is
    [Command: ] and at most 50 characters. *)
Theorem preview_caps :
  (forall logs, exists ls,
      summary_lines logs = Ok ls
      /\ Forall (fun l => is_error_line l = true -> String.length l <= 11 + 250) ls
      /\ Forall (fun l => is_key_error_line l = true -> String.length l <= 5 + 300 + 3) ls)
  /\ (forall first_error, String.length (error_preview first_error) <= 250)
  /\ (forall error, exists body,
        String.length body <= 300
        /\ error_clean error
           = (body ++ if (300 <? String.length error)%nat then "..." else EmptyString)%string)
  /\ (forall line st,
        bounded_growth 200 (failed_steps st) (failed_steps (detect_test line st)))
  /\ (forall lines i line st st',
        detect_traceback lines i line st = Ok st' ->
        bounded_growth 1000 (failed_steps st) (failed_steps st'))
  /\ (forall line st,
        current_step (track_command line st) = current_step st
        \/ exists cmd,
             current_step (track_command line st) = Some ("Command: " ++ cmd)%string
             /\ String.length cmd <= 50).
Proof.
  split; [|split; [exact error_preview_length|split; [exact error_clean_parts|
    split; [exact detect_test_growth|split;
      [exact detect_traceback_growth|exact track_command_name]]]]].
  intros logs.
  destruct (summary_lines_total logs) as (st & mid & Hscan & _ & Hls).
  eexists. split; [exact Hls|].
  assert (Hshape : Forall (summary_line st (detected_patterns logs))
                     (header ++ mid ++ key_errors_section (error_messages st)
                        ++ patterns_section (detected_patterns logs)
                        ++ exit_codes_section (exit_codes st)
                        ++ fallback_section st ++ trailer)).
  { apply render_shape. unfold summary_lines in Hls. rewrite Hscan in Hls. exact Hls. }
  split; (eapply Forall_impl; [|exact Hshape]); intros l Hl;
    apply (summary_line_caps _ _ _ Hl).
Qed.

Lemma preview_caps_witness :
  detect_traceback [traceback_line] 0 traceback_line build_state = Ok build_state_after
  /\ bounded_growth 1000 (failed_steps build_state) (failed_steps build_state_after).
Proof.
  split; [reflexivity|].
  apply (proj1 (proj2 (proj2 (proj2 (proj2 preview_caps))))
           [traceback_line] 0 traceback_line build_state build_state_after).
  reflexivity.
Defined.

(** * Further properties of the analysis *)

(** ** The loop over the failed steps *)

Lemma for_step_found (n : string) (body : failed_step -> failed_step)
    (steps : list failed_step) :
  snd (for_step n body steps) = existsb (fun step => String.eqb (name step) n) steps.
Proof.
  induction steps as [|s rest IH]; cbn [for_step existsb]; [reflexivity|].
  destruct (String.eqb (name s) n); [reflexivity|].
  destruct (for_step n body rest) as [rest' found]. exact IH.
Qed.

Lemma for_step_not_found (n : string) (body : failed_step -> failed_step)
    (steps : list failed_step) :
  snd (for_step n body steps) = false -> fst (for_step n body steps) = steps.
Proof.
  induction steps as [|s rest IH]; cbn [for_step]; [reflexivity|].
  destruct (String.eqb (name s) n); [discriminate|].
  destruct (for_step n body rest) as [rest' found]. cbn [fst snd] in *.
  intros H. now rewrite IH.
Qed.

Lemma for_step_ext (n : string) (body body' : failed_step -> failed_step)
    (steps : list failed_step) :
  (forall s, body s = body' s) -> for_step n body steps = for_step n body' steps.
Proof.
  intros H. induction steps as [|s rest IH]; cbn [for_step]; [reflexivity|].
  rewrite H, IH. reflexivity.
Qed.

Lemma for_step_same (n : string) (steps : list failed_step) :
  fst (for_step n same_step steps) = steps.
Proof.
  induction steps as [|s rest IH]; cbn [for_step]; [reflexivity|].
  destruct (String.eqb (name s) n); [reflexivity|].
  destruct (for_step n same_step rest) as [rest' found]. cbn [fst] in *.
  now rewrite IH.
Qed.

(** A body that appends [e] to some steps and leaves the others alone. *)
Lemma for_step_guarded (n e : string) (guard : failed_step -> bool)
    (steps : list failed_step) :
  fst (for_step n (fun s => if guard s then append_error e s else s) steps) = steps
  \/ fst (for_step n (fun s => if guard s then append_error e s else s) steps)
     = fst (for_step n (append_error e) steps).
Proof.
  induction steps as [|s rest IH]; cbn [for_step]; [now left|].
  destruct (String.eqb (name s) n).
  - cbn [fst]. destruct (guard s); [now right|now left].
  - destruct (for_step n _ rest) as [rest1 found1].
    destruct (for_step n (append_error e) rest) as [rest2 found2].
    cbn [fst] in *. destruct IH as [->| ->]; [now left|now right].
Qed.

(** The pattern "find the step, else add it" of the extractor. *)
Lemma ensure_touched (cur : string) (body : failed_step -> failed_step)
    (errs : list string) (steps : list failed_step) :
  cur <> EmptyString ->
  touched cur steps (fst (for_step cur body steps)) ->
  touched cur steps
    (let (steps', step_found) := for_step cur body steps in
     if negb step_found then steps' ++ [FailedStep cur errs] else steps').
Proof.
  intros Hcur Hbody.
  pose proof (for_step_found cur body steps) as Hfound.
  pose proof (for_step_not_found cur body steps) as Hnot.
  destruct (for_step cur body steps) as [steps' found]. cbn [fst snd] in *.
  destruct found; cbn [negb]; [exact Hbody|].
  rewrite Hnot by reflexivity. now apply touched_new.
Qed.

Lemma active_nonempty (cs : option string) (n : string) :
  active cs = Some n -> cs = Some n /\ n <> EmptyString.
Proof.
  destruct cs as [[|c s]|]; cbn; try discriminate.
  intros [= <-]. split; [reflexivity|discriminate].
Qed.

Lemma add_traceback_touched (cur tb_text : string) (steps : list failed_step) :
  touched cur steps (fst (for_step cur (add_traceback tb_text) steps)).
Proof.
  rewrite (for_step_ext cur (add_traceback tb_text)
             (fun s => if negb (Py.mem (Py.take 1000 tb_text) (errors s))
                       then append_error (Py.take 1000 tb_text) s else s))
    by reflexivity.
  destruct (for_step_guarded cur (Py.take 1000 tb_text)
              (fun s => negb (Py.mem (Py.take 1000 tb_text) (errors s))) steps)
    as [-> | ->]; [apply touched_same|apply touched_append].
Qed.

Lemma add_test_failure_touched (cur line : string) (steps : list failed_step) :
  touched cur steps (fst (for_step cur (add_test_failure line) steps)).
Proof.
  rewrite (for_step_ext cur (add_test_failure line)
             (fun s => if negb (Py.mem (Py.strip line) (errors s))
                       then append_error (Py.take 200 (Py.strip line)) s else s))
    by reflexivity.
  destruct (for_step_guarded cur (Py.take 200 (Py.strip line))
              (fun s => negb (Py.mem (Py.strip line) (errors s))) steps)
    as [-> | ->]; [apply touched_same|apply touched_append].
Qed.

(** ** What each phase does to the failed steps *)

Lemma detect_error_touched (line : string) (st : state) (cur : string) :
  active (current_step st) = Some cur ->
  touched cur (failed_steps st) (failed_steps (detect_error line st)).
Proof.
  intros Hcur. destruct (active_nonempty _ _ Hcur) as [_ Hne].
  unfold detect_error.
  destruct (Py.contains _ line).
  - destruct (Py.nonempty _); [|apply touched_same].
    cbn [set_in_error_section set_error_messages current_step failed_steps].
    rewrite Hcur.
    pose proof (ensure_touched cur (append_error
                  (Py.strip (Py.replace "##[error]" EmptyString line)))
                  [Py.strip (Py.replace "##[error]" EmptyString line)]
                  (failed_steps st) Hne (touched_append cur _ _)) as H.
    destruct (for_step cur _ (failed_steps st)) as [steps found].
    destruct found; exact H.
  - destruct (in_error_section st); [|apply touched_same].
    destruct (_ && _).
    + cbn [set_error_context error_context]. destruct (_ <? _); apply touched_same.
    + destruct (_ || _); apply touched_same.
Qed.

Lemma detect_exit_touched (line : string) (st : state) (cur : string) :
  active (current_step st) = Some cur ->
  touched cur (failed_steps st) (failed_steps (detect_exit line st)).
Proof.
  intros Hcur. destruct (active_nonempty _ _ Hcur) as [_ Hne].
  unfold detect_exit.
  destruct (Py.contains _ line); [|apply touched_same].
  destruct (Re.search_group _ _ line) as [code|]; [|apply touched_same].
  destruct (negb _); [|apply touched_same].
  cbn [set_exit_codes current_step failed_steps]. rewrite Hcur.
  assert (Hsame : touched cur (failed_steps st)
                    (fst (for_step cur same_step (failed_steps st))))
    by (rewrite for_step_same; apply touched_same).
  pose proof (ensure_touched cur same_step [exit_message code]
                (failed_steps st) Hne Hsame) as H.
  destruct (for_step cur _ (failed_steps st)) as [steps found].
  destruct found; exact H.
Qed.

Lemma detect_test_touched (line : string) (st : state) (cur : string) :
  active (current_step st) = Some cur ->
  touched cur (failed_steps st) (failed_steps (detect_test line st)).
Proof.
  intros Hcur. destruct (active_nonempty _ _ Hcur) as [_ Hne].
  unfold detect_test.
  destruct (is_test_failure line); [|apply touched_same].
  rewrite Hcur.
  pose proof (add_test_failure_touched cur line (failed_steps st)) as Hbody.
  pose proof (ensure_touched cur (add_test_failure line)
                [Py.take 200 (Py.strip line)] (failed_steps st) Hne Hbody) as H.
  destruct (for_step cur _ (failed_steps st)) as [steps found].
  destruct found; exact H.
Qed.

Lemma detect_traceback_touched (lines : list string) (i : nat) (line : string)
    (st st' : state) (cur : string) :
  active (current_step st) = Some cur ->
  detect_traceback lines i line st = Ok st' ->
  touched cur (failed_steps st) (failed_steps st').
Proof.
  intros Hcur. destruct (active_nonempty _ _ Hcur) as [_ Hne].
  unfold detect_traceback.
  destruct (is_traceback_line line); [|intros [= <-]; apply touched_same].
  rewrite Hcur.
  assert (Hsame : touched cur (failed_steps st)
                    (fst (for_step cur same_step (failed_steps st))))
    by (rewrite for_step_same; apply touched_same).
  pose proof (ensure_touched cur same_step [] (failed_steps st) Hne Hsame) as H1.
  destruct (for_step cur same_step (failed_steps st)) as [steps found].
  set (st1 := if negb found then _ else _).
  assert (Hst1 : touched cur (failed_steps st) (failed_steps st1)
                 /\ current_step st1 = current_step st).
  { unfold st1. destruct found; cbn [negb] in *; split; try reflexivity; exact H1. }
  destruct Hst1 as [Ht1 Hc1]. clearbody st1.
  destruct (capture_traceback lines i line) as [tb_lines|]; cbn [bind]; [|discriminate].
  destruct (Py.nonempty_list tb_lines); [|intros [= <-]; exact Ht1].
  cbn [set_error_messages current_step failed_steps]. rewrite Hc1, Hcur.
  intros [= <-]. cbn [set_failed_steps failed_steps].
  eapply touched_trans; [exact Ht1|]. apply add_traceback_touched.
Qed.

Lemma detect_traceback_no_step (lines : list string) (i : nat) (line : string)
    (st st' : state) :
  active (current_step st) = None ->
  detect_traceback lines i line st = Ok st' ->
  failed_steps st' = failed_steps st.
Proof.
  intros Hnone. unfold detect_traceback.
  destruct (is_traceback_line line); [|now intros [= <-]].
  rewrite Hnone.
  destruct (capture_traceback lines i line) as [tb_lines|]; cbn [bind]; [|discriminate].
  destruct (Py.nonempty_list tb_lines); [|now intros [= <-]].
  cbn [set_error_messages current_step]. rewrite Hnone. now intros [= <-].
Qed.

(** The failed steps after a line, against those before it: the step touched
    is the current step once the markers of the line are tracked. *)
Lemma process_line_touched (lines : list string) (i : nat) (line : string)
    (st st' : state) :
  process_line lines i line st = Ok st' ->
  match active (current_step st') with
  | Some cur => touched cur (failed_steps st) (failed_steps st')
  | None => failed_steps st' = failed_steps st
  end.
Proof.
  unfold process_line.
  destruct (track_endgroup line (track_group line st)) as [st1|] eqn:E1;
    cbn [bind]; [|discriminate].
  apply track_endgroup_findings in E1. rewrite track_group_findings in E1.
  injection E1 as Ef1 _ _.
  pose proof (track_command_failed_steps line st1) as Ef2.
  set (st2 := track_command line st1) in *.
  destruct (detect_error_tracker line st2) as (Ec3 & _ & _).
  set (st3 := detect_error line st2) in *.
  destruct (detect_exit_tracker line st3) as (Ec4 & _ & _).
  set (st4 := detect_exit line st3) in *.
  destruct (detect_traceback lines i line st4) as [st5|] eqn:E5; cbn [bind]; [|discriminate].
  destruct (detect_traceback_tracker _ _ _ _ _ E5) as (Ec5 & _ & _).
  intros [= <-].
  destruct (detect_test_tracker line st5) as (Ec6 & _ & _).
  assert (H3 : current_step st3 = current_step st2) by exact Ec3.
  assert (H4 : current_step st4 = current_step st2) by congruence.
  assert (H5 : current_step st5 = current_step st2) by congruence.
  rewrite Ec6, H5. clear Ec3 Ec4 Ec5 Ec6.
  destruct (active (current_step st2)) as [cur|] eqn:Hcur.
  - rewrite <- Ef1, <- Ef2.
    apply (touched_trans cur _ (failed_steps st3));
      [exact (detect_error_touched line st2 cur Hcur)|].
    apply (touched_trans cur _ (failed_steps st4));
      [apply (detect_exit_touched line st3 cur); now rewrite H3|].
    apply (touched_trans cur _ (failed_steps st5));
      [apply (detect_traceback_touched lines i line st4 st5 cur);
       [now rewrite H4|exact E5]|].
    apply (detect_test_touched line st5 cur). now rewrite H5.
  - rewrite detect_test_no_step by now rewrite H5.
    rewrite (detect_traceback_no_step _ _ _ _ _
               (eq_trans (f_equal active H4) Hcur) E5).
    transitivity (failed_steps st3);
      [apply detect_exit_no_step; now rewrite H3|].
    transitivity (failed_steps st2); [now apply detect_error_no_step|].
    now rewrite Ef2, Ef1.
Qed.

(** ** The names of the failed steps *)

Lemma for_step_names (n : string) (body : failed_step -> failed_step)
    (steps : list failed_step) :
  (forall s, name (body s) = name s) ->
  map name (fst (for_step n body steps)) = map name steps.
Proof.
  intros Hbody. induction steps as [|s rest IH]; cbn [for_step]; [reflexivity|].
  destruct (String.eqb (name s) n).
  - cbn [fst map]. now rewrite Hbody.
  - destruct (for_step n body rest) as [rest' found]. cbn [fst map] in *.
    now rewrite IH.
Qed.

Lemma not_named (cur : string) (steps : list failed_step) :
  existsb (fun step => String.eqb (name step) cur) steps = false ->
  ~ In cur (map name steps).
Proof.
  intros H Hin. apply in_map_iff in Hin as (s & Hs & Hin).
  assert (existsb (fun step => String.eqb (name step) cur) steps = true); [|congruence].
  apply existsb_exists. exists s. split; [exact Hin|]. now apply String.eqb_eq.
Qed.

Lemma touched_names (cur : string) (a b : list failed_step) :
  touched cur a b ->
  NoDup (map name a) /\ ~ In EmptyString (map name a) ->
  NoDup (map name b) /\ ~ In EmptyString (map name b).
Proof.
  induction 1 as [steps|e steps|errs steps Hne Hnew|a b c _ IH1 _ IH2]; intros [Hnd Hnon].
  - now split.
  - rewrite for_step_names by reflexivity. now split.
  - rewrite map_app. cbn [map name]. split.
    + apply NoDup_app; repeat split.
      * exact Hnd.
      * constructor; [intros []|constructor].
      * intros x Hx [<-|[]]. exact (not_named _ _ Hnew Hx).
    + intros Hin. apply in_app_or in Hin as [Hin|[Heq|[]]]; [now apply Hnon|].
      now apply Hne.
  - auto.
Qed.

Lemma process_from_names (lines todo : list string) :
  forall i st st',
    process_from lines i todo st = Ok st' ->
    NoDup (map name (failed_steps st)) /\ ~ In EmptyString (map name (failed_steps st)) ->
    NoDup (map name (failed_steps st')) /\ ~ In EmptyString (map name (failed_steps st')).
Proof.
  induction todo as [|line rest IH]; intros i st st'; cbn [process_from].
  - now intros [= <-].
  - destruct (process_line lines i line st) as [st1|] eqn:E1; cbn [bind]; [|discriminate].
    intros H Hinv. apply (IH _ _ _ H).
    apply process_line_touched in E1.
    destruct (active (current_step st1)); [|now rewrite E1].
    eapply touched_names; eassumption.
Qed.

(** X1. For every log the failed steps carry pairwise different names, none
    of them empty: a step is only added under the current step's name, when
    that name is not empty and no step has it yet. *)
Theorem failed_step_names_unique (logs : string) :
  exists st,
    scan logs = Ok st
    /\ NoDup (map name (failed_steps st))
    /\ Forall (fun step => name step <> EmptyString) (failed_steps st).
Proof.
  destruct (scan_total logs) as [st Hst]. exists st. split; [exact Hst|].
  destruct (process_from_names _ _ _ _ _ Hst) as [Hnd Hnon].
  { split; [constructor|intros []]. }
  split; [exact Hnd|].
  apply Forall_forall. intros step Hin Heq. apply Hnon.
  rewrite <- Heq. now apply in_map.
Qed.

(** ** Findings are only ever added *)

Lemma begins_refl {A} (l : list A) : begins l l.
Proof. exists []. now rewrite app_nil_r. Qed.

Lemma begins_trans {A} (a b c : list A) : begins a b -> begins b c -> begins a c.
Proof. intros [m1 ->] [m2 ->]. exists (m1 ++ m2). now rewrite app_assoc. Qed.

Lemma begins_app {A} (l more : list A) : begins l (l ++ more).
Proof. now exists more. Qed.

Lemma grows_refl (steps : list failed_step) : grows steps steps.
Proof.
  induction steps as [|s rest IH]; constructor; [reflexivity| |exact IH].
  exists []. now rewrite app_nil_r.
Qed.

Lemma grows_trans (a b c : list failed_step) : grows a b -> grows b c -> grows a c.
Proof.
  intros Hab. revert c.
  induction Hab as [|s s' old new Hn [m Hm] _ IH]; intros c Hbc; [constructor|].
  inversion Hbc as [|? s'' ? new' Hn' [m' Hm'] Hrest]; subst.
  constructor; [congruence| |now apply IH].
  exists (m ++ m'). rewrite Hm', Hm. now rewrite app_assoc.
Qed.

Lemma grows_app (steps more : list failed_step) : grows steps (steps ++ more).
Proof.
  induction steps as [|s rest IH]; cbn [app]; constructor; [reflexivity| |exact IH].
  exists []. now rewrite app_nil_r.
Qed.

Lemma for_step_append_grows (n e : string) (steps : list failed_step) :
  grows steps (fst (for_step n (append_error e) steps)).
Proof.
  induction steps as [|s rest IH]; cbn [for_step]; [constructor|].
  destruct (String.eqb (name s) n).
  - cbn [fst]. constructor; [reflexivity| |apply grows_refl]. now exists [e].
  - destruct (for_step n (append_error e) rest) as [rest' found]. cbn [fst] in *.
    constructor; [reflexivity| |exact IH]. exists []. now rewrite app_nil_r.
Qed.

Lemma touched_grows (cur : string) (a b : list failed_step) :
  touched cur a b -> grows a b.
Proof.
  induction 1 as [steps|e steps|errs steps _ _|a b c _ IH1 _ IH2].
  - apply grows_refl.
  - apply for_step_append_grows.
  - apply grows_app.
  - eapply grows_trans; eassumption.
Qed.

Lemma detect_error_messages (line : string) (st : state) :
  begins (error_messages st) (error_messages (detect_error line st)).
Proof.
  unfold detect_error.
  destruct (Py.contains _ line).
  - destruct (Py.nonempty _); [|apply begins_refl].
    cbn [set_in_error_section set_error_messages current_step failed_steps].
    destruct (active _); [|apply begins_app].
    destruct (for_step _ _ _) as [steps found]; destruct found; apply begins_app.
  - destruct (in_error_section st); [|apply begins_refl].
    destruct (_ && _).
    + cbn [set_error_context error_context]. destruct (_ <? _); apply begins_refl.
    + destruct (_ || _); apply begins_refl.
Qed.

Lemma detect_exit_codes (line : string) (st : state) :
  begins (exit_codes st) (exit_codes (detect_exit line st)).
Proof.
  unfold detect_exit.
  destruct (Py.contains _ line); [|apply begins_refl].
  destruct (Re.search_group _ _ line) as [code|]; [|apply begins_refl].
  destruct (negb _); [|apply begins_app].
  cbn [set_exit_codes current_step failed_steps].
  destruct (active _); [|apply begins_app].
  destruct (for_step _ _ _) as [steps found]; destruct found; apply begins_app.
Qed.

Lemma detect_traceback_messages (lines : list string) (i : nat) (line : string)
    (st st' : state) :
  detect_traceback lines i line st = Ok st' ->
  begins (error_messages st) (error_messages st').
Proof.
  unfold detect_traceback.
  destruct (is_traceback_line line); [|intros [= <-]; apply begins_refl].
  set (st1 := match active (current_step st) with Some _ => _ | None => _ end).
  assert (H1 : error_messages st1 = error_messages st).
  { unfold st1. destruct (active _); [|reflexivity].
    destruct (for_step _ _ _) as [steps found]; destruct found; reflexivity. }
  clearbody st1.
  destruct (capture_traceback lines i line) as [tb_lines|]; cbn [bind]; [|discriminate].
  destruct (Py.nonempty_list tb_lines);
    [|intros [= <-]; rewrite H1; apply begins_refl].
  cbn [set_error_messages current_step failed_steps error_messages].
  destruct (active _); intros [= <-]; cbn; rewrite H1; apply begins_app.
Qed.

Lemma process_line_grows (lines : list string) (i : nat) (line : string)
    (st st' : state) :
  process_line lines i line st = Ok st' ->
  grows (failed_steps st) (failed_steps st')
  /\ begins (error_messages st) (error_messages st')
  /\ begins (exit_codes st) (exit_codes st').
Proof.
  intros H. split.
  - apply process_line_touched in H.
    destruct (active (current_step st')); [eapply touched_grows, H|].
    rewrite H. apply grows_refl.
  - revert H. unfold process_line.
    destruct (track_endgroup line (track_group line st)) as [st1|] eqn:E1;
      cbn [bind]; [|discriminate].
    apply track_endgroup_findings in E1. rewrite track_group_findings in E1.
    injection E1 as _ Em1 Ex1.
    pose proof (track_command_findings line st1) as E2. injection E2 as _ Em2 Ex2.
    set (st2 := track_command line st1) in *.
    pose proof (detect_error_messages line st2) as Hm3.
    destruct (detect_error_tracker line st2) as (_ & _ & Ex3).
    set (st3 := detect_error line st2) in *.
    pose proof (detect_exit_codes line st3) as Hx4.
    destruct (detect_exit_tracker line st3) as (_ & _ & Em4).
    set (st4 := detect_exit line st3) in *.
    destruct (detect_traceback lines i line st4) as [st5|] eqn:E5; cbn [bind]; [|discriminate].
    pose proof (detect_traceback_messages _ _ _ _ _ E5) as Hm5.
    destruct (detect_traceback_tracker _ _ _ _ _ E5) as (_ & _ & Ex5).
    intros [= <-].
    destruct (detect_test_tracker line st5) as (_ & _ & Em6 & Ex6).
    rewrite Em6, Ex6, Ex5. split.
    + rewrite <- Em1, <- Em2. eapply begins_trans; [exact Hm3|]. now rewrite <- Em4.
    + rewrite <- Ex1, <- Ex2, <- Ex3. exact Hx4.
Qed.

(** X2. Whatever lines follow, a finding once recorded stays: after any run
    of lines the failed steps are those of before, in the same order and
    under the same names, each with its errors and possibly more after them,
    and the error messages and exit codes of before begin the new lists. *)
Theorem findings_only_grow (lines todo : list string) :
  forall i st st',
    process_from lines i todo st = Ok st' ->
    grows (failed_steps st) (failed_steps st')
    /\ begins (error_messages st) (error_messages st')
    /\ begins (exit_codes st) (exit_codes st').
Proof.
  induction todo as [|line rest IH]; intros i st st'; cbn [process_from].
  - intros [= <-]. split; [apply grows_refl|split; apply begins_refl].
  - destruct (process_line lines i line st) as [st1|] eqn:E1; cbn [bind]; [|discriminate].
    intros H. apply IH in H as (Hg & Hm & Hx).
    apply process_line_grows in E1 as (Hg1 & Hm1 & Hx1).
    split; [eapply grows_trans; eassumption|].
    split; eapply begins_trans; eassumption.
Qed.

Lemma findings_only_grow_witness :
  process_from ["##[error]late"] 0 ["##[error]late"] build_state_after
  = Ok (State (Some "Build") ["Build"]
              [FailedStep "Build" [traceback_line; "late"]]
              [traceback_line; "late"] true ["late"] [])
  /\ grows (failed_steps build_state_after)
           [FailedStep "Build" [traceback_line; "late"]]
  /\ begins (error_messages build_state_after) [traceback_line; "late"].
Proof.
  split; [reflexivity|].
  destruct (findings_only_grow ["##[error]late"] ["##[error]late"] 0 build_state_after
              (State (Some "Build") ["Build"]
                     [FailedStep "Build" [traceback_line; "late"]]
                     [traceback_line; "late"] true ["late"] []) eq_refl)
    as (Hg & Hm & _).
  split; [exact Hg|exact Hm].
Defined.

(** ** The error context is write-only *)

Lemma track_group_forget (line : string) (st : state) :
  forget_context (track_group line st) = track_group line (forget_context st).
Proof.
  unfold track_group. destruct (Py.contains _ line); [|reflexivity].
  destruct (Re.search_group _ _ line); reflexivity.
Qed.

Lemma track_endgroup_forget (line : string) (st : state) :
  (st' <- track_endgroup line st ;; Ok (forget_context st'))
  = track_endgroup line (forget_context st).
Proof.
  unfold track_endgroup. destruct (Py.contains _ line); [|reflexivity].
  cbn [forget_context set_in_error_section set_error_context step_stack].
  destruct (Py.nonempty_list _); [|reflexivity].
  destruct (pop _) as [stack|]; cbn [bind]; [|reflexivity].
  destruct (Py.nonempty_list stack); cbn [bind]; [|reflexivity].
  destruct (index_last stack); reflexivity.
Qed.

Lemma track_command_forget (line : string) (st : state) :
  forget_context (track_command line st) = track_command line (forget_context st).
Proof.
  unfold track_command. destruct (Py.contains _ line); [|reflexivity].
  destruct (Re.search_group _ _ line); [|reflexivity].
  cbn [forget_context set_in_error_section set_error_context current_step].
  destruct (active _); reflexivity.
Qed.

Lemma detect_error_forget (line : string) (st1 st2 : state) :
  forget_context st1 = forget_context st2 ->
  forget_context (detect_error line st1) = forget_context (detect_error line st2).
Proof.
  destruct st1 as [c1 s1 f1 m1 b1 e1 x1], st2 as [c2 s2 f2 m2 b2 e2 x2].
  intros [= -> -> -> -> ->]. unfold detect_error.
  destruct (Py.contains _ line).
  - destruct (Py.nonempty _); [|reflexivity].
    cbn [set_in_error_section set_error_messages current_step failed_steps
         error_messages step_stack in_error_section error_context exit_codes].
    destruct (active c2); [|reflexivity].
    destruct (for_step _ _ _) as [steps found]; destruct found; reflexivity.
  - cbn [in_error_section].
    destruct b1, b2; cbn zeta; cbn [set_error_context error_context];
      repeat match goal with
             | |- context [if ?c then _ else _] => destruct c
             end; reflexivity.
Qed.

Lemma detect_exit_forget (line : string) (st : state) :
  forget_context (detect_exit line st) = detect_exit line (forget_context st).
Proof.
  unfold detect_exit. destruct (Py.contains _ line); [|reflexivity].
  destruct (Re.search_group _ _ line); [|reflexivity].
  destruct (negb _); [|reflexivity].
  cbn [forget_context set_in_error_section set_error_context set_exit_codes
       current_step failed_steps].
  destruct (active _); [|reflexivity].
  destruct (for_step _ _ _) as [steps found]; destruct found; reflexivity.
Qed.

Lemma detect_traceback_forget (lines : list string) (i : nat) (line : string)
    (st : state) :
  (st' <- detect_traceback lines i line st ;; Ok (forget_context st'))
  = detect_traceback lines i line (forget_context st).
Proof.
  destruct st as [c s f m b e x]. unfold detect_traceback, forget_context.
  destruct (is_traceback_line line); [|reflexivity].
  cbn -[capture_traceback for_step Py.join firstn add_traceback active].
  destruct (capture_traceback lines i line) as [tb_lines|]; cbn [bind]; [|reflexivity].
  destruct (active c) as [cur|] eqn:Hc.
  - destruct (for_step cur same_step f) as [steps found].
    destruct found, (Py.nonempty_list tb_lines);
      cbn -[for_step Py.join firstn add_traceback active];
      rewrite ?Hc; reflexivity.
  - destruct (Py.nonempty_list tb_lines);
      cbn -[for_step Py.join firstn add_traceback active];
      rewrite ?Hc; reflexivity.
Qed.

Lemma detect_test_forget (line : string) (st : state) :
  forget_context (detect_test line st) = detect_test line (forget_context st).
Proof.
  unfold detect_test. destruct (is_test_failure line); [|reflexivity].
  cbn [forget_context set_in_error_section set_error_context current_step failed_steps].
  destruct (active _); [|reflexivity].
  destruct (for_step _ _ _) as [steps found]; destruct found; reflexivity.
Qed.

Lemma process_line_forget (lines : list string) (i : nat) (line : string)
    (st1 st2 st1' : state) :
  forget_context st1 = forget_context st2 ->
  process_line lines i line st1 = Ok st1' ->
  exists st2',
    process_line lines i line st2 = Ok st2'
    /\ forget_context st1' = forget_context st2'.
Proof.
  intros Heq H1.
  destruct (process_line_total lines i line st2) as [st2' H2].
  exists st2'. split; [exact H2|].
  revert H1 H2. unfold process_line.
  assert (Ha : forget_context (track_group line st1)
               = forget_context (track_group line st2))
    by now rewrite !track_group_forget, Heq.
  destruct (track_endgroup line (track_group line st1)) as [a1|] eqn:E1;
    cbn [bind]; [|discriminate].
  destruct (track_endgroup line (track_group line st2)) as [a2|] eqn:E2;
    cbn [bind]; [|discriminate].
  assert (Hb : forget_context a1 = forget_context a2).
  { pose proof (track_endgroup_forget line (track_group line st1)) as F1.
    pose proof (track_endgroup_forget line (track_group line st2)) as F2.
    rewrite E1 in F1. rewrite E2 in F2. cbn [bind] in F1, F2. congruence. }
  assert (Hc : forget_context (track_command line a1)
               = forget_context (track_command line a2))
    by now rewrite !track_command_forget, Hb.
  pose proof (detect_error_forget line _ _ Hc) as Hd.
  set (d1 := detect_error line (track_command line a1)) in *.
  set (d2 := detect_error line (track_command line a2)) in *.
  assert (He : forget_context (detect_exit line d1) = forget_context (detect_exit line d2))
    by now rewrite !detect_exit_forget, Hd.
  set (e1 := detect_exit line d1) in *. set (e2 := detect_exit line d2) in *.
  destruct (detect_traceback lines i line e1) as [t1|] eqn:T1; cbn [bind]; [|discriminate].
  destruct (detect_traceback lines i line e2) as [t2|] eqn:T2; cbn [bind]; [|discriminate].
  assert (Ht : forget_context t1 = forget_context t2).
  { pose proof (detect_traceback_forget lines i line e1) as F1.
    pose proof (detect_traceback_forget lines i line e2) as F2.
    rewrite T1 in F1. rewrite T2 in F2. cbn [bind] in F1, F2. congruence. }
  intros [= <-] [= <-]. now rewrite !detect_test_forget, Ht.
Qed.

Lemma render_forget (st : state) (detected : list string) :
  render (forget_context st) detected = render st detected.
Proof. destruct st. reflexivity. Qed.

(** X3. The lines collected after an error marker never reach the summary:
    started from two states that differ only in [in_error_section] and
    [error_context], the same lines lead to states that differ only there, and
    the two summaries are the same. *)
Theorem error_context_never_reaches_summary (lines todo : list string) :
  forall i st1 st2 st1',
    forget_context st1 = forget_context st2 ->
    process_from lines i todo st1 = Ok st1' ->
    exists st2',
      process_from lines i todo st2 = Ok st2'
      /\ forget_context st1' = forget_context st2'
      /\ forall detected, render st1' detected = render st2' detected.
Proof.
  induction todo as [|line rest IH]; intros i st1 st2 st1' Heq; cbn [process_from].
  - intros [= <-]. exists st2. split; [reflexivity|]. split; [exact Heq|].
    intros detected. now rewrite <- (render_forget st1), Heq, render_forget.
  - destruct (process_line lines i line st1) as [a1|] eqn:E1; cbn [bind]; [|discriminate].
    destruct (process_line_forget _ _ _ _ _ _ Heq E1) as (a2 & E2 & Ha).
    rewrite E2. cbn [bind]. now apply IH.
Qed.

Lemma error_context_never_reaches_summary_witness :
  exists st2',
    process_from ["##[group]Build"; "boom"] 0 ["##[group]Build"; "boom"]
      (State None [] [] [] true ["earlier"] []) = Ok st2'
    /\ forget_context (State (Some "Build") ["Build"] [] [] false [] [])
       = forget_context st2'
    /\ forall detected,
         render (State (Some "Build") ["Build"] [] [] false [] []) detected
         = render st2' detected.
Proof.
  apply (error_context_never_reaches_summary
           ["##[group]Build"; "boom"] ["##[group]Build"; "boom"] 0 init
           (State None [] [] [] true ["earlier"] [])
           (State (Some "Build") ["Build"] [] [] false [] []));
    reflexivity.
Defined.

(** ** The current step and the step stack *)

Lemma index_last_snoc {A} (r : list A) (x : A) : index_last (r ++ [x]) = Ok x.
Proof.
  assert (H : index (r ++ [x]) (length (r ++ [x]) - 1) = Ok x).
  { rewrite length_app. cbn [length].
    replace (length r + 1 - 1) with (length r) by lia. apply index_app_r. }
  destruct r; exact H.
Qed.

Lemma index_last_is_last {A} (l : list A) (d : A) :
  l <> [] -> index_last l = Ok (last l d).
Proof.
  intros Hne. rewrite (app_removelast_last d Hne) at 1. apply index_last_snoc.
Qed.

Lemma removelast_length {A} (l : list A) : length (removelast l) = length l - 1.
Proof.
  destruct l as [|x l]; [reflexivity|].
  rewrite (app_removelast_last x (l:=x :: l)) at 2 by discriminate.
  rewrite length_app. cbn [length]. lia.
Qed.

Lemma attributed_same (a b : state) :
  current_step b = current_step a -> step_stack b = step_stack a ->
  attributed a -> attributed b.
Proof. unfold attributed. now intros -> ->. Qed.

Lemma track_group_attributed (line : string) (st : state) :
  attributed st -> attributed (track_group line st).
Proof.
  unfold track_group. destruct (Py.contains _ line); [|auto].
  destruct (Re.search_group _ _ line) as [g|]; [|auto].
  intros _. unfold attributed.
  cbn [set_current_step set_step_stack step_stack current_step].
  destruct (step_stack st ++ [Py.strip g]) as [|x l] eqn:E.
  - now apply app_eq_nil in E as [_ E].
  - rewrite <- E, last_last. now left.
Qed.

Lemma track_endgroup_attributed (line : string) (st st' : state) :
  attributed st -> track_endgroup line st = Ok st' -> attributed st'.
Proof.
  intros Hinv. unfold track_endgroup.
  destruct (Py.contains _ line); [|now intros [= <-]].
  destruct (Py.nonempty_list (step_stack st)); [|now intros [= <-]].
  destruct (pop (step_stack st)) as [stack|]; cbn [bind]; [|discriminate].
  destruct stack as [|x l]; cbn [Py.nonempty_list bind].
  - intros [= <-]. unfold attributed. cbn. now left.
  - rewrite (index_last_is_last (x :: l) EmptyString) by discriminate. cbn [bind].
    intros [= <-]. unfold attributed.
    cbn [set_current_step set_step_stack step_stack current_step]. now left.
Qed.

Lemma track_command_attributed (line : string) (st : state) :
  attributed st -> attributed (track_command line st).
Proof.
  unfold track_command. destruct (Py.contains _ line); [|auto].
  destruct (Re.search_group _ _ line) as [g|]; [|auto].
  destruct (active (current_step st)) eqn:Hact; [auto|].
  unfold attributed. cbn [set_current_step step_stack current_step].
  destruct (step_stack st) as [|x l].
  - intros _. right. now exists (Py.strip g).
  - intros [Hcur|[Hlast [cmd Hcur]]].
    + right. rewrite Hcur in Hact. split; [|now exists (Py.strip g)].
      destruct (last (x :: l) EmptyString); [reflexivity|discriminate Hact].
    + rewrite Hcur in Hact. discriminate Hact.
Qed.

Lemma process_line_tracker (lines : list string) (i : nat) (line : string)
    (st st' : state) :
  process_line lines i line st = Ok st' ->
  exists st1,
    track_endgroup line (track_group line st) = Ok st1
    /\ current_step st' = current_step (track_command line st1)
    /\ step_stack st' = step_stack st1.
Proof.
  unfold process_line.
  destruct (track_endgroup line (track_group line st)) as [st1|];
    cbn [bind]; [|discriminate].
  set (st2 := track_command line st1).
  destruct (detect_error_tracker line st2) as (Ec3 & Es3 & _).
  set (st3 := detect_error line st2) in *.
  destruct (detect_exit_tracker line st3) as (Ec4 & Es4 & _).
  set (st4 := detect_exit line st3) in *.
  destruct (detect_traceback lines i line st4) as [st5|] eqn:E5; cbn [bind]; [|discriminate].
  destruct (detect_traceback_tracker _ _ _ _ _ E5) as (Ec5 & Es5 & _).
  intros [= <-].
  destruct (detect_test_tracker line st5) as (Ec6 & Es6 & _).
  exists st1. split; [reflexivity|]. split.
  - rewrite Ec6, Ec5, Ec4, Ec3. reflexivity.
  - rewrite Es6, Es5, Es4, Es3. apply track_command_stack.
Qed.

Lemma process_line_attributed (lines : list string) (i : nat) (line : string)
    (st st' : state) :
  attributed st -> process_line lines i line st = Ok st' -> attributed st'.
Proof.
  intros Hinv H. apply process_line_tracker in H as (st1 & E1 & Hc & Hs).
  apply (attributed_same (track_command line st1));
    [exact Hc|now rewrite track_command_stack|].
  apply track_command_attributed.
  eapply track_endgroup_attributed; [|exact E1]. now apply track_group_attributed.
Qed.

(** X4. At every point of a scan the current step agrees with the step
    stack: while groups are open it is the name of the innermost one (a
    command's step only if that name is empty), and with no group open it is
    absent or a command's step. *)
Theorem current_step_follows_stack (lines todo : list string) :
  forall i st st',
    attributed st ->
    process_from lines i todo st = Ok st' ->
    attributed st'.
Proof.
  induction todo as [|line rest IH]; intros i st st' Hinv; cbn [process_from].
  - now intros [= <-].
  - destruct (process_line lines i line st) as [st1|] eqn:E1; cbn [bind]; [|discriminate].
    apply IH. eapply process_line_attributed; eassumption.
Qed.

Lemma current_step_follows_stack_witness :
  attributed init
  /\ attributed (State (Some "Test") ["Build"; "Test"] [] [] false [] []).
Proof.
  split; [now left|].
  apply (current_step_follows_stack
           ["##[group]Build"; "##[group]Test"] ["##[group]Build"; "##[group]Test"]
           0 init (State (Some "Test") ["Build"; "Test"] [] [] false [] []));
    [now left|reflexivity].
Defined.

Lemma process_line_depth (lines : list string) (i : nat) (line : string)
    (st st' : state) :
  process_line lines i line st = Ok st' ->
  length (step_stack st')
  <= length (step_stack st) + (if Py.contains "##[group]" line then 1 else 0).
Proof.
  intros H. apply process_line_tracker in H as (st1 & E1 & _ & ->).
  assert (H1 : length (step_stack st1) <= length (step_stack (track_group line st))).
  { revert E1. unfold track_endgroup.
    destruct (Py.contains "##[endgroup]" line); [|now intros [= <-]].
    destruct (Py.nonempty_list _); [|now intros [= <-]].
    destruct (step_stack (track_group line st)) as [|x l] eqn:E;
      cbn [pop bind]; [discriminate|].
    pose proof (removelast_length (x :: l)) as Hr.
    set (r := removelast (x :: l)) in *. clearbody r. cbn [length] in *.
    destruct (Py.nonempty_list r).
    - destruct (index_last r); cbn [bind]; [|discriminate].
      intros [= <-]. cbn [set_current_step set_step_stack step_stack]. lia.
    - cbn [bind]. intros [= <-]. cbn [set_current_step set_step_stack step_stack].
      lia. }
  etransitivity; [exact H1|].
  unfold track_group. destruct (Py.contains "##[group]" line); [|lia].
  destruct (Re.search_group _ _ line); [|lia].
  cbn [set_current_step set_step_stack step_stack].
  rewrite length_app. cbn [length]. lia.
Qed.

(** X5. The step stack is never deeper than the number of lines with a
    group-open marker read so far. *)
Theorem stack_depth_bounded (logs : string) :
  exists st,
    scan logs = Ok st
    /\ length (step_stack st) <= group_lines (Py.split Py.nl logs).
Proof.
  destruct (scan_total logs) as [st Hst]. exists st. split; [exact Hst|].
  unfold scan in Hst.
  assert (H : forall todo i s s',
             process_from (Py.split Py.nl logs) i todo s = Ok s' ->
             length (step_stack s') <= length (step_stack s) + group_lines todo).
  { induction todo as [|line rest IH]; intros i s s'; cbn [process_from].
    - intros [= <-]. lia.
    - destruct (process_line _ i line s) as [s1|] eqn:E1; cbn [bind]; [|discriminate].
      intros H. apply IH in H. apply process_line_depth in E1.
      unfold group_lines in *. cbn [filter].
      destruct (Py.contains "##[group]" line); cbn [length]; lia. }
  apply H in Hst. cbn [init step_stack length] in Hst. exact Hst.
Qed.

(** ** Characters of the texts the scan keeps *)

Lemma all_chars_app (p : ascii -> bool) (a b : string) :
  all_chars p (a ++ b) = all_chars p a && all_chars p b.
Proof.
  induction a as [|c a IH]; cbn [append all_chars]; [reflexivity|].
  now rewrite IH, andb_assoc.
Qed.

Lemma all_chars_impl (p q : ascii -> bool) (s : string) :
  (forall c, p c = true -> q c = true) ->
  all_chars p s = true -> all_chars q s = true.
Proof.
  intros H. induction s as [|c s IH]; cbn [all_chars]; [reflexivity|].
  intros Hs. apply andb_true_iff in Hs as [Hc Hs].
  now rewrite (H c Hc), IH.
Qed.

Lemma all_chars_take (p : ascii -> bool) (n : nat) (s : string) :
  all_chars p s = true -> all_chars p (Py.take n s) = true.
Proof.
  revert s. induction n as [|n IH]; intros [|c s]; cbn [Py.take all_chars]; try reflexivity.
  intros H. apply andb_true_iff in H as [Hc Hs]. now rewrite Hc, IH.
Qed.

Lemma all_chars_drop (p : ascii -> bool) (n : nat) (s : string) :
  all_chars p s = true -> all_chars p (Re.drop n s) = true.
Proof.
  revert s. induction n as [|n IH]; intros [|c s]; cbn [Re.drop all_chars]; try tauto.
  intros H. apply andb_true_iff in H as [_ Hs]. now apply IH.
Qed.

Lemma all_chars_lstrip (p : ascii -> bool) (s : string) :
  all_chars p s = true -> all_chars p (Py.lstrip s) = true.
Proof.
  induction s as [|c s IH]; cbn [Py.lstrip]; [reflexivity|].
  destruct (Py.is_space c); [|tauto].
  cbn [all_chars]. intros H. apply andb_true_iff in H as [_ Hs]. now apply IH.
Qed.

Lemma all_chars_rstrip (p : ascii -> bool) (s : string) :
  all_chars p s = true -> all_chars p (Py.rstrip s) = true.
Proof.
  induction s as [|c s IH]; cbn [Py.rstrip]; [reflexivity|].
  cbn [all_chars]. intros H. apply andb_true_iff in H as [Hc Hs].
  specialize (IH Hs).
  destruct (Py.rstrip s) as [|c' r].
  - destruct (Py.is_space c); [reflexivity|]. cbn [all_chars]. now rewrite Hc.
  - cbn [all_chars] in *. now rewrite Hc, IH.
Qed.

Lemma all_chars_strip (p : ascii -> bool) (s : string) :
  all_chars p s = true -> all_chars p (Py.strip s) = true.
Proof. intros H. now apply all_chars_rstrip, all_chars_lstrip. Qed.

Lemma span_all_chars (k : Re.cclass) (s : string) :
  all_chars (Re.sym_match false k) (Re.span k s) = true.
Proof.
  induction s as [|c s IH]; cbn [Re.span]; [reflexivity|].
  destruct (Re.sym_match false k c) eqn:E; [|reflexivity].
  cbn [all_chars]. now rewrite E, IH.
Qed.

(** Group 1 of a match is not empty and made of characters of the class. *)
Lemma search_group_chars (lit : string) (k : Re.cclass) (s g : string) :
  Re.search_group lit k s = Some g ->
  Py.nonempty g = true /\ all_chars (Re.sym_match false k) g = true.
Proof.
  induction s as [|c s IH]; cbn [Re.search_group].
  - destruct (Py.startswith lit EmptyString); [|discriminate].
    pose proof (span_all_chars k (Re.drop (String.length lit) EmptyString)) as H.
    destruct (Re.span k _); [discriminate|]. intros [= <-]. now split.
  - destruct (Py.startswith lit (String c s)).
    + pose proof (span_all_chars k (Re.drop (String.length lit) (String c s))) as H.
      destruct (Re.span k _); [exact IH|]. intros [= <-]. now split.
    + exact IH.
Qed.

Lemma digit_not_newline (c : ascii) : Py.is_digit c = true -> not_newline c = true.
Proof.
  unfold Py.is_digit, not_newline. intros H.
  apply andb_true_iff in H as [H _]. apply Nat.leb_le in H.
  destruct (Ascii.eqb c Py.nl) eqn:E; [|reflexivity].
  apply Ascii.eqb_eq in E. subst c. cbn in H. lia.
Qed.

Lemma numeric_one_line (s : string) : numeric s = true -> one_line s = true.
Proof.
  unfold numeric, one_line. intros H. apply andb_true_iff in H as [_ H].
  eapply all_chars_impl; [apply digit_not_newline|exact H].
Qed.

(** The exit-code records added by a line are numeric and name the current
    step. *)
Lemma detect_exit_records (line : string) (st : state) :
  exit_codes (detect_exit line st) = exit_codes st
  \/ exists code,
       numeric code = true
       /\ exit_codes (detect_exit line st) = exit_codes st ++ [(code, current_step st)].
Proof.
  unfold detect_exit.
  destruct (Py.contains _ line); [|now left].
  destruct (Re.search_group _ _ line) as [code|] eqn:E; [|now left].
  right. exists code. split.
  - apply search_group_chars in E as [Hne Hd]. unfold numeric. now rewrite Hne.
  - destruct (negb _); [|reflexivity].
    cbn [set_exit_codes current_step failed_steps].
    destruct (active _); [|reflexivity].
    destruct (for_step _ _ _) as [steps found]; destruct found; reflexivity.
Qed.

Lemma process_line_exit_codes (lines : list string) (i : nat) (line : string)
    (st st' : state) :
  process_line lines i line st = Ok st' ->
  exit_codes st' = exit_codes st
  \/ exists code,
       numeric code = true
       /\ exit_codes st' = exit_codes st ++ [(code, current_step st')].
Proof.
  unfold process_line.
  destruct (track_endgroup line (track_group line st)) as [st1|] eqn:E1;
    cbn [bind]; [|discriminate].
  apply track_endgroup_findings in E1. rewrite track_group_findings in E1.
  injection E1 as _ _ Ex1.
  pose proof (track_command_findings line st1) as E2. injection E2 as _ _ Ex2.
  set (st2 := track_command line st1) in *.
  destruct (detect_error_tracker line st2) as (Ec3 & _ & Ex3).
  set (st3 := detect_error line st2) in *.
  pose proof (detect_exit_records line st3) as Hx4.
  destruct (detect_exit_tracker line st3) as (Ec4 & _ & _).
  set (st4 := detect_exit line st3) in *.
  destruct (detect_traceback lines i line st4) as [st5|] eqn:E5; cbn [bind]; [|discriminate].
  destruct (detect_traceback_tracker _ _ _ _ _ E5) as (Ec5 & _ & Ex5).
  intros [= <-].
  destruct (detect_test_tracker line st5) as (Ec6 & _ & _ & Ex6).
  rewrite Ex6, Ex5, Ec6, Ec5, Ec4, <- Ex1, <- Ex2, <- Ex3. exact Hx4.
Qed.

Lemma index_In {A} (l : list A) (i : nat) (x : A) : index l i = Ok x -> In x l.
Proof.
  unfold index. destruct (nth_error l i) eqn:E; [|discriminate].
  intros [= <-]. eapply nth_error_In, E.
Qed.

Lemma Forall_removelast {A} (P : A -> Prop) (l : list A) :
  Forall P l -> Forall P (removelast l).
Proof.
  intros H. destruct l as [|x l]; [constructor|].
  rewrite (app_removelast_last x (l:=x :: l)) in H by discriminate.
  now apply Forall_app in H as [H _].
Qed.

Lemma dot_span_one_line (lit line g : string) :
  Re.search_group lit Re.Dot line = Some g -> one_line (Py.strip g) = true.
Proof.
  intros H. apply search_group_chars in H as [_ H]. now apply all_chars_strip.
Qed.

Lemma tracker_one_line (line : string) (st st1 : state) :
  kept_on_one_line st ->
  track_endgroup line (track_group line st) = Ok st1 ->
  (forall n, current_step (track_command line st1) = Some n -> one_line n = true)
  /\ Forall (fun n => one_line n = true) (step_stack st1).
Proof.
  intros (Hcur & Hstack & _ & _).
  assert (Hg : (forall n, current_step (track_group line st) = Some n -> one_line n = true)
               /\ Forall (fun n => one_line n = true) (step_stack (track_group line st))).
  { unfold track_group. destruct (Py.contains _ line); [|now split].
    destruct (Re.search_group _ _ line) as [g|] eqn:E; [|now split].
    apply dot_span_one_line in E.
    cbn [set_current_step set_step_stack current_step step_stack]. split.
    - now intros n [= <-].
    - apply Forall_app. split; [exact Hstack|]. now constructor. }
  destruct Hg as [Hgc Hgs]. set (st0 := track_group line st) in *. clearbody st0.
  intros E1.
  assert (H1 : (forall n, current_step st1 = Some n -> one_line n = true)
               /\ Forall (fun n => one_line n = true) (step_stack st1)).
  { revert E1. unfold track_endgroup.
    destruct (Py.contains _ line); [|intros [= <-]; now split].
    destruct (Py.nonempty_list _); [|intros [= <-]; now split].
    destruct (step_stack st0) as [|x l] eqn:E; cbn [pop bind]; [discriminate|].
    pose proof (Forall_removelast _ _ Hgs) as Hr.
    set (r := removelast (x :: l)) in *. clearbody r.
    destruct (Py.nonempty_list r).
    - destruct (index_last r) as [top|] eqn:Et; cbn [bind]; [|discriminate].
      intros [= <-]. cbn [set_current_step set_step_stack current_step step_stack].
      split; [|exact Hr]. intros n [= <-].
      rewrite Forall_forall in Hr. apply Hr.
      destruct r; [discriminate Et|]. unfold index_last in Et. eapply index_In, Et.
    - cbn [bind]. intros [= <-].
      cbn [set_current_step set_step_stack current_step step_stack].
      split; [discriminate|exact Hr]. }
  destruct H1 as [H1c H1s]. split; [|exact H1s].
  unfold track_command. destruct (Py.contains _ line); [|exact H1c].
  destruct (Re.search_group _ _ line) as [g|] eqn:E; [|exact H1c].
  destruct (active _); [exact H1c|].
  cbn [set_current_step current_step]. intros n [= <-].
  unfold command_step, one_line. rewrite all_chars_app.
  apply andb_true_iff. split; [reflexivity|].
  apply all_chars_take. exact (dot_span_one_line _ _ _ E).
Qed.

Lemma touched_one_line (cur : string) (a b : list failed_step) :
  touched cur a b ->
  one_line cur = true ->
  Forall (fun step => one_line (name step) = true) a ->
  Forall (fun step => one_line (name step) = true) b.
Proof.
  intros Ht Hcur.
  induction Ht as [steps|e steps|errs steps _ _|a b c _ IH1 _ IH2]; intros Ha.
  - exact Ha.
  - pose proof (for_step_names cur (append_error e) steps (fun s => eq_refl)) as Hn.
    rewrite Forall_forall in *. intros step Hin.
    assert (Hin' : In (name step) (map name steps))
      by (rewrite <- Hn; now apply in_map).
    apply in_map_iff in Hin' as (s0 & <- & Hs0). now apply Ha.
  - apply Forall_app. split; [exact Ha|]. now constructor.
  - auto.
Qed.

Lemma process_line_one_line (lines : list string) (i : nat) (line : string)
    (st st' : state) :
  kept_on_one_line st -> process_line lines i line st = Ok st' -> kept_on_one_line st'.
Proof.
  intros Hinv H.
  destruct (process_line_tracker _ _ _ _ _ H) as (st1 & E1 & Hc & Hs).
  destruct (tracker_one_line _ _ _ Hinv E1) as [Hcur Hstack].
  destruct Hinv as (_ & _ & Hnames & Hcodes).
  assert (Hcur' : forall n, current_step st' = Some n -> one_line n = true)
    by (intros n Hn; apply Hcur; congruence).
  split; [exact Hcur'|]. split; [now rewrite Hs|]. split.
  - pose proof (process_line_touched _ _ _ _ _ H) as Ht.
    destruct (active (current_step st')) as [cur|] eqn:Hact; [|now rewrite Ht].
    eapply touched_one_line; [exact Ht| |exact Hnames].
    apply Hcur'. now apply active_nonempty in Hact as [-> _].
  - destruct (process_line_exit_codes _ _ _ _ _ H) as [->|(code & Hnum & ->)];
      [exact Hcodes|].
    apply Forall_app. split; [exact Hcodes|].
    constructor; [|constructor]. now split.
Qed.

Lemma process_from_one_line (lines todo : list string) :
  forall i st st',
    kept_on_one_line st -> process_from lines i todo st = Ok st' -> kept_on_one_line st'.
Proof.
  induction todo as [|line rest IH]; intros i st st' Hinv; cbn [process_from].
  - now intros [= <-].
  - destruct (process_line lines i line st) as [st1|] eqn:E1; cbn [bind]; [|discriminate].
    apply IH. eapply process_line_one_line; eassumption.
Qed.

Lemma scan_one_line (logs : string) (st : state) :
  scan logs = Ok st -> kept_on_one_line st.
Proof.
  apply process_from_one_line.
  repeat split; try constructor. discriminate.
Qed.

(** X6. Every exit-code record of a scan holds a non-empty text of decimal
    digits, taken greedily after the words [exit code]. *)
Theorem exit_codes_are_numeric (logs : string) :
  exists st,
    scan logs = Ok st
    /\ Forall (fun ec => numeric (fst ec) = true) (exit_codes st).
Proof.
  destruct (scan_total logs) as [st Hst]. exists st. split; [exact Hst|].
  destruct (scan_one_line _ _ Hst) as (_ & _ & _ & H).
  eapply Forall_impl; [|exact H]. now intros ec [Hn _].
Qed.

(** ** The summary, line by line *)

Lemma replace_newline_one_line (s : string) :
  one_line (Py.replace nl_str " " s) = true.
Proof.
  unfold Py.replace, one_line.
  induction s as [|c s IH]; cbn [Py.replace_from]; [reflexivity|].
  change (String.length nl_str - 1) with 0.
  cbn [nl_str Py.startswith].
  destruct (Ascii.eqb Py.nl c) eqn:E; cbn [andb].
  - cbn [append all_chars]. now rewrite IH.
  - cbn [all_chars]. rewrite IH. unfold not_newline.
    rewrite Ascii.eqb_sym, E. reflexivity.
Qed.

Lemma string_of_uint_digits (d : Decimal.uint) :
  all_chars Py.is_digit (NilEmpty.string_of_uint d) = true.
Proof.
  induction d; cbn [NilEmpty.string_of_uint all_chars]; try rewrite IHd; reflexivity.
Qed.

Lemma str_of_nat_one_line (n : nat) : one_line (Py.str_of_nat n) = true.
Proof.
  eapply all_chars_impl; [apply digit_not_newline|apply string_of_uint_digits].
Qed.

Lemma error_preview_one_line (e : string) : one_line (error_preview e) = true.
Proof.
  unfold error_preview. apply all_chars_take, all_chars_strip, replace_newline_one_line.
Qed.

Lemma error_clean_one_line (e : string) : one_line (error_clean e) = true.
Proof.
  unfold error_clean.
  assert (H : one_line (Py.take 300 (Py.strip (Py.replace nl_str " " e))) = true)
    by apply all_chars_take, all_chars_strip, replace_newline_one_line.
  destruct (_ <? _); [|exact H].
  unfold one_line in *. rewrite all_chars_app, H. reflexivity.
Qed.

Lemma one_line_app (a b : string) :
  one_line a = true -> one_line b = true -> one_line (a ++ b) = true.
Proof. unfold one_line. intros Ha Hb. now rewrite all_chars_app, Ha, Hb. Qed.

Lemma summary_line_one_line (st : state) (detected : list string) (l : string) :
  kept_on_one_line st ->
  Forall (fun d => one_line d = true) detected ->
  summary_line st detected l -> one_line l = true.
Proof.
  intros (_ & _ & Hnames & Hcodes) Hdet.
  rewrite Forall_forall in Hnames, Hcodes, Hdet.
  intros [l' Hin|step Hin|step e rest Hin He|step Hin|i error Hi Hin|d Hin|[code s] Hin].
  - assert (H : forallb one_line fixed_lines = true) by reflexivity.
    rewrite forallb_forall in H. now apply H.
  - apply one_line_app; [reflexivity|now apply Hnames].
  - apply one_line_app; [reflexivity|apply error_preview_one_line].
  - unfold count_line.
    repeat (apply one_line_app; try reflexivity). apply str_of_nat_one_line.
  - repeat (apply one_line_app; try reflexivity);
      [apply str_of_nat_one_line|apply error_clean_one_line].
  - apply one_line_app; [reflexivity|now apply Hdet].
  - destruct (Hcodes _ Hin) as [Hnum Hstep]. cbn [fst snd] in *.
    unfold exit_code_line.
    repeat (apply one_line_app; try reflexivity); [now apply numeric_one_line|].
    destruct (active s) as [n|] eqn:Hact; [|reflexivity].
    apply Hstep. now apply active_nonempty in Hact as [-> _].
Qed.

Lemma split_one_line (x : string) : one_line x = true -> Py.split Py.nl x = [x].
Proof.
  unfold one_line. induction x as [|c x IH]; cbn [Py.split all_chars]; [reflexivity|].
  intros H. apply andb_true_iff in H as [Hc Hx]. unfold not_newline in Hc.
  apply negb_true_iff in Hc. rewrite Hc, (IH Hx). reflexivity.
Qed.

Lemma split_after_one_line (x rest : string) :
  one_line x = true ->
  Py.split Py.nl (x ++ String Py.nl rest) = x :: Py.split Py.nl rest.
Proof.
  unfold one_line. induction x as [|c x IH]; cbn [append Py.split all_chars].
  - intros _. now rewrite Ascii.eqb_refl.
  - intros H. apply andb_true_iff in H as [Hc Hx]. unfold not_newline in Hc.
    apply negb_true_iff in Hc. rewrite Hc, (IH Hx). reflexivity.
Qed.

(** Joining lines without newlines and splitting again gives the lines back. *)
Lemma split_join (ls : list string) :
  ls <> [] -> Forall (fun l => one_line l = true) ls ->
  Py.split Py.nl (Py.join nl_str ls) = ls.
Proof.
  induction ls as [|x ls IH]; [congruence|].
  intros _ H. inversion H as [|? ? Hx Hls]; subst.
  destruct ls as [|y ls].
  - now apply split_one_line.
  - rewrite join_cons. cbn [nl_str append].
    rewrite split_after_one_line by exact Hx.
    now rewrite IH.
Qed.

(** X7. For every log, splitting the summary text at its newlines gives back
    exactly the lines the renderer emitted: no step name, error preview, exit
    code or description brings a newline of its own into the report. *)
Theorem summary_text_splits_into_its_lines (logs : string) :
  exists ls text,
    summary_lines logs = Ok ls
    /\ analyze_log_errors logs = Ok text
    /\ Py.split Py.nl text = ls.
Proof.
  destruct (summary_lines_total logs) as (st & mid & Hscan & Hmid & Hls).
  eexists. eexists. split; [exact Hls|].
  split; [unfold analyze_log_errors; rewrite Hls; reflexivity|].
  apply split_join; [discriminate|].
  assert (Hshape : render st (detected_patterns logs)
                   = Ok (header ++ mid ++ key_errors_section (error_messages st)
                           ++ patterns_section (detected_patterns logs)
                           ++ exit_codes_section (exit_codes st)
                           ++ fallback_section st ++ trailer)).
  { unfold summary_lines in Hls. rewrite Hscan in Hls. exact Hls. }
  apply render_shape in Hshape.
  eapply Forall_impl; [|exact Hshape].
  intros l. apply summary_line_one_line; [exact (scan_one_line logs st Hscan)|].
  apply Forall_forall. intros d Hd.
  assert (Hall : forallb one_line (map snd failure_patterns) = true) by reflexivity.
  rewrite forallb_forall in Hall. apply Hall.
  eapply subseq_In; [apply match_patterns_subseq|exact Hd].
Qed.

(** * Properties of the [.env] loader *)

Lemma split1_spec (s : string) :
  (Py.contains "=" s = false /\ Env.split1 "="%char s = [s])
  \/ (Py.contains "=" s = true
      /\ exists k v,
           Env.split1 "="%char s = [k; v]
           /\ all_chars Env.not_equals k = true
           /\ s = (k ++ "=" ++ v)%string).
Proof.
  induction s as [|c s IH]; [now left|].
  cbn [Py.contains Py.startswith Env.split1].
  destruct (Ascii.eqb c "=") eqn:E.
  - apply Ascii.eqb_eq in E. subst c. right. split; [reflexivity|].
    exists EmptyString, s. repeat split.
  - rewrite Ascii.eqb_sym, E. cbn [andb orb].
    destruct IH as [[Hc Hs]|(Hc & k & v & Hs & Hk & ->)].
    + left. now rewrite Hc, Hs.
    + right. rewrite Hc, Hs. split; [reflexivity|].
      exists (String c k), v. repeat split.
      cbn [all_chars]. unfold Env.not_equals at 1. now rewrite E, Hk.
Qed.

(** A line is skipped or stores the assignment it denotes, unless the name is
    taken. *)
Lemma load_line_spec (raw : string) (env : Env.environ) :
  Env.load_line raw env
  = match Env.assignment raw with
    | Some (k, v) => if Env.has k env then Env.Loaded env else Env.setitem k v env
    | None => Env.Loaded env
    end.
Proof.
  unfold Env.load_line, Env.assignment.
  destruct (negb _ || _); [reflexivity|].
  destruct (split1_spec (Py.strip raw)) as [[Hc Hs]|(Hc & k & v & Hs & _ & _)];
    rewrite Hc, Hs; [reflexivity|].
  cbn zeta. destruct (Py.nonempty (Py.strip k)); [|reflexivity].
  cbn [andb]. destruct (Env.has _ env); reflexivity.
Qed.

Lemma setitem_loaded (k v : string) (env env' : Env.environ) :
  Env.setitem k v env = Env.Loaded env' ->
  env' = (k, v) :: env
  /\ all_chars Env.not_nul k = true /\ all_chars Env.not_nul v = true
  /\ Py.nonempty k = true /\ all_chars Env.not_equals k = true.
Proof.
  unfold Env.setitem. destruct (_ && _) eqn:E; [|discriminate].
  intros [= <-]. repeat (apply andb_true_iff in E as [E ?]). now repeat split.
Qed.

Lemma has_get (key : string) (env : Env.environ) :
  Env.has key env = false <-> Env.get key env = None.
Proof. unfold Env.has. destruct (Env.get key env); split; congruence. Qed.

(** The value of a name after one line. *)
Lemma load_line_get (raw : string) (env e1 : Env.environ) (key : string) :
  Env.load_line raw env = Env.Loaded e1 ->
  Env.get key e1
  = match Env.get key env with
    | Some v => Some v
    | None => Env.first_value key [raw]
    end.
Proof.
  rewrite load_line_spec. cbn [Env.first_value].
  destruct (Env.assignment raw) as [[k v]|];
    [|intros [= <-]; now destruct (Env.get key env)].
  destruct (Env.has k env) eqn:Hhas.
  - intros [= <-]. destruct (Env.get key env) eqn:Hget; [reflexivity|].
    destruct (String.eqb k key) eqn:E; [|reflexivity].
    apply String.eqb_eq in E. subst k. apply has_get in Hget. congruence.
  - intros H. apply setitem_loaded in H as [-> _]. cbn [Env.get].
    destruct (String.eqb k key) eqn:E.
    + apply String.eqb_eq in E. subst k. apply has_get in Hhas. now rewrite Hhas.
    + now destruct (Env.get key env).
Qed.

Lemma first_value_cons (key raw : string) (rest : list string) :
  Env.first_value key (raw :: rest)
  = match Env.first_value key [raw] with
    | Some v => Some v
    | None => Env.first_value key rest
    end.
Proof.
  cbn [Env.first_value]. destruct (Env.assignment raw) as [[k v]|]; [|reflexivity].
  now destruct (String.eqb k key).
Qed.

(** X8. After a load, a name that was in the environment keeps the value it
    had, and any other name has the value of the first line of the file that
    assigns it, or none if no line does: the environment takes precedence over
    the file and, within the file, the first assignment wins. *)
Theorem env_file_first_assignment_wins (lines : list string) :
  forall (env env' : Env.environ) (key : string),
    Env.load_env_file (Some lines) env = Env.Loaded env' ->
    Env.get key env'
    = match Env.get key env with
      | Some v => Some v
      | None => Env.first_value key lines
      end.
Proof.
  cbn [Env.load_env_file].
  induction lines as [|raw rest IH]; intros env env' key; cbn [Env.load_lines].
  - intros [= <-]. now destruct (Env.get key env).
  - destruct (Env.load_line raw env) as [e1|] eqn:E1; [|discriminate].
    intros H.
    rewrite (IH _ _ key H), (load_line_get _ _ _ key E1), (first_value_cons key raw rest).
    destruct (Env.get key env); [reflexivity|].
    now destruct (Env.first_value key [raw]).
Qed.

Lemma env_file_first_assignment_wins_witness :
  Env.load_env_file (Some ["# token"; "OWNER = octo"; "REPO='a b'"; "OWNER=late"])
    [("REPO", "shell")]
  = Env.Loaded [("OWNER", "octo"); ("REPO", "shell")]
  /\ Env.get "OWNER" [("OWNER", "octo"); ("REPO", "shell")] = Some "octo"
  /\ Env.get "REPO" [("OWNER", "octo"); ("REPO", "shell")] = Some "shell".
Proof.
  split; [reflexivity|]. split.
  - exact (env_file_first_assignment_wins
             ["# token"; "OWNER = octo"; "REPO='a b'"; "OWNER=late"]
             [("REPO", "shell")] [("OWNER", "octo"); ("REPO", "shell")] "OWNER" eq_refl).
  - exact (env_file_first_assignment_wins
             ["# token"; "OWNER = octo"; "REPO='a b'"; "OWNER=late"]
             [("REPO", "shell")] [("OWNER", "octo"); ("REPO", "shell")] "REPO" eq_refl).
Defined.

Lemma load_lines_keeps (lines : list string) :
  forall (env env' : Env.environ) (key : string),
    Env.load_lines lines env = Env.Loaded env' ->
    Env.has key env = true -> Env.has key env' = true.
Proof.
  induction lines as [|raw rest IH]; intros env env' key; cbn [Env.load_lines].
  - now intros [= <-].
  - destruct (Env.load_line raw env) as [e1|] eqn:E1; [|discriminate].
    intros H Hhas. apply (IH _ _ key H). revert Hhas. unfold Env.has.
    rewrite (load_line_get _ _ _ key E1). now destruct (Env.get key env).
Qed.

Lemma load_lines_assigned (lines : list string) :
  forall env env' raw k v,
    Env.load_lines lines env = Env.Loaded env' ->
    In raw lines -> Env.assignment raw = Some (k, v) ->
    Env.has k env' = true.
Proof.
  induction lines as [|raw0 rest IH]; intros env env' raw k v; cbn [Env.load_lines];
    [intros _ []|].
  destruct (Env.load_line raw0 env) as [e1|] eqn:E1; [|discriminate].
  intros H [<-|Hin] Ha; [|eapply IH; eassumption].
  apply (load_lines_keeps _ _ _ _ H).
  rewrite load_line_spec, Ha in E1.
  destruct (Env.has k env) eqn:Hhas; [now injection E1 as <-|].
  apply setitem_loaded in E1 as [-> _].
  unfold Env.has. cbn [Env.get]. now rewrite String.eqb_refl.
Qed.

Lemma load_lines_fixed (lines : list string) (env : Env.environ) :
  (forall raw k v, In raw lines -> Env.assignment raw = Some (k, v) ->
                   Env.has k env = true) ->
  Env.load_lines lines env = Env.Loaded env.
Proof.
  induction lines as [|raw rest IH]; intros H; cbn [Env.load_lines]; [reflexivity|].
  rewrite load_line_spec.
  destruct (Env.assignment raw) as [[k v]|] eqn:Ha.
  - rewrite (H raw k v (or_introl eq_refl) Ha).
    apply IH. intros r k' v' Hin. apply H. now right.
  - apply IH. intros r k' v' Hin. apply H. now right.
Qed.

(** X9. Loading the same file a second time changes nothing: every name the
    file assigns is in the environment after the first load, so every line is
    skipped. *)
Theorem env_file_load_twice (lines : list string) (env env' : Env.environ) :
  Env.load_env_file (Some lines) env = Env.Loaded env' ->
  Env.load_env_file (Some lines) env' = Env.Loaded env'.
Proof.
  cbn [Env.load_env_file]. intros H. apply load_lines_fixed.
  intros raw k v. now apply (load_lines_assigned lines env env').
Qed.

Lemma env_file_load_twice_witness :
  Env.load_env_file (Some ["OWNER = octo"; "OWNER=late"; "LOG_DIR=logs"]) []
  = Env.Loaded [("LOG_DIR", "logs"); ("OWNER", "octo")]
  /\ Env.load_env_file (Some ["OWNER = octo"; "OWNER=late"; "LOG_DIR=logs"])
       [("LOG_DIR", "logs"); ("OWNER", "octo")]
     = Env.Loaded [("LOG_DIR", "logs"); ("OWNER", "octo")].
Proof.
  split; [reflexivity|].
  apply (env_file_load_twice ["OWNER = octo"; "OWNER=late"; "LOG_DIR=logs"] []).
  reflexivity.
Defined.

(** ** Stripping *)

Lemma lstrip_head (s : string) :
  Py.lstrip s = EmptyString
  \/ exists c s', Py.lstrip s = String c s' /\ Py.is_space c = false.
Proof.
  induction s as [|c s IH]; cbn [Py.lstrip]; [now left|].
  destruct (Py.is_space c) eqn:E; [exact IH|]. right. now exists c, s.
Qed.

Lemma lstrip_fixed (c : ascii) (s : string) :
  Py.is_space c = false -> Py.lstrip (String c s) = String c s.
Proof. intros H. cbn [Py.lstrip]. now rewrite H. Qed.

Lemma rstrip_head (c : ascii) (s : string) :
  Py.is_space c = false -> exists s', Py.rstrip (String c s) = String c s'.
Proof.
  intros H. cbn [Py.rstrip]. destruct (Py.rstrip s); [|eauto].
  rewrite H. eauto.
Qed.

Lemma rstrip_idem (s : string) : Py.rstrip (Py.rstrip s) = Py.rstrip s.
Proof.
  induction s as [|c s IH]; [reflexivity|].
  cbn [Py.rstrip]. destruct (Py.rstrip s) as [|c' r] eqn:E.
  - destruct (Py.is_space c) eqn:Hc; [reflexivity|].
    cbn [Py.rstrip]. now rewrite Hc.
  - cbn [Py.rstrip]. cbn [Py.rstrip] in IH. now rewrite IH.
Qed.

Lemma strip_idem (s : string) : Py.strip (Py.strip s) = Py.strip s.
Proof.
  unfold Py.strip.
  destruct (lstrip_head s) as [->|(c & s' & -> & Hc)]; [reflexivity|].
  destruct (rstrip_head c s' Hc) as [r Hr]. rewrite Hr.
  rewrite lstrip_fixed by exact Hc. rewrite <- Hr. apply rstrip_idem.
Qed.

Lemma rstrip_snoc (s : string) (d : ascii) :
  Py.is_space d = false ->
  Py.rstrip (s ++ String d EmptyString) = (s ++ String d EmptyString)%string.
Proof.
  intros Hd. induction s as [|c s IH]; cbn [append Py.rstrip].
  - now rewrite Hd.
  - rewrite IH. destruct (s ++ String d EmptyString)%string eqn:E; [|reflexivity].
    destruct s; discriminate E.
Qed.

(** A text between two characters that are not white space is its own strip. *)
Lemma strip_fixed (c d : ascii) (s : string) :
  Py.is_space c = false -> Py.is_space d = false ->
  Py.strip (String c (s ++ String d EmptyString))
  = String c (s ++ String d EmptyString).
Proof.
  intros Hc Hd. unfold Py.strip. rewrite lstrip_fixed by exact Hc.
  exact (rstrip_snoc (String c s) d Hd).
Qed.

Lemma lstrip_length (s : string) : String.length (Py.lstrip s) <= String.length s.
Proof.
  induction s as [|c s IH]; cbn [Py.lstrip]; [lia|].
  destruct (Py.is_space c); cbn [String.length]; lia.
Qed.

Lemma rstrip_length (s : string) : String.length (Py.rstrip s) <= String.length s.
Proof.
  induction s as [|c s IH]; cbn [Py.rstrip]; [lia|].
  destruct (Py.rstrip s); [destruct (Py.is_space c)|]; cbn [String.length] in *; lia.
Qed.

(** A stripped, non-empty text starts with a character that is not white
    space. *)
Lemma stripped_head (s : string) :
  Py.strip s = s -> Py.nonempty s = true ->
  exists c s', s = String c s' /\ Py.is_space c = false.
Proof.
  intros Hs Hne. destruct s as [|c s']; [discriminate|].
  exists c, s'. split; [reflexivity|].
  destruct (Py.is_space c) eqn:Hc; [|reflexivity].
  exfalso. assert (H : String.length (Py.strip (String c s')) <= String.length s').
  { unfold Py.strip. cbn [Py.lstrip]. rewrite Hc.
    etransitivity; [apply rstrip_length|apply lstrip_length]. }
  rewrite Hs in H. cbn [String.length] in H. lia.
Qed.

Lemma rstrip_app_snoc (a s : string) (d : ascii) :
  Py.is_space d = false ->
  Py.rstrip (a ++ s ++ String d EmptyString) = (a ++ s ++ String d EmptyString)%string.
Proof. intros Hd. rewrite <- append_assoc. now apply rstrip_snoc. Qed.

(** ** Parts of a line *)

Lemma split1_app (k rest : string) :
  all_chars Env.not_equals k = true ->
  Env.split1 "="%char (k ++ String "="%char rest) = [k; rest].
Proof.
  induction k as [|c k IH]; cbn [append Env.split1 all_chars]; [reflexivity|].
  intros H. apply andb_true_iff in H as [Hc Hk]. unfold Env.not_equals in Hc.
  apply negb_true_iff in Hc. now rewrite Hc, (IH Hk).
Qed.

Lemma endswith_app (a p : string) : Env.endswith p (a ++ p) = true.
Proof.
  induction a as [|c a IH]; cbn [append].
  - destruct p; cbn [Env.endswith]; now rewrite String.eqb_refl.
  - cbn [Env.endswith]. rewrite IH. apply orb_true_r.
Qed.

Lemma drop_last_snoc (s : string) (d : ascii) :
  Env.drop_last (s ++ String d EmptyString) = s.
Proof.
  induction s as [|c s IH]; [reflexivity|].
  cbn [append Env.drop_last]. rewrite IH.
  destruct (s ++ String d EmptyString)%string eqn:E; [|reflexivity].
  destruct s; discriminate E.
Qed.

Lemma all_chars_drop_last (p : ascii -> bool) (s : string) :
  all_chars p s = true -> all_chars p (Env.drop_last s) = true.
Proof.
  induction s as [|c s IH]; [reflexivity|].
  cbn [Env.drop_last all_chars]. intros H. apply andb_true_iff in H as [Hc Hs].
  destruct s; [reflexivity|]. cbn [all_chars]. rewrite Hc. now apply IH.
Qed.

Lemma all_chars_unquote (p : ascii -> bool) (s : string) :
  all_chars p s = true -> all_chars p (Env.unquote s) = true.
Proof.
  intros H. unfold Env.unquote, Env.inner.
  destruct (_ && _); [now apply all_chars_drop_last, all_chars_drop|].
  destruct (_ && _); [now apply all_chars_drop_last, all_chars_drop|exact H].
Qed.

(** The name a line assigns is not empty, has no equals sign and no white
    space around it; name and value are made of characters of the line. *)
Lemma assignment_facts (raw k v : string) :
  Env.assignment raw = Some (k, v) ->
  Py.nonempty k = true
  /\ all_chars Env.not_equals k = true
  /\ Py.strip k = k
  /\ forall p, all_chars p raw = true -> all_chars p k = true /\ all_chars p v = true.
Proof.
  unfold Env.assignment.
  destruct (negb _ || _); [discriminate|].
  destruct (split1_spec (Py.strip raw)) as [[_ Hs]|(_ & k0 & v0 & Hs & Hk0 & Hline)];
    rewrite Hs; [discriminate|].
  destruct (Py.nonempty (Py.strip k0)) eqn:Hne; [|discriminate].
  intros [= <- <-]. split; [exact Hne|]. split; [now apply all_chars_strip|].
  split; [apply strip_idem|].
  intros p Hp. apply (all_chars_strip p) in Hp. rewrite Hline in Hp.
  rewrite !all_chars_app in Hp.
  apply andb_true_iff in Hp as [Hpk Hp]. apply andb_true_iff in Hp as [_ Hpv].
  split; [now apply all_chars_strip|now apply all_chars_unquote, all_chars_strip].
Qed.

Lemma quoted_assignment (q : ascii) (key value : string) :
  Py.is_space q = false ->
  Env.plain_name key ->
  Env.unquote (String q (value ++ String q EmptyString)) = value ->
  Env.assignment (key ++ "=" ++ String q (value ++ String q EmptyString))
  = Some (key, value).
Proof.
  intros Hq (Hne & Hk & Hs & Hhash) Hun.
  destruct (stripped_head key Hs Hne) as (c & k' & -> & Hc).
  assert (Hline : Py.strip (String c k' ++ "=" ++ String q (value ++ String q EmptyString))
                  = (String c k' ++ "=" ++ String q (value ++ String q EmptyString))%string).
  { unfold Py.strip. cbn [append]. rewrite lstrip_fixed by exact Hc.
    change (String c (k' ++ String "=" (String q (value ++ String q EmptyString))))
      with (String c k' ++ (String "=" (String q value)) ++ String q EmptyString)%string
      at 1.
    rewrite rstrip_app_snoc by exact Hq. reflexivity. }
  unfold Env.assignment. rewrite Hline.
  cbn [append Py.nonempty negb orb Py.startswith] in *.
  rewrite andb_true_r in Hhash. rewrite Hhash, andb_true_r.
  change (String c (k' ++ String "=" (String q (value ++ String q EmptyString))))
    with (String c k' ++ String "=" (String q (value ++ String q EmptyString)))%string.
  rewrite split1_app by exact Hk.
  rewrite Hs. cbn [Py.nonempty].
  now rewrite (strip_fixed q q value Hq Hq), Hun.
Qed.

Lemma unquote_double (value : string) :
  Env.unquote (String Py.dquote (value ++ Env.double_quote)) = value.
Proof.
  unfold Env.unquote.
  change (String Py.dquote (value ++ Env.double_quote))
    with (String Py.dquote value ++ Env.double_quote)%string.
  rewrite endswith_app. cbn [append Py.startswith Env.double_quote].
  rewrite Ascii.eqb_refl. cbn [andb Env.inner Re.drop].
  apply drop_last_snoc.
Qed.

Lemma unquote_single (value : string) :
  Env.unquote (String "'"%char (value ++ "'")) = value.
Proof.
  unfold Env.unquote.
  change (String "'"%char (value ++ "'")) with (String "'"%char value ++ "'")%string.
  rewrite endswith_app. cbn [append Py.startswith Env.double_quote].
  change (Ascii.eqb Py.dquote "'"%char) with false.
  rewrite Ascii.eqb_refl. cbn [andb Env.inner Re.drop].
  apply drop_last_snoc.
Qed.

Lemma load_fresh_assignment (raw key value : string) (env : Env.environ) :
  Env.assignment raw = Some (key, value) ->
  all_chars Env.not_nul key = true -> all_chars Env.not_nul value = true ->
  Env.has key env = false ->
  Env.load_line raw env = Env.Loaded ((key, value) :: env).
Proof.
  intros Ha Hk Hv Hhas. rewrite load_line_spec, Ha, Hhas.
  destruct (assignment_facts _ _ _ Ha) as (Hne & Heq & _ & _).
  unfold Env.setitem. now rewrite Hk, Hv, Hne, Heq.
Qed.

(** X10. A value written between double or single quotes comes back as it
    was written, spaces and equals signs included: the line [NAME="value"]
    (or [NAME='value']), for a name that is not yet set, stores exactly
    [value] under [NAME]. *)
Theorem quoted_value_round_trip (key value : string) (env : Env.environ) :
  Env.plain_name key ->
  all_chars Env.not_nul key = true ->
  all_chars Env.not_nul value = true ->
  Env.has key env = false ->
  Env.load_line (Env.quoted_line key value) env = Env.Loaded ((key, value) :: env)
  /\ Env.load_line (Env.single_quoted_line key value) env
     = Env.Loaded ((key, value) :: env).
Proof.
  intros Hplain Hk Hv Hhas. split.
  - apply load_fresh_assignment; try assumption.
    apply (quoted_assignment Py.dquote key value); [reflexivity|exact Hplain|].
    apply unquote_double.
  - apply load_fresh_assignment; try assumption.
    apply (quoted_assignment "'"%char key value); [reflexivity|exact Hplain|].
    apply unquote_single.
Qed.

Lemma quoted_value_round_trip_witness :
  Env.plain_name "LOG_DIR"
  /\ Env.load_line (Env.quoted_line "LOG_DIR" " my logs = here ") []
     = Env.Loaded [("LOG_DIR", " my logs = here ")].
Proof.
  assert (H : Env.plain_name "LOG_DIR") by (repeat split).
  split; [exact H|].
  apply (quoted_value_round_trip "LOG_DIR" " my logs = here " [] H); reflexivity.
Defined.

(** X11. A line makes the loader raise [ValueError] exactly when it assigns a
    name that is not yet in the environment and the name or the value holds a
    NUL character; every other line is skipped or stored. *)
Theorem env_line_raises_iff (raw : string) (env : Env.environ) :
  Env.load_line raw env = Env.ValueError
  <-> exists k v,
        Env.assignment raw = Some (k, v)
        /\ Env.has k env = false
        /\ all_chars Env.not_nul k && all_chars Env.not_nul v = false.
Proof.
  rewrite load_line_spec. split.
  - destruct (Env.assignment raw) as [[k v]|] eqn:Ha; [|discriminate].
    destruct (Env.has k env) eqn:Hhas; [discriminate|].
    destruct (assignment_facts _ _ _ Ha) as (Hne & Heq & _ & _).
    unfold Env.setitem. rewrite Hne, Heq, !andb_true_r.
    destruct (_ && _) eqn:E; [discriminate|].
    intros _. now exists k, v.
  - intros (k & v & -> & -> & E). unfold Env.setitem. now rewrite E.
Qed.

Lemma env_line_raises_iff_witness :
  Env.load_line ("TOKEN=a" ++ String Ascii.zero "b") [] = Env.ValueError.
Proof.
  apply (proj2 (env_line_raises_iff ("TOKEN=a" ++ String Ascii.zero "b") [])).
  exists "TOKEN", ("a" ++ String Ascii.zero "b")%string. repeat split.
Defined.

Lemma load_lines_new (lines : list string) :
  forall (env env' : Env.environ) (key v : string),
    Env.load_lines lines env = Env.Loaded env' ->
    Env.get key env = None -> Env.get key env' = Some v ->
    exists raw, In raw lines /\ Env.assignment raw = Some (key, v).
Proof.
  induction lines as [|raw rest IH]; intros env env' key v; cbn [Env.load_lines].
  - intros [= <-]. congruence.
  - destruct (Env.load_line raw env) as [e1|] eqn:E1; [|discriminate].
    intros H Hold Hnew.
    pose proof (load_line_get _ _ _ key E1) as H1. rewrite Hold in H1.
    cbn [Env.first_value] in H1.
    destruct (Env.get key e1) as [v1|] eqn:G1.
    + assert (Hv : Env.get key env' = Some v1).
      { clear IH. revert H G1. generalize e1. clear.
        induction rest as [|r rest IH]; intros e; cbn [Env.load_lines].
        - now intros [= <-].
        - destruct (Env.load_line r e) as [e2|] eqn:E2; [|discriminate].
          intros H G. apply (IH _ H).
          rewrite (load_line_get _ _ _ key E2), G. reflexivity. }
      assert (v1 = v) by congruence. subst v1.
      exists raw. split; [now left|].
      destruct (Env.assignment raw) as [[k v']|]; [|discriminate].
      destruct (String.eqb k key) eqn:E; [|discriminate].
      apply String.eqb_eq in E. now injection H1 as <-; subst.
    + destruct (IH _ _ _ _ H G1 Hnew) as (r & Hin & Hr).
      exists r. split; [now right|exact Hr].
Qed.

(** X12. Every name a load adds to the environment is not empty, holds no
    equals sign and has no white space around it, and it comes with its value
    from a line of the file. *)
Theorem env_file_stored_names (lines : list string) (env env' : Env.environ)
    (key v : string) :
  Env.load_env_file (Some lines) env = Env.Loaded env' ->
  Env.get key env = None ->
  Env.get key env' = Some v ->
  Py.nonempty key = true
  /\ all_chars Env.not_equals key = true
  /\ Py.strip key = key
  /\ exists raw, In raw lines /\ Env.assignment raw = Some (key, v).
Proof.
  cbn [Env.load_env_file]. intros H Hold Hnew.
  destruct (load_lines_new _ _ _ _ _ H Hold Hnew) as (raw & Hin & Ha).
  destruct (assignment_facts _ _ _ Ha) as (Hne & Heq & Hs & _).
  repeat split; try assumption. now exists raw.
Qed.

Lemma env_file_stored_names_witness :
  Py.nonempty "OWNER" = true
  /\ all_chars Env.not_equals "OWNER" = true
  /\ Py.strip "OWNER" = "OWNER"
  /\ exists raw,
       In raw ["  OWNER = octo  "; "=x"] /\ Env.assignment raw = Some ("OWNER", "octo").
Proof.
  apply (env_file_stored_names ["  OWNER = octo  "; "=x"] [] [("OWNER", "octo")]);
    reflexivity.
Defined.

(** * The look-ahead of the traceback capture *)

Lemma index_skipn {A} (l : list A) :
  forall a x, index l a = Ok x -> skipn a l = x :: skipn (S a) l.
Proof.
  induction l as [|y l IH]; intros [|a] x; unfold index; cbn [nth_error skipn];
    try discriminate.
  - now intros [= <-].
  - intros H. apply (IH a x). exact H.
Qed.

Lemma tb_context_run (lines : list string) (n : nat) :
  forall a acc out,
    tb_context lines (seq a n) acc = Ok out ->
    exists k, k <= n /\ out = acc ++ firstn k (skipn a lines).
Proof.
  induction n as [|n IH]; intros a acc out; cbn [seq tb_context].
  - intros [= <-]. exists 0. split; [lia|]. now rewrite app_nil_r.
  - destruct (index lines a) as [x|] eqn:Ex; cbn [bind]; [|discriminate].
    apply index_skipn in Ex.
    destruct (_ && _).
    + intros H. apply IH in H as (k & Hk & ->). exists (S k). split; [lia|].
      rewrite Ex. cbn [firstn]. now rewrite <- app_assoc.
    + intros [= <-]. exists 0. split; [lia|]. now rewrite app_nil_r.
Qed.

Lemma tb_scan_run (lines : list string) (n : nat) :
  forall a acc found out,
    tb_scan lines (seq a n) acc found = Ok out ->
    exists k, k <= n + 4 /\ out = acc ++ firstn k (skipn a lines).
Proof.
  induction n as [|n IH]; intros a acc found out; cbn [seq tb_scan].
  - intros [= <-]. exists 0. split; [lia|]. now rewrite app_nil_r.
  - destruct (index lines a) as [x|] eqn:Ex; cbn [bind]; [|discriminate].
    apply index_skipn in Ex.
    assert (Hnext : forall k, k <= n + 4 ->
                      out = (acc ++ [x]) ++ firstn k (skipn (S a) lines) ->
                      exists k', k' <= S n + 4 /\ out = acc ++ firstn k' (skipn a lines)).
    { intros k Hk ->. exists (S k). split; [lia|].
      rewrite Ex. cbn [firstn]. now rewrite <- app_assoc. }
    destruct (is_exception_line x).
    + unfold Py.range. intros H. apply tb_context_run in H as (k & Hk & ->).
      apply (Hnext k); [lia|]. now rewrite Nat.add_1_r.
    + destruct (_ && _); [destruct (_ && _)|].
      * intros [= <-]. apply (Hnext 0); [lia|]. cbn [firstn]. now rewrite app_nil_r.
      * intros H. apply IH in H as (k & Hk & ->). now apply (Hnext k).
      * intros H. apply IH in H as (k & Hk & ->). now apply (Hnext k).
Qed.

(** X13. The capture of a traceback at line [i] is that line followed by a
    run of the lines that come right after it, at most 43 of them (39 of the
    scan and 4 of context): nothing is skipped, reordered or read from further
    away. *)
Theorem traceback_capture_is_bounded_run (lines : list string) (i : nat) (line : string) :
  exists k,
    k <= 43
    /\ capture_traceback lines i line = Ok (line :: firstn k (skipn (S i) lines)).
Proof.
  destruct (capture_traceback_total lines i line) as [out H].
  rewrite H. unfold capture_traceback, Py.range in H.
  apply tb_scan_run in H as (k & Hk & ->).
  exists k. split; [lia|]. now rewrite Nat.add_1_r.
Qed.

(** * The exit-code path *)

(** X14. Exit-code detection never changes a failed step that exists: it
    leaves the list as it is, or, for a code other than [0] met in a current
    step that has no failed step yet, adds that step with the single error
    [Process exited with code N]. *)
Theorem exit_code_never_alters_a_step (line : string) (st : state) :
  failed_steps (detect_exit line st) = failed_steps st
  \/ exists cur code,
       active (current_step st) = Some cur
       /\ ~ In cur (map name (failed_steps st))
       /\ numeric code = true /\ code <> "0"
       /\ failed_steps (detect_exit line st)
          = failed_steps st ++ [FailedStep cur [exit_message code]].
Proof.
  unfold detect_exit.
  destruct (Py.contains _ line); [|now left].
  destruct (Re.search_group _ _ line) as [code|] eqn:E; [|now left].
  destruct (String.eqb code "0") eqn:Hzero; cbn [negb]; [now left|].
  cbn [set_exit_codes current_step failed_steps].
  destruct (active (current_step st)) as [cur|] eqn:Hcur; [|now left].
  pose proof (for_step_found cur same_step (failed_steps st)) as Hfound.
  pose proof (for_step_same cur (failed_steps st)) as Hsame.
  destruct (for_step cur same_step (failed_steps st)) as [steps found].
  cbn [fst snd] in *. subst steps.
  destruct found; cbn [negb set_failed_steps failed_steps]; [now left|].
  right. exists cur, code. split; [reflexivity|].
  split; [now apply not_named|].
  split; [|split; [|reflexivity]].
  - apply search_group_chars in E as [Hne Hd]. unfold numeric. now rewrite Hne.
  - intros ->. discriminate Hzero.
Qed.

(** * Properties of the saved file *)

Lemma replace_char (c d : ascii) (s : string) :
  Py.replace (String c EmptyString) (String d EmptyString) s
  = Save.map_chars (fun x => if Ascii.eqb x c then d else x) s.
Proof.
  unfold Py.replace.
  induction s as [|x s IH]; cbn [Py.replace_from Save.map_chars]; [reflexivity|].
  change (String.length (String c EmptyString) - 1) with 0.
  cbn [Py.startswith]. rewrite andb_true_r, (Ascii.eqb_sym c x).
  destruct (Ascii.eqb x c); cbn [append]; now rewrite IH.
Qed.

Lemma map_chars_compose (f g : ascii -> ascii) (s : string) :
  Save.map_chars f (Save.map_chars g s) = Save.map_chars (fun c => f (g c)) s.
Proof. induction s as [|c s IH]; cbn [Save.map_chars]; [reflexivity|now rewrite IH]. Qed.

Lemma map_chars_ext (f g : ascii -> ascii) (s : string) :
  (forall c, f c = g c) -> Save.map_chars f s = Save.map_chars g s.
Proof.
  intros H. induction s as [|c s IH]; cbn [Save.map_chars]; [reflexivity|].
  now rewrite H, IH.
Qed.

Lemma map_chars_length (f : ascii -> ascii) (s : string) :
  String.length (Save.map_chars f s) = String.length s.
Proof. induction s as [|c s IH]; cbn; [reflexivity|now rewrite IH]. Qed.

Lemma map_chars_all (p : ascii -> bool) (f : ascii -> ascii) (s : string) :
  (forall c, p (f c) = true) -> all_chars p (Save.map_chars f s) = true.
Proof.
  intros H. induction s as [|c s IH]; cbn [Save.map_chars all_chars]; [reflexivity|].
  now rewrite H, IH.
Qed.

Lemma safe_name_map (job_name : string) :
  Save.safe_name job_name = Save.map_chars Save.sanitize job_name.
Proof.
  unfold Save.safe_name.
  change "_" with (String "_"%char EmptyString).
  change " " with (String " "%char EmptyString).
  change "/" with (String "/"%char EmptyString).
  rewrite !replace_char, !map_chars_compose.
  apply map_chars_ext. intros c. unfold Save.sanitize, Save.is_separator.
  destruct (Ascii.eqb c " ") eqn:E1; [reflexivity|].
  destruct (Ascii.eqb c "/") eqn:E2; [reflexivity|].
  cbn [orb]. reflexivity.
Qed.

Lemma sanitize_clean (c : ascii) : negb (Save.is_separator (Save.sanitize c)) = true.
Proof.
  unfold Save.sanitize. destruct (Save.is_separator c) eqn:E; [reflexivity|].
  now rewrite E.
Qed.

Lemma sanitize_idem (c : ascii) : Save.sanitize (Save.sanitize c) = Save.sanitize c.
Proof.
  unfold Save.sanitize at 1. pose proof (sanitize_clean c) as H.
  apply negb_true_iff in H. now rewrite H.
Qed.

Lemma safe_name_clean (job_name : string) :
  String.length (Save.safe_name job_name) = String.length job_name
  /\ all_chars (fun c => negb (Save.is_separator c)) (Save.safe_name job_name) = true.
Proof.
  rewrite !safe_name_map. split; [apply map_chars_length|].
  apply map_chars_all, sanitize_clean.
Qed.

(** X15. The safe name of a job has the length of the job's name and is the
    name with every space, slash and backslash replaced by an underscore and
    every other character kept: it holds none of the three, and making it
    safe again changes nothing. *)
Theorem safe_name_has_no_separator (job_name : string) :
  Save.safe_name job_name = Save.map_chars Save.sanitize job_name
  /\ String.length (Save.safe_name job_name) = String.length job_name
  /\ all_chars (fun c => negb (Save.is_separator c)) (Save.safe_name job_name) = true
  /\ Save.safe_name (Save.safe_name job_name) = Save.safe_name job_name.
Proof.
  split; [apply safe_name_map|]. rewrite !safe_name_map.
  split; [apply map_chars_length|]. split.
  - apply map_chars_all, sanitize_clean.
  - rewrite map_chars_compose. apply map_chars_ext, sanitize_idem.
Qed.

Lemma digit_not_path_separator (c : ascii) :
  Py.is_digit c = true -> Save.not_path_separator c = true.
Proof.
  unfold Py.is_digit, Save.not_path_separator. intros H.
  apply andb_true_iff in H as [H1 H2]. apply Nat.leb_le in H1, H2.
  destruct (Ascii.eqb c "/") eqn:E1;
    [apply Ascii.eqb_eq in E1; subst c; cbn in H1; lia|].
  destruct (Ascii.eqb c Save.backslash) eqn:E2;
    [apply Ascii.eqb_eq in E2; subst c; cbn in H2; lia|].
  reflexivity.
Qed.

Lemma not_separator_not_path (c : ascii) :
  negb (Save.is_separator c) = true -> Save.not_path_separator c = true.
Proof.
  unfold Save.is_separator, Save.not_path_separator.
  destruct (Ascii.eqb c " "), (Ascii.eqb c "/"), (Ascii.eqb c Save.backslash);
    cbn; congruence.
Qed.

(** X16. The name of a log file holds no slash and no backslash, whatever
    the job is called: the file lies in the log directory itself, and the
    name starts with [job_] and ends with [.txt]. *)
Theorem log_file_name_has_no_path_separator (job_id : nat) (job_name : string) :
  all_chars Save.not_path_separator (Save.log_file_name job_id job_name) = true
  /\ Py.startswith "job_" (Save.log_file_name job_id job_name) = true
  /\ Env.endswith ".txt" (Save.log_file_name job_id job_name) = true.
Proof.
  unfold Save.log_file_name. split; [|split].
  - assert (Hd : all_chars Save.not_path_separator (Py.str_of_nat job_id) = true)
      by (eapply all_chars_impl;
          [apply digit_not_path_separator|apply string_of_uint_digits]).
    destruct (safe_name_clean job_name) as [_ H].
    apply (all_chars_impl _ _ _ not_separator_not_path) in H.
    rewrite !all_chars_app, Hd, H. reflexivity.
  - reflexivity.
  - rewrite <- !append_assoc. apply endswith_app.
Qed.

Lemma digits_before_underscore (d1 : string) :
  forall d2 r1 r2,
    all_chars Py.is_digit d1 = true -> all_chars Py.is_digit d2 = true ->
    (d1 ++ String "_"%char r1)%string = (d2 ++ String "_"%char r2)%string ->
    d1 = d2.
Proof.
  induction d1 as [|c d1 IH]; intros [|c2 d2] r1 r2; cbn [append all_chars];
    intros H1 H2 E.
  - reflexivity.
  - injection E as <- _. discriminate H2.
  - injection E as -> _. discriminate H1.
  - injection E as <- E. apply andb_true_iff in H1 as [_ H1].
    apply andb_true_iff in H2 as [_ H2]. f_equal. eapply IH; eassumption.
Qed.

Lemma str_of_nat_inj (n m : nat) : Py.str_of_nat n = Py.str_of_nat m -> n = m.
Proof.
  unfold Py.str_of_nat. intros H.
  apply DecimalNat.Unsigned.to_uint_inj.
  apply (f_equal NilEmpty.uint_of_string) in H.
  rewrite !NilEmpty.usu in H. now injection H.
Qed.

(** X17. Two jobs with different ids never get the same file name, whatever
    their names are: the id can be read back from the file name. *)
Theorem log_file_names_differ (id1 id2 : nat) (name1 name2 : string) :
  Save.log_file_name id1 name1 = Save.log_file_name id2 name2 -> id1 = id2.
Proof.
  unfold Save.log_file_name. cbn [append]. intros [= H].
  apply str_of_nat_inj.
  eapply digits_before_underscore; [| |exact H]; apply string_of_uint_digits.
Qed.

Lemma log_file_names_differ_witness :
  Save.log_file_name 42 "build / test" = Save.log_file_name 42 "build_/_test"
  /\ 42 = 42.
Proof.
  split; [reflexivity|].
  apply (log_file_names_differ 42 42 "build / test" "build_/_test"). reflexivity.
Defined.

(** The text of lines that end with an empty line, followed by more text. *)
Lemma split_join_then (front : list string) (more : string) :
  Forall (fun l => one_line l = true) front ->
  Py.split Py.nl (Py.join nl_str (front ++ [EmptyString]) ++ more)
  = front ++ Py.split Py.nl more.
Proof.
  induction front as [|x front IH]; intros H; [reflexivity|].
  inversion H as [|? ? Hx Hfront]; subst.
  change ((x :: front) ++ [EmptyString]) with (x :: (front ++ [EmptyString])).
  rewrite join_cons_ne by (destruct front; discriminate).
  rewrite !append_assoc. cbn [nl_str append].
  rewrite split_after_one_line by exact Hx.
  cbn [app]. now rewrite IH.
Qed.

(** X18. The saved file is the report and then the log, line for line: its
    lines are the lines of the summary up to the closing banner, followed by
    the lines of the log as they were, the first of them on a line of its
    own. *)
Theorem saved_file_is_summary_then_log (logs : string) :
  exists report text,
    summary_lines logs = Ok (report ++ [EmptyString])
    /\ Save.file_text logs = Ok text
    /\ Py.split Py.nl text = report ++ Py.split Py.nl logs.
Proof.
  destruct (summary_lines_total logs) as (st & mid & Hscan & Hmid & Hls).
  set (body := mid ++ key_errors_section (error_messages st)
                 ++ patterns_section (detected_patterns logs)
                 ++ exit_codes_section (exit_codes st) ++ fallback_section st) in *.
  set (report := header ++ body ++ [banner; full_log_follows; banner]).
  assert (Heq : header ++ mid ++ key_errors_section (error_messages st)
                  ++ patterns_section (detected_patterns logs)
                  ++ exit_codes_section (exit_codes st)
                  ++ fallback_section st ++ trailer
                = report ++ [EmptyString]).
  { unfold report, body, trailer. rewrite <- !app_assoc. reflexivity. }
  assert (Hshape : Forall (summary_line st (detected_patterns logs))
                     (report ++ [EmptyString])).
  { rewrite <- Heq. apply render_shape.
    unfold summary_lines in Hls. rewrite Hscan in Hls. exact Hls. }
  rewrite Heq in Hls.
  exists report. eexists. split; [exact Hls|].
  split; [unfold Save.file_text, analyze_log_errors; rewrite Hls; reflexivity|].
  apply split_join_then.
  apply Forall_app in Hshape as [Hshape _].
  eapply Forall_impl; [|exact Hshape].
  intros l. apply summary_line_one_line; [exact (scan_one_line logs st Hscan)|].
  apply Forall_forall. intros d Hd.
  assert (Hall : forallb one_line (map snd failure_patterns) = true) by reflexivity.
  rewrite forallb_forall in Hall. apply Hall.
  eapply subseq_In; [apply match_patterns_subseq|exact Hd].
Qed.

Lemma subseq_filter {A} (f : A -> bool) (l : list A) : subseq (filter f l) l.
Proof.
  induction l as [|x l IH]; cbn [filter]; [constructor|].
  destruct (f x); now constructor.
Qed.

Lemma subseq_filter_skipn {A} (f : A -> bool) (l : list A) :
  forall n, subseq (filter f (skipn n l)) l.
Proof.
  induction l as [|x l IH]; intros [|n]; cbn [skipn].
  - constructor.
  - constructor.
  - apply subseq_filter.
  - constructor. apply IH.
Qed.

(** X19. The preview holds at most 50 lines, all of them lines of the log in
    the order of the log, and none of them blank. *)
Theorem preview_is_bounded (logs : string) :
  length (Save.preview_lines logs) <= 50
  /\ subseq (Save.preview_lines logs) (Py.split Py.nl logs)
  /\ Forall (fun line => Py.nonempty (Py.strip line) = true) (Save.preview_lines logs).
Proof.
  unfold Save.preview_lines, Py.last_n. split; [|split].
  - etransitivity; [apply filter_length_le|]. rewrite length_skipn. lia.
  - apply subseq_filter_skipn.
  - apply Forall_forall. intros line Hin. now apply filter_In in Hin.
Qed.

(** * Properties of the request headers *)

Lemma startswith_app (p rest : string) : Py.startswith p (p ++ rest) = true.
Proof.
  induction p as [|c p IH]; cbn [append Py.startswith]; [now destruct rest|].
  now rewrite Ascii.eqb_refl, IH.
Qed.

Lemma startswith_split (p s : string) :
  Py.startswith p s = true -> exists rest, s = (p ++ rest)%string.
Proof.
  revert s. induction p as [|c p IH]; intros s; cbn [Py.startswith].
  - intros _. now exists s.
  - destruct s as [|d s]; [discriminate|].
    intros H. apply andb_true_iff in H as [Hc Hp]. apply Ascii.eqb_eq in Hc. subst d.
    destruct (IH s Hp) as [rest ->]. now exists rest.
Qed.

Lemma contains_cons (p : string) (c : ascii) (s : string) :
  Py.contains p s = true -> Py.contains p (String c s) = true.
Proof. intros H. cbn [Py.contains]. rewrite H. apply orb_true_r. Qed.

Lemma contains_app (p a b : string) : Py.contains p (a ++ p ++ b) = true.
Proof.
  induction a as [|c a IH]; cbn [append].
  - destruct (p ++ b)%string eqn:E; cbn [Py.contains];
      rewrite <- E, startswith_app; reflexivity.
  - now apply contains_cons.
Qed.

Lemma startswith_contains (a p s : string) :
  Py.startswith (a ++ p) s = true -> Py.contains p s = true.
Proof.
  intros H. apply startswith_split in H as [rest ->].
  rewrite append_assoc. apply contains_app.
Qed.

(** A text that holds [a ++ p] holds [p]. *)
Lemma contains_longer (a p s : string) :
  Py.contains (a ++ p) s = true -> Py.contains p s = true.
Proof.
  induction s as [|c s IH]; intros H; cbn [Py.contains] in H;
    apply orb_true_iff in H as [H|H]; try exact (startswith_contains a p _ H).
  - discriminate H.
  - apply contains_cons, IH, H.
Qed.

Lemma is_github_url_contains (url : string) :
  Http.is_github_url url = Py.contains "github.com" url.
Proof.
  unfold Http.is_github_url.
  destruct (Py.contains "api.github.com" url) eqn:E; [|reflexivity].
  symmetry. exact (contains_longer "api." "github.com" url E).
Qed.

(** X20. A redirect is followed with the token exactly when the library
    accepts the address and the text [github.com] occurs somewhere in it (the
    test for [api.github.com] adds nothing): the three headers of a first
    request are then sent for any accepted address that holds that text, in
    the host or elsewhere.  For an address the library refuses, no request is
    built and no header is sent, on a redirect and on a first request. *)
Theorem redirect_sends_token_iff_github_text (accepts : string -> bool)
    (token url : string) :
  Http.is_github_url url = Py.contains "github.com" url
  /\ Http.request_headers accepts token url true
     = (if accepts url
        then Some (if Py.contains "github.com" url
                   then Http.auth_headers token else [])
        else None)
  /\ Http.request_headers accepts token url false
     = (if accepts url then Some (Http.auth_headers token) else None)
  /\ (forall before after,
        Http.request_headers accepts token (before ++ "github.com" ++ after) true
        = (if accepts (before ++ "github.com" ++ after)%string
           then Some (Http.auth_headers token) else None)).
Proof.
  split; [apply is_github_url_contains|]. split; [|split].
  - unfold Http.request_headers. rewrite is_github_url_contains. reflexivity.
  - reflexivity.
  - intros before after. unfold Http.request_headers.
    now rewrite is_github_url_contains, contains_app.
Qed.

(** * Properties of the choice of runs *)

Lemma subseq_filter_filter {A} (f g : A -> bool) (l : list A) :
  subseq (filter f (filter g l)) l.
Proof.
  induction l as [|x l IH]; cbn [filter]; [constructor|].
  destruct (g x); [cbn [filter]; destruct (f x)|]; now constructor.
Qed.

Lemma is_failure_iff (r : Main.run) :
  Main.is_failure r = true <-> Main.conclusion r = Some "failure".
Proof.
  unfold Main.is_failure. destruct (Main.conclusion r) as [c|]; [|split; discriminate].
  rewrite String.eqb_eq. split; congruence.
Qed.

(** X21. Without [--run-id] and [--all-failed] the runs chosen are the failed
    runs that share the commit of the first failed run of the listing, in the
    order of the listing: none when no run failed, and otherwise starting with
    that first failed run, whether or not a newer run succeeded. *)
Theorem default_choice_is_first_failed_commit (runs : list Main.run)
    (fetched : option Main.run) :
  exists chosen,
    Main.runs_to_process None false runs fetched = Some chosen
    /\ subseq chosen runs
    /\ match Main.failed_runs runs with
       | [] => chosen = []
       | first :: _ =>
           hd_error chosen = Some first
           /\ forall r,
                In r chosen
                <-> In r runs
                    /\ Main.conclusion r = Some "failure"
                    /\ Main.head_sha r = Main.head_sha first
       end.
Proof.
  unfold Main.runs_to_process. cbn [active].
  destruct (Main.failed_runs runs) as [|first rest] eqn:E.
  - exists []. repeat split. clear. induction runs; now constructor.
  - eexists. split; [reflexivity|]. rewrite <- E. split; [|split].
    + apply subseq_filter_filter.
    + rewrite E. cbn [filter]. now rewrite String.eqb_refl.
    + intros r. unfold Main.failed_runs. rewrite !filter_In, is_failure_iff, String.eqb_eq.
      tauto.
Qed.

(** * What the patterns of the extractor amount to *)

(** ** The matcher finds only what the expression matches *)

Lemma nullable_sound (ic : bool) (r : Re.regex) :
  Re.nullable r = true -> lang ic r EmptyString.
Proof.
  induction r as [| |k|r1 IH1 r2 IH2|r1 IH1 r2 IH2|r IH]; cbn [Re.nullable];
    try discriminate.
  - intros _. constructor.
  - intros H. apply andb_true_iff in H as [H1 H2].
    change EmptyString with (EmptyString ++ EmptyString)%string. constructor; auto.
  - intros H. apply orb_true_iff in H as [H|H];
      [apply lang_alt_l|apply lang_alt_r]; auto.
  - intros _. constructor.
Qed.

Lemma lang_void (ic : bool) (s : string) : ~ lang ic Re.Void s.
Proof. intros H. inversion H. Qed.

Lemma cat_sound (ic : bool) (r1 r2 : Re.regex) (s : string) :
  lang ic (Re.cat r1 r2) s -> lang ic (Re.Cat r1 r2) s.
Proof.
  assert (Heps : lang ic r2 s -> lang ic (Re.Cat Re.Eps r2) s).
  { intros H. change s with (EmptyString ++ s)%string. constructor; [constructor|exact H]. }
  destruct r1, r2; cbn [Re.cat]; intros H;
    try exact H; try (now apply lang_void in H); now apply Heps.
Qed.

Lemma alt_sound (ic : bool) (r1 r2 : Re.regex) (s : string) :
  lang ic (Re.alt r1 r2) s -> lang ic (Re.Alt r1 r2) s.
Proof.
  destruct r1, r2; cbn [Re.alt]; intros H;
    try exact H; try (now apply lang_alt_l); now apply lang_alt_r.
Qed.

Lemma deriv_sound (ic : bool) (c : ascii) (r : Re.regex) :
  forall s, lang ic (Re.deriv ic c r) s -> lang ic r (String c s).
Proof.
  induction r as [| |k|r1 IH1 r2 IH2|r1 IH1 r2 IH2|r IH]; intros s; cbn [Re.deriv].
  - intros H. now apply lang_void in H.
  - intros H. now apply lang_void in H.
  - destruct (Re.sym_match ic k c) eqn:E; intros H; [|now apply lang_void in H].
    inversion H; subst. now constructor.
  - assert (Hleft : lang ic (Re.cat (Re.deriv ic c r1) r2) s ->
                    lang ic (Re.Cat r1 r2) (String c s)).
    { intros H. apply cat_sound in H. inversion H as [| |? ? s1 s2 H1 H2| | | |]; subst.
      change (String c (s1 ++ s2)) with (String c s1 ++ s2)%string.
      constructor; auto. }
    destruct (Re.nullable r1) eqn:N; [|exact Hleft].
    intros H. apply alt_sound in H. inversion H; subst; [now apply Hleft|].
    change (String c s) with (EmptyString ++ String c s)%string.
    constructor; [now apply nullable_sound|auto].
  - intros H. apply alt_sound in H.
    inversion H; subst; [apply lang_alt_l|apply lang_alt_r]; auto.
  - intros H. apply cat_sound in H. inversion H as [| |? ? s1 s2 H1 H2| | | |]; subst.
    change (String c (s1 ++ s2)) with (String c s1 ++ s2)%string.
    constructor; auto.
Qed.

Lemma matches_sound (ic : bool) (s : string) :
  forall r, Re.matches ic r s = true ->
            exists m rest, s = (m ++ rest)%string /\ lang ic r m.
Proof.
  induction s as [|c s IH]; intros r; cbn [Re.matches]; intros H;
    apply orb_true_iff in H as [H|H].
  - exists EmptyString, EmptyString. split; [reflexivity|now apply nullable_sound].
  - discriminate H.
  - exists EmptyString, (String c s). split; [reflexivity|now apply nullable_sound].
  - apply IH in H as (m & rest & -> & H). exists (String c m), rest.
    split; [reflexivity|now apply deriv_sound].
Qed.

(** ** Literals and alternatives are matched exactly *)

Lemma matches_void (ic : bool) (s : string) : Re.matches ic Re.Void s = false.
Proof. induction s as [|c s IH]; cbn [Re.matches Re.nullable Re.deriv orb]; auto. Qed.

Lemma matches_eps (ic : bool) (s : string) : Re.matches ic Re.Eps s = true.
Proof. destruct s; reflexivity. Qed.

Lemma matches_alt (ic : bool) (s : string) :
  forall r1 r2,
    Re.matches ic (Re.Alt r1 r2) s = Re.matches ic r1 s || Re.matches ic r2 s.
Proof.
  induction s as [|c s IH]; intros r1 r2; cbn [Re.matches Re.nullable Re.deriv].
  - now rewrite !orb_false_r.
  - assert (H : Re.matches ic (Re.alt (Re.deriv ic c r1) (Re.deriv ic c r2)) s
                = Re.matches ic (Re.deriv ic c r1) s
                  || Re.matches ic (Re.deriv ic c r2) s).
    { destruct (Re.deriv ic c r1), (Re.deriv ic c r2); cbn [Re.alt];
        rewrite ?matches_void, ?orb_false_r, ?orb_false_l; try reflexivity;
        apply IH. }
    rewrite H.
    destruct (Re.nullable r1), (Re.nullable r2),
      (Re.matches ic (Re.deriv ic c r1) s), (Re.matches ic (Re.deriv ic c r2) s);
      reflexivity.
Qed.

Lemma matches_lit (p : string) :
  forall s, Re.matches false (Re.Lit p) s = Py.startswith p s.
Proof.
  induction p as [|a p IH]; intros s; cbn [Re.Lit].
  - rewrite matches_eps. now destruct s.
  - destruct s as [|c s]; cbn [Re.matches Re.nullable Re.deriv Re.sym_match
                                 Py.startswith andb orb]; [reflexivity|].
    destruct (Ascii.eqb a c); cbn [andb].
    + rewrite <- IH. destruct (Re.Lit p); reflexivity.
    + assert (Hc : Re.cat Re.Void (Re.Lit p) = Re.Void) by reflexivity.
      rewrite Hc. apply matches_void.
Qed.

Lemma search_alt (ic : bool) (s : string) (r1 r2 : Re.regex) :
  Re.search ic (Re.Alt r1 r2) s = Re.search ic r1 s || Re.search ic r2 s.
Proof.
  induction s as [|c s IH]; cbn [Re.search]; rewrite matches_alt.
  - now rewrite !orb_false_r.
  - rewrite IH.
    destruct (Re.matches ic r1 (String c s)), (Re.matches ic r2 (String c s)),
      (Re.search ic r1 s), (Re.search ic r2 s); reflexivity.
Qed.

Lemma search_lit (p s : string) : Re.search false (Re.Lit p) s = Py.contains p s.
Proof.
  induction s as [|c s IH]; cbn [Re.search Py.contains]; rewrite matches_lit;
    [reflexivity|now rewrite IH].
Qed.

Lemma lang_lit (p : string) : forall s, lang false (Re.Lit p) s -> s = p.
Proof.
  induction p as [|a p IH]; intros s H; cbn [Re.Lit] in H.
  - now inversion H.
  - inversion H as [| |? ? s1 s2 H1 H2| | | |]; subst.
    inversion H1 as [|? c Hc| | | | |]; subst.
    cbn [Re.sym_match] in Hc. apply Ascii.eqb_eq in Hc. subst c.
    cbn [append]. now rewrite (IH s2 H2).
Qed.

Lemma word_then_contains (suffix s : string) :
  Re.matches false (re_word_then suffix) s = true -> Py.contains suffix s = true.
Proof.
  intros H. apply matches_sound in H as (m & rest & -> & H).
  unfold re_word_then in H.
  inversion H as [| |? ? s1 s23 H1 H23| | | |]; subst.
  inversion H23 as [| |? ? s2 s3 H2 H3| | | |]; subst.
  apply lang_lit in H3. subst s3.
  rewrite <- (append_assoc s1 s2 suffix), (append_assoc (s1 ++ s2) suffix rest).
  apply contains_app.
Qed.

Lemma startswith_shorter (p a s : string) :
  Py.startswith (p ++ a) s = true -> Py.startswith p s = true.
Proof.
  intros H. apply startswith_split in H as [rest ->].
  rewrite append_assoc. apply startswith_app.
Qed.

Lemma contains_shorter (p a s : string) :
  Py.contains (p ++ a) s = true -> Py.contains p s = true.
Proof.
  induction s as [|c s IH]; intros H; cbn [Py.contains] in H |- *;
    apply orb_true_iff in H as [H|H]; apply orb_true_iff.
  - left. exact (startswith_shorter p a _ H).
  - discriminate H.
  - left. exact (startswith_shorter p a _ H).
  - right. now apply IH.
Qed.

(** X22.  A line counts as a test failure exactly when it contains ERROR or
    FAIL in capitals and the word test in any case: the alternatives FAILED
    and pytest of the source never decide. *)
Theorem test_failure_is_two_substring_tests (line : string) :
  is_test_failure line
  = (Py.contains "ERROR" line || Py.contains "FAIL" line)
    && Py.contains "test" (Py.lower line).
Proof.
  unfold is_test_failure, re_failed. rewrite !search_alt, !search_lit.
  pose proof (contains_shorter "FAIL" "ED" line) as Hf.
  pose proof (contains_longer "py" "test" (Py.lower line)) as Hp.
  change ("FAIL" ++ "ED")%string with "FAILED" in Hf.
  change ("py" ++ "test")%string with "pytest" in Hp.
  destruct (Py.contains "FAILED" line); [rewrite (Hf eq_refl)|];
    (destruct (Py.contains "pytest" (Py.lower line)); [rewrite (Hp eq_refl)|]);
    destruct (Py.contains "ERROR" line), (Py.contains "FAIL" line);
    try reflexivity;
    destruct (Py.contains "test" (Py.lower line)); reflexivity.
Qed.

(** X23.  The line that ends a traceback is exactly a line containing
    Error:, Exception: or Warning: anywhere: the three patterns anchored at
    the start of the line never decide. *)
Theorem exception_line_is_substring_test (next_line : string) :
  is_exception_line next_line
  = Py.contains "Error:" next_line
    || Py.contains "Exception:" next_line
    || Py.contains "Warning:" next_line.
Proof.
  unfold is_exception_line, re_exception. rewrite !search_alt, !search_lit.
  pose proof (word_then_contains "Error:" next_line) as H1.
  pose proof (word_then_contains "Exception:" next_line) as H2.
  pose proof (word_then_contains "Warning:" next_line) as H3.
  destruct (Re.matches false (re_word_then "Error:") next_line);
    [rewrite (H1 eq_refl)|];
    (destruct (Re.matches false (re_word_then "Exception:") next_line);
     [rewrite (H2 eq_refl)|]);
    (destruct (Re.matches false (re_word_then "Warning:") next_line);
     [rewrite (H3 eq_refl)|]);
    destruct (Py.contains "Error:" next_line),
      (Py.contains "Exception:" next_line), (Py.contains "Warning:" next_line);
    reflexivity.
Qed.

(** ** Patterns of plain texts on the lower-cased log *)

Lemma lower_char_idem (c : ascii) :
  Py.lower_char (Py.lower_char c) = Py.lower_char c.
Proof. destruct c as [[] [] [] [] [] [] [] []]; reflexivity. Qed.

Lemma matches_lit_lower (p : string) :
  forall s, Re.matches true (Re.Lit p) (Py.lower s)
            = Py.startswith (Py.lower p) (Py.lower s).
Proof.
  induction p as [|a p IH]; intros s; cbn [Re.Lit Py.lower].
  - rewrite matches_eps. now destruct (Py.lower s).
  - destruct s as [|c s]; cbn [Py.lower Re.matches Re.nullable Re.deriv
                                 Re.sym_match Py.startswith andb orb];
      [reflexivity|].
    rewrite lower_char_idem.
    destruct (Ascii.eqb (Py.lower_char a) (Py.lower_char c)); cbn [andb].
    + rewrite <- IH. destruct (Re.Lit p); reflexivity.
    + assert (Hc : Re.cat Re.Void (Re.Lit p) = Re.Void) by reflexivity.
      rewrite Hc. apply matches_void.
Qed.

Lemma search_lit_lower (p s : string) :
  Re.search true (Re.Lit p) (Py.lower s) = mentions p s.
Proof.
  unfold mentions.
  induction s as [|c s IH].
  - destruct p; reflexivity.
  - change (Py.lower (String c s)) with (String (Py.lower_char c) (Py.lower s)).
    cbn [Re.search Py.contains]. rewrite IH.
    change (String (Py.lower_char c) (Py.lower s)) with (Py.lower (String c s)).
    now rewrite matches_lit_lower.
Qed.

Lemma match_patterns_In (table : list (Re.regex * string)) (text d : string) :
  In d (match_patterns table text)
  <-> exists r, In (r, d) table /\ Re.search true r text = true.
Proof.
  induction table as [|[r0 d0] table IH]; cbn [match_patterns In].
  - split; [tauto|intros (r & [] & _)].
  - destruct (Re.search true r0 text) eqn:E; cbn [In]; rewrite IH; split.
    + intros [<-|(r & Hr & Hs)]; [exists r0|exists r]; auto.
    + intros (r & [Heq|Hr] & Hs); [left; congruence|right; eauto].
    + intros (r & Hr & Hs). eauto.
    + intros (r & [Heq|Hr] & Hs); [congruence|eauto].
Qed.

(** X24. A pattern that is a choice of plain texts is reported whenever one
    of its texts occurs in the log, whatever the case of the letters in the
    log or in the pattern: the log is lower-cased and then searched with
    case ignored. *)
Theorem literal_patterns_ignore_case (logs : string) (texts : list string)
    (description p : string) :
  In (texts, description) literal_alternatives ->
  In p texts ->
  mentions p logs = true ->
  In description (detected_patterns logs).
Proof.
  intros Hin Hp Hs. unfold detected_patterns. rewrite match_patterns_In.
  cbn [In literal_alternatives] in Hin.
  repeat (destruct Hin as [Hin|Hin];
          [apply pair_equal_spec in Hin as [<- <-];
           cbn [In] in Hp;
           eexists; split;
           [cbn [In failure_patterns]; tauto
           |rewrite !search_alt, !search_lit_lower;
            repeat (destruct Hp as [<-|Hp];
                    [rewrite Hs; cbn [orb]; rewrite ?orb_true_r; reflexivity|]);
            contradiction]
          |]).
  contradiction.
Qed.

Lemma literal_patterns_ignore_case_witness :
  In (["TimeoutError"; "timed out"], "Timeout error detected") literal_alternatives
  /\ In "timed out" ["TimeoutError"; "timed out"]
  /\ mentions "timed out" "step 3: request Timed Out after 30s" = true
  /\ In "Timeout error detected"
        (detected_patterns "step 3: request Timed Out after 30s").
Proof.
  assert (H1 : In (["TimeoutError"; "timed out"], "Timeout error detected")
                  literal_alternatives)
    by (cbn [In literal_alternatives]; tauto).
  assert (H2 : In "timed out" ["TimeoutError"; "timed out"])
    by (cbn [In]; tauto).
  split; [exact H1|]. split; [exact H2|]. split; [reflexivity|].
  exact (literal_patterns_ignore_case "step 3: request Timed Out after 30s"
           ["TimeoutError"; "timed out"] "Timeout error detected" "timed out"
           H1 H2 eq_refl).
Defined.

(** * The step stack at a group-close line *)

Lemma track_endgroup_pop (line : string) (st : state) :
  Py.contains "##[endgroup]" line = true ->
  step_stack st <> [] ->
  exists st1,
    track_endgroup line st = Ok st1
    /\ step_stack st1 = removelast (step_stack st)
    /\ current_step st1 = top_of (step_stack st1).
Proof.
  unfold track_endgroup. intros -> Hne.
  destruct (step_stack st) as [|x l] eqn:E; [congruence|].
  cbn [Py.nonempty_list pop bind].
  remember (removelast (x :: l)) as r eqn:Er.
  destruct r as [|y r]; cbn [Py.nonempty_list bind].
  - eexists. repeat split.
  - rewrite (index_last_is_last (y :: r) EmptyString) by discriminate.
    cbn [bind]. eexists. repeat split.
Qed.

Lemma track_endgroup_empty (line : string) (st : state) :
  step_stack st = [] -> track_endgroup line st = Ok st.
Proof.
  unfold track_endgroup. intros ->. now destruct (Py.contains _ line).
Qed.

(** C4, as stated, fails: after a command marker met outside every group the
    stack is empty and the current step is the command's; the group-close line
    that follows leaves the stack empty and the current step present. *)
Lemma endgroup_on_empty_stack_counterexample :
  exists st0 st1,
    process_line command_log 0 "##[command]make" init = Ok st0
    /\ step_stack st0 = []
    /\ process_line command_log 1 "##[endgroup]" st0 = Ok st1
    /\ step_stack st1 = []
    /\ current_step st1 = Some "Command: make"
    /\ scan (log_of command_log) = Ok st1.
Proof.
  do 2 eexists. split; [vm_compute; reflexivity|].
  split; [reflexivity|]. split; [vm_compute; reflexivity|].
  repeat split.
Qed.

(** C4, amended. A line with a group-close marker is always processed, and:

    - met while the step stack is empty, it leaves the stack empty and, when
      it carries no group-open and no command marker, leaves the current step
      as it was before the line: absent if it was absent, and still the
      command's step if a command marker had set one outside every group;
    - met while the stack is not empty (the test of line 365 comes after the
      push of a group-open marker on the same line), it removes the top of the
      stack and, when it carries no command marker, makes the current step the
      new top of the stack, and absent when the stack has become empty: after
      the close of the last open group the current step is absent. *)
Theorem endgroup_on_empty_stack_keeps_current_step (lines : list string) (i : nat)
    (line : string) (st : state) :
  Py.contains "##[endgroup]" line = true ->
  exists st',
    process_line lines i line st = Ok st'
    /\ (step_stack st = [] ->
        step_stack st' = []
        /\ (Py.contains "##[group]" line = false ->
            Py.contains "##[command]" line = false ->
            current_step st' = current_step st))
    /\ (step_stack (track_group line st) <> [] ->
        step_stack st' = removelast (step_stack (track_group line st))
        /\ (Py.contains "##[command]" line = false ->
            current_step st' = top_of (step_stack st')
            /\ (step_stack st' = [] -> current_step st' = None))).
Proof.
  intros Hend.
  destruct (process_line_total lines i line st) as [st' Hst'].
  exists st'. split; [exact Hst'|].
  destruct (process_line_tracker _ _ _ _ _ Hst') as (st1 & E1 & Hc & Hs).
  split.
  - intros Hstack.
    destruct (list_eq_dec string_dec (step_stack (track_group line st)) [])
      as [He|Hne].
    + rewrite (track_endgroup_empty line _ He) in E1. injection E1 as <-.
      split; [now rewrite Hs|].
      intros Hg Hcmd. rewrite Hc, track_command_skip by exact Hcmd.
      now rewrite track_group_skip by exact Hg.
    + destruct (track_endgroup_pop line _ Hend Hne) as (st2 & E2 & Hpop & _).
      rewrite E1 in E2. injection E2 as <-.
      split.
      * rewrite Hs, Hpop. revert Hne. unfold track_group.
        destruct (Py.contains "##[group]" line); [|now rewrite Hstack].
        destruct (Re.search_group _ _ line) as [g|]; [|now rewrite Hstack].
        cbn [set_current_step set_step_stack step_stack]. rewrite Hstack.
        reflexivity.
      * intros Hg. rewrite (track_group_skip line st Hg) in Hne. now rewrite Hstack in Hne.
  - intros Hne.
    destruct (track_endgroup_pop line _ Hend Hne) as (st2 & E2 & Hpop & Hcur).
    rewrite E1 in E2. injection E2 as <-.
    split; [now rewrite Hs|].
    intros Hcmd.
    assert (Hcs : current_step st' = top_of (step_stack st')).
    { rewrite Hc, track_command_skip by exact Hcmd. now rewrite Hs. }
    split; [exact Hcs|].
    intros He. now rewrite Hcs, He.
Qed.

Lemma endgroup_on_empty_stack_witness :
  Py.contains "##[endgroup]" "##[endgroup]" = true
  /\ (exists st',
        process_line command_log 1 "##[endgroup]"
          (State (Some "Command: make") [] [] [] false [] []) = Ok st'
        /\ step_stack st' = []
        /\ current_step st' = Some "Command: make")
  /\ (exists st',
        process_line group_log 1 "##[endgroup]"
          (State (Some "Build") ["Build"] [] [] false [] []) = Ok st'
        /\ step_stack st' = []
        /\ current_step st' = None).
Proof.
  split; [reflexivity|]. split.
  - destruct (endgroup_on_empty_stack_keeps_current_step command_log 1 "##[endgroup]"
                (State (Some "Command: make") [] [] [] false [] []) eq_refl)
      as (st' & H & Hempty & _).
    exists st'. split; [exact H|].
    destruct (Hempty eq_refl) as [Hs Hc].
    split; [exact Hs|]. exact (Hc eq_refl eq_refl).
  - destruct (endgroup_on_empty_stack_keeps_current_step group_log 1 "##[endgroup]"
                (State (Some "Build") ["Build"] [] [] false [] []) eq_refl)
      as (st' & H & _ & Hpop).
    exists st'. split; [exact H|].
    assert (Hne : step_stack (track_group "##[endgroup]"
                                (State (Some "Build") ["Build"] [] [] false [] []))
                  <> []) by discriminate.
    destruct (Hpop Hne) as [Hs Hc].
    assert (He : step_stack st' = []) by (rewrite Hs; reflexivity).
    split; [exact He|]. exact (proj2 (Hc eq_refl) He).
Defined.

(** * A traceback anywhere in a log *)

Lemma index_at {A} (pre : list A) (x : A) (rest : list A) (i : nat) :
  i = length pre -> index (pre ++ x :: rest) i = Ok x.
Proof. intros ->. apply index_app_r. Qed.

(** The capture that starts at the header of the three lines, wherever they
    stand in the log. *)
Lemma capture_block (pre rest : list string) :
  capture_traceback (pre ++ tb_block ++ rest) (length pre) traceback_line
  = Ok (tb_block ++ context_prefix (firstn 4 rest)).
Proof.
  unfold capture_traceback.
  assert (Hlen : length (pre ++ tb_block ++ rest) = length pre + 3 + length rest)
    by (rewrite !length_app; cbn [length tb_block]; lia).
  rewrite Hlen.
  assert (Hjs : Py.range (length pre + 1)
                  (Nat.min (length pre + 40) (length pre + 3 + length rest))
                = (length pre + 1) :: (length pre + 2)
                  :: Py.range (length pre + 3)
                       (Nat.min (length pre + 40) (length pre + 3 + length rest))).
  { unfold Py.range.
    replace (Nat.min (length pre + 40) (length pre + 3 + length rest)
             - (length pre + 1))
      with (S (S (Nat.min (length pre + 40) (length pre + 3 + length rest)
                  - (length pre + 3)))) by lia.
    cbn [seq]. repeat f_equal; lia. }
  rewrite Hjs. cbn [tb_scan].
  assert (H1 : index (pre ++ tb_block ++ rest) (length pre + 1) = Ok tb_frame).
  { change (pre ++ tb_block ++ rest)
      with (pre ++ [traceback_line] ++ tb_frame :: tb_exception :: rest).
    rewrite app_assoc. apply index_at. rewrite length_app. reflexivity. }
  assert (H2 : index (pre ++ tb_block ++ rest) (length pre + 2) = Ok tb_exception).
  { change (pre ++ tb_block ++ rest)
      with (pre ++ [traceback_line; tb_frame] ++ tb_exception :: rest).
    rewrite app_assoc. apply index_at. rewrite length_app. reflexivity. }
  rewrite H1. cbn [bind].
  change (is_exception_line tb_frame) with false.
  change (Py.contains "##[" tb_frame) with false.
  cbn [andb]. rewrite H2. cbn [bind].
  change (is_exception_line tb_exception) with true.
  cbv iota. rewrite Hlen.
  replace (Py.range (length pre + 2 + 1)
             (Nat.min (length pre + 2 + 5) (length pre + 3 + length rest)))
    with (seq (length (pre ++ tb_block)) (Nat.min 4 (length rest)))
    by (unfold Py.range; rewrite length_app; cbn [length tb_block]; f_equal; lia).
  rewrite (app_assoc pre tb_block rest).
  rewrite tb_context_takes_prefix by lia.
  now rewrite firstn_min_length.
Qed.

(** The header line of a traceback sets off no other detection: the line
    adds the captured block, and nothing else, to the error messages. *)
Lemma traceback_line_appends (lines : list string) (i : nat) (st : state)
    (block : list string) :
  capture_traceback lines i traceback_line = Ok block ->
  block <> [] ->
  length block <= 30 ->
  exists st',
    process_line lines i traceback_line st = Ok st'
    /\ error_messages st' = error_messages st ++ [Py.join nl_str block].
Proof.
  intros Hcap Hne Hlen. unfold process_line.
  rewrite track_group_skip, track_endgroup_skip by reflexivity. cbn [bind].
  rewrite track_command_skip by reflexivity.
  destruct (detect_error_no_marker traceback_line st eq_refl) as [_ Hm].
  set (st1 := detect_error traceback_line st) in *.
  rewrite detect_exit_skip by reflexivity.
  unfold detect_traceback.
  assert (Ht : is_traceback_line traceback_line = true) by reflexivity.
  rewrite Ht, Hcap. cbn [bind].
  set (st2 := match active (current_step st1) with Some _ => _ | None => _ end).
  assert (H2 : error_messages st2 = error_messages st1).
  { unfold st2. destruct (active _); [|reflexivity].
    destruct (for_step _ _ _) as [steps found]; destruct found; reflexivity. }
  clearbody st2.
  destruct block as [|b block]; [congruence|]. cbn [Py.nonempty_list].
  rewrite firstn_all2 by exact Hlen.
  cbn [set_error_messages current_step failed_steps error_messages].
  destruct (active _); cbn [bind];
    rewrite (detect_test_skip traceback_line) by reflexivity;
    eexists; (split; [reflexivity|]); cbn; now rewrite H2, Hm.
Qed.

Lemma process_from_app (lines a b : list string) :
  forall i st,
    process_from lines i (a ++ b) st
    = (st1 <- process_from lines i a st ;; process_from lines (i + length a) b st1).
Proof.
  induction a as [|x a IH]; intros i st; cbn [app process_from length bind].
  - now rewrite Nat.add_0_r.
  - destruct (process_line lines i x st) as [st1|]; cbn [bind]; [|reflexivity].
    rewrite IH. now replace (S i + length a) with (i + S (length a)) by lia.
Qed.

Lemma process_from_messages (lines todo : list string) :
  forall i st st',
    process_from lines i todo st = Ok st' ->
    begins (error_messages st) (error_messages st').
Proof.
  induction todo as [|line rest IH]; intros i st st'; cbn [process_from].
  - intros [= <-]. apply begins_refl.
  - destruct (process_line lines i line st) as [st1|] eqn:E1; cbn [bind]; [|discriminate].
    intros H. eapply begins_trans; [|exact (IH _ _ _ H)].
    apply (process_line_grows _ _ _ _ _ E1).
Qed.

(** C7. In a log that contains the lines [Traceback (most recent call last):],
    a [File] frame and [ValueError: bad] one after the other, whatever lines
    stand before and after them, the capture that starts at the header holds
    these three lines and then only the context lines (non-empty, not a
    marker) that come first among the next four lines: the scan stops at the
    exception message.  Processing the header appends this block, joined, to
    the error messages, and the block is among the error messages of the
    whole log.  On the log of the claim, which ends after the three lines,
    the block is the three lines and the only error message. *)
Theorem traceback_capture_stops_at_exception (logs : string)
    (pre rest : list string) :
  Py.split Py.nl logs = pre ++ tb_block ++ rest ->
  capture_traceback (Py.split Py.nl logs) (length pre) traceback_line
  = Ok (tb_block ++ context_prefix (firstn 4 rest))
  /\ length (context_prefix (firstn 4 rest)) <= 4
  /\ (forall st, exists st',
        process_line (Py.split Py.nl logs) (length pre) traceback_line st = Ok st'
        /\ error_messages st'
           = error_messages st
             ++ [Py.join nl_str (tb_block ++ context_prefix (firstn 4 rest))])
  /\ (exists st0 st more,
        process_from (Py.split Py.nl logs) 0 pre init = Ok st0
        /\ scan logs = Ok st
        /\ error_messages st
           = error_messages st0
             ++ [Py.join nl_str (tb_block ++ context_prefix (firstn 4 rest))]
             ++ more)
  /\ capture_traceback (Py.split Py.nl (log_of (tb_block ++ [EmptyString]))) 0
       traceback_line
     = Ok tb_block
  /\ exists st,
       scan (log_of (tb_block ++ [EmptyString])) = Ok st
       /\ error_messages st = [Py.join nl_str tb_block].
Proof.
  intros Hlines.
  assert (Hctx : length (context_prefix (firstn 4 rest)) <= 4).
  { etransitivity; [apply context_prefix_length|]. rewrite length_firstn. lia. }
  assert (Hcap : capture_traceback (Py.split Py.nl logs) (length pre) traceback_line
                 = Ok (tb_block ++ context_prefix (firstn 4 rest)))
    by (rewrite Hlines; apply capture_block).
  assert (Hline : forall st, exists st',
             process_line (Py.split Py.nl logs) (length pre) traceback_line st = Ok st'
             /\ error_messages st'
                = error_messages st
                  ++ [Py.join nl_str (tb_block ++ context_prefix (firstn 4 rest))]).
  { intros st. apply traceback_line_appends; [exact Hcap|discriminate|].
    rewrite length_app. cbn [length tb_block]. lia. }
  split; [exact Hcap|]. split; [exact Hctx|]. split; [exact Hline|].
  split; [|split; [vm_compute; reflexivity|eexists; split; vm_compute; reflexivity]].
  destruct (process_from_total (Py.split Py.nl logs) pre 0 init) as [st0 H0].
  destruct (Hline st0) as (st1 & H1 & Hm1).
  destruct (process_from_total (Py.split Py.nl logs)
              (tl tb_block ++ rest) (S (length pre)) st1) as [st H2].
  pose proof (process_from_messages _ _ _ _ _ H2) as [more Hmore].
  exists st0, st, more. split; [exact H0|]. split.
  - unfold scan. rewrite Hlines at 2.
    rewrite process_from_app, H0. cbn [bind app tb_block process_from].
    cbn [Nat.add] . rewrite H1. cbn [bind]. exact H2.
  - now rewrite Hmore, Hm1, <- app_assoc.
Qed.

Lemma traceback_capture_stops_at_exception_witness :
  Py.split Py.nl (log_of (["##[group]Test"] ++ tb_block ++ ["    at top"; ""]))
  = ["##[group]Test"] ++ tb_block ++ ["    at top"; ""]
  /\ capture_traceback
       (Py.split Py.nl (log_of (["##[group]Test"] ++ tb_block ++ ["    at top"; ""])))
       1 traceback_line
     = Ok (tb_block ++ ["    at top"]).
Proof.
  split; [reflexivity|].
  exact (proj1 (traceback_capture_stops_at_exception
                  (log_of (["##[group]Test"] ++ tb_block ++ ["    at top"; ""]))
                  ["##[group]Test"] ["    at top"; ""] eq_refl)).
Defined.
